(** * The conversion worker (src/lib/workers/worker.js)

    A shallow embedding of the task handler that [worker.js] registers with
    [WorkerUtils.workerTaskProcessor], of the engine-instance manager
    [GetHandlebarsInstance], of [expireCache] and of [generateResult],
    together with the properties of the engine-handle lifecycle, the
    compiled-template cache and the settlement protocol of a task.

    JavaScript values are modelled by a first-order data type, module-level
    variables by the fields of a record that is threaded through a state and
    exception monad, and the libraries the worker calls but does not
    implement (Node's [Buffer], [JSON], [path] and [fs], the template engine
    and the output processors) by the fields of a class. *)

From Stdlib Require Import ZArith String Ascii List Bool Lia.
From stdpp Require Import base option list strings gmap pretty.

Open Scope Z_scope.
#[local] Set Warnings "-register-all".

(** ** JavaScript values *)

(** The values the worker handles are the results of [JSON.parse], plus
    [undefined]. Numbers are restricted to the integers: no branch of the
    worker inspects a number. An object is the list of its own enumerable
    properties in insertion order. *)
Inductive JSValue : Type :=
| JUndefined
| JNull
| JBool (b : bool)
| JNumber (n : Z)
| JString (s : string)
| JArray (items : list JSValue)
| JObject (props : list (string * JSValue)).

(** An [Error] object: its [name] and its [message]. *)
Record JSError : Type := mkError { err_name : string; err_message : string }.

(** [Error.prototype.toString]. *)
Definition Error_toString (e : JSError) : string :=
  if String.eqb (err_name e) "" then err_message e
  else if String.eqb (err_message e) "" then err_name e
  else err_name e +:+ ": " +:+ err_message e.

Definition TypeError (m : string) : JSError := mkError "TypeError" m.

(** The outcome of evaluating an expression: a value or a thrown error. *)
Inductive Res (A : Type) : Type :=
| Ok (a : A)
| Throw (e : JSError).
Arguments Ok {A} a.
Arguments Throw {A} e.

(** A field of a task message is a string or is missing ([undefined]). *)
Definition field : Type := option string.

(** [ToString] on a field, as applied by [RegExp.prototype.test] and by
    [JSON.parse] to their argument. *)
Definition ToString (f : field) : string :=
  match f with
  | Some s => s
  | None => "undefined"
  end.

(** [ToBoolean] on a field: a missing field and the empty string are falsy. *)
Definition field_truthy (f : field) : bool :=
  match f with
  | Some s => negb (String.eqb s "")
  | None => false
  end.

(** [ToBoolean] on a value. *)
Definition truthy (v : JSValue) : bool :=
  match v with
  | JUndefined | JNull => false
  | JBool b => b
  | JNumber n => negb (n =? 0)
  | JString s => negb (String.eqb s "")
  | JArray _ | JObject _ => true
  end.

(** The own property [k] of an object whose properties are [props]; a later
    definition of a key shadows an earlier one. *)
Fixpoint own_property (k : string) (props : list (string * JSValue)) : option JSValue :=
  match props with
  | [] => None
  | (k', v) :: rest =>
      match own_property k rest with
      | Some w => Some w
      | None => if String.eqb k' k then Some v else None
      end
  end.

Definition index_key (i : nat) : string := pretty (N.of_nat i).

Fixpoint string_entries (i : nat) (s : string) : list (string * JSValue) :=
  match s with
  | EmptyString => []
  | String c s' => (index_key i, JString (String c EmptyString)) :: string_entries (S i) s'
  end.

(** [Object.entries(v)] for a truthy [v]: the own enumerable string-keyed
    properties of [ToObject(v)]. *)
Definition Object_entries (v : JSValue) : list (string * JSValue) :=
  match v with
  | JString s => string_entries 0 s
  | JArray items => imap (fun i x => (index_key i, x)) items
  | JObject props => props
  | _ => []
  end.

(** What [v.constructor] evaluates to for a truthy [v]: one of the built-in
    constructors, found on the prototype, unless [v] is an object with an own
    property of that name, which shadows it. *)
Inductive Constructor : Type :=
| CtorObject
| CtorArray
| CtorString
| CtorNumber
| CtorBoolean
| CtorOwn (v : JSValue).

Definition constructor_of (v : JSValue) : Constructor :=
  match v with
  | JObject props =>
      match own_property "constructor" props with
      | Some w => CtorOwn w
      | None => CtorObject
      end
  | JArray _ => CtorArray
  | JString _ => CtorString
  | JNumber _ => CtorNumber
  | _ => CtorBoolean
  end.

(** [c === Object]. A value read from JSON data is never the function
    [Object] itself. *)
Definition is_Object_constructor (c : Constructor) : bool :=
  match c with
  | CtorObject => true
  | _ => false
  end.

(** [v.k]: reading a property of [undefined] or [null] throws; the worker
    only reads properties that no prototype defines. *)
Definition get_property (v : JSValue) (k : string) : Res JSValue :=
  match v with
  | JUndefined => Throw (TypeError ("Cannot read properties of undefined (reading '" +:+ k +:+ "')"))
  | JNull => Throw (TypeError ("Cannot read properties of null (reading '" +:+ k +:+ "')"))
  | JObject props => Ok (default JUndefined (own_property k props))
  | _ => Ok JUndefined
  end.

(** ** The pattern [/^[a-zA-Z0-9/\r\n+]*={0,2}$/] *)

Definition in_range (lo hi c : ascii) : bool :=
  (nat_of_ascii lo <=? nat_of_ascii c)%nat && (nat_of_ascii c <=? nat_of_ascii hi)%nat.

(** The character class [[a-zA-Z0-9/\r\n+]]. *)
Definition base64_class (c : ascii) : bool :=
  in_range "a" "z" c || in_range "A" "Z" c || in_range "0" "9" c
  || Ascii.eqb c "/" || Ascii.eqb c "013" || Ascii.eqb c "010" || Ascii.eqb c "+".

(** What is left of [s] after the longest prefix of class characters. *)
Fixpoint skip_class (s : string) : string :=
  match s with
  | String c s' => if base64_class c then skip_class s' else s
  | EmptyString => EmptyString
  end.

(** [base64RegEx.test(s)]: since [=] is not in the class, the starred class
    can only match the longest prefix of class characters, and the rest must
    be at most two [=] up to the end of the input. *)
Definition base64RegEx_test (s : string) : bool :=
  let rest := skip_class s in
  String.eqb rest "" || String.eqb rest "=" || String.eqb rest "==".

(** The language of the pattern, as it reads: characters of the class, then
    at most two [=], and nothing else. *)
Fixpoint all_class (s : string) : bool :=
  match s with
  | EmptyString => true
  | String c s' => base64_class c && all_class s'
  end.

Definition matches_base64RegEx (s : string) : Prop :=
  exists body pad,
    s = body +:+ pad /\ all_class body = true /\ (pad = "" \/ pad = "=" \/ pad = "==").

(** ** Replies, rejections and promises *)

(** Modelled from the spec: [errorCodes] of [lib/error/error.js], which is
    not among the sources. The spec has two kinds of error. *)
Inductive errorCodes : Type := BadRequest | NotFound.

(** Modelled from the spec: what [errorMessage] of [lib/error/error.js]
    returns. The spec represents every error as a descriptor
    [{kind, message}]. *)
Record ErrorDescriptor : Type := mkDescriptor { kind : errorCodes; message : string }.

(** Modelled from the spec: [errorMessage] of [lib/error/error.js], which
    is not among the sources: the descriptor of an error of the kind
    [code] with the message [text]. *)
Definition errorMessage (code : errorCodes) (text : string) : ErrorDescriptor :=
  mkDescriptor code text.

(** The [resultMsg] of a reply: the success envelope [{fhirResource: v}] or
    an error descriptor. *)
Inductive ResultMsg : Type :=
| Envelope (fhirResource : JSValue)
| Failure (descriptor : ErrorDescriptor).

Record Reply : Type := mkReply { status : Z; resultMsg : ResultMsg }.

(** The value a promise is rejected with: a reply built by the worker, or an
    error object that was thrown and caught by the promise itself. *)
Inductive Reason : Type :=
| ReasonReply (r : Reply)
| ReasonThrown (e : JSError).

Inductive Settled (A : Type) : Type :=
| Fulfilled (a : A)
| Rejected (r : Reason).
Arguments Fulfilled {A} a.
Arguments Rejected {A} r.

(** The task's promise is fulfilled with a reply, or with [undefined] by the
    bare [fulfill()] of the two notifications. *)
Definition Outcome : Type := Settled (option Reply).

(** The state of a promise: pending ([None]) or settled for good. Resolving
    or rejecting a settled promise changes nothing. *)
Definition settle {A : Type} (o : Settled A) (p : option (Settled A)) : option (Settled A) :=
  match p with
  | None => Some o
  | Some _ => p
  end.

(** ** Task messages *)

Inductive FieldName : Type :=
| FMessage
| FTemplate
| FReplacementDictionary
| FTemplatesMap.

Record TaskMessage : Type := mkTask {
  type : string;
  messageBase64 : field;
  templateBase64 : field;
  replacementDictionaryBase64 : field;
  templatesMapBase64 : field;
  messageContent : field;
  templateName : field;
  data : field
}.

Definition encoded (msg : TaskMessage) (f : FieldName) : field :=
  match f with
  | FMessage => messageBase64 msg
  | FTemplate => templateBase64 msg
  | FReplacementDictionary => replacementDictionaryBase64 msg
  | FTemplatesMap => templatesMapBase64 msg
  end.

Inductive TaskKind : Type :=
| InlineConversion
| NamedConversion
| TemplatesUpdated
| ConstantsUpdated.

(** The [case] labels of the handler's [switch (msg.type)]. *)
Definition task_kind (t : string) : option TaskKind :=
  if String.eqb t "/api/convert/hl7" then Some InlineConversion
  else if String.eqb t "/api/convert/hl7/:template" then Some NamedConversion
  else if String.eqb t "templatesUpdated" then Some TemplatesUpdated
  else if String.eqb t "constantsUpdated" then Some ConstantsUpdated
  else None.

(** Modelled from the spec: the engine handle that
    [HandlebarsConverter.instance] returns, whose module is not among the
    sources. The spec has it as an opaque capability that compiles
    templates; it is told apart here by the serial number of its
    construction and by what it was configured with. *)
Record Handle : Type := mkHandle {
  handle_id : nat;
  handle_location : JSValue;
  handle_templates : JSValue
}.

(** ** The libraries the worker calls *)

(** Node's built-ins and the collaborators of [lib/], none of which the
    worker implements. [Template] is what the engine's [compile] returns. *)
Class Collaborators : Type := {
  Template : Type;
  (** [Buffer.from(s, 'base64').toString()] *)
  base64_decode : string -> string;
  JSON_parse : string -> Res JSValue;
  (** [JSON.stringify(v)], passed on to [JSON.parse] *)
  JSON_stringify : JSValue -> string;
  (** [path.join(a, b)] on two strings *)
  path_join : string -> string -> string;
  (** [templatePreprocessor.Process] *)
  templatePreprocessor_Process : string -> Res string;
  (** [h.compile(src)] *)
  Handlebars_compile : Handle -> string -> Res Template;
  (** [template(context)] *)
  Template_apply : Template -> JSValue -> Res string;
  (** [jsonProcessor.Process] *)
  jsonProcessor_Process : string -> Res string;
  (** [resourceMerger.Process] *)
  resourceMerger_Process : JSValue -> JSValue -> Res JSValue
}.

Section Worker.
Context `{Collaborators}.

(** ** The observable steps of a task *)

(** What the worker does to the outside, in the order it does it: the calls
    of its collaborators and the calls of the task's [fulfill] and [reject].
    The list is ghost state: nothing in the worker reads it. *)
Inductive Event : Type :=
| EvSettle (o : Outcome)
| EvDecode (f : FieldName)
| EvParse (text : string)
| EvReadFile (file : string)
| EvInstance (createNew : bool) (location templatesMap : JSValue)
| EvCreate (h : Handle)
| EvPreprocess (source : string)
| EvCompile (h : Handle) (source : string)
| EvRender (t : Template) (context : JSValue)
| EvPostProcess (text : string)
| EvMerge (v replacements : JSValue).

(** ** The state of the worker process *)

(** [rebuildCache] and [constants] are the module variables of [worker.js],
    [compileCache] the [memory-cache] instance, [handlebarsInstance] and
    [handles_built] the state of the engine module, [task_promise] and
    [template_promise] the promise of the task being handled and the promise
    made by its [getTemplate].  [disk] is what [fs.readFile] makes of a
    path: it throws at once at a path that it does not accept, one with a
    NUL character in it for instance, and otherwise calls back later,
    without a content when the file cannot be read and with the content when
    it can. *)
Record State : Type := mkState {
  rebuildCache : bool;
  constants : JSValue;
  compileCache : gmap string Template;
  handlebarsInstance : option Handle;
  handles_built : nat;
  disk : string -> Res (option string);
  task_promise : option Outcome;
  template_promise : option (Settled Template);
  events : list Event
}.

Definition set_rebuildCache (b : bool) (st : State) : State :=
  mkState b (constants st) (compileCache st) (handlebarsInstance st) (handles_built st)
          (disk st) (task_promise st) (template_promise st) (events st).

Definition set_constants (c : JSValue) (st : State) : State :=
  mkState (rebuildCache st) c (compileCache st) (handlebarsInstance st) (handles_built st)
          (disk st) (task_promise st) (template_promise st) (events st).

Definition set_compileCache (c : gmap string Template) (st : State) : State :=
  mkState (rebuildCache st) (constants st) c (handlebarsInstance st) (handles_built st)
          (disk st) (task_promise st) (template_promise st) (events st).

Definition install_handle (h : Handle) (st : State) : State :=
  mkState (rebuildCache st) (constants st) (compileCache st) (Some h) (S (handles_built st))
          (disk st) (task_promise st) (template_promise st) (events st).

Definition set_task_promise (p : option Outcome) (st : State) : State :=
  mkState (rebuildCache st) (constants st) (compileCache st) (handlebarsInstance st)
          (handles_built st) (disk st) p (template_promise st) (events st).

Definition set_template_promise (p : option (Settled Template)) (st : State) : State :=
  mkState (rebuildCache st) (constants st) (compileCache st) (handlebarsInstance st)
          (handles_built st) (disk st) (task_promise st) p (events st).

Definition record (e : Event) (st : State) : State :=
  mkState (rebuildCache st) (constants st) (compileCache st) (handlebarsInstance st)
          (handles_built st) (disk st) (task_promise st) (template_promise st)
          (events st ++ [e]).

(** ** Statements: state and exceptions *)

Definition M (A : Type) : Type := State -> Res A * State.

#[export] Instance M_ret : MRet M := fun A a st => (Ok a, st).

#[export] Instance M_bind : MBind M := fun A B f m st =>
  match m st with
  | (Ok a, st') => f a st'
  | (Throw e, st') => (Throw e, st')
  end.

Definition gets {A : Type} (f : State -> A) : M A := fun st => (Ok (f st), st).

Definition modify (f : State -> State) : M unit := fun st => (Ok tt, f st).

(** The value of an expression that may throw. *)
Definition eval {A : Type} (r : Res A) : M A := fun st => (r, st).

(** [try { body } catch (err) { handler }] *)
Definition try_catch {A : Type} (body : M A) (handler : JSError -> M A) : M A := fun st =>
  match body st with
  | (Ok a, st') => (Ok a, st')
  | (Throw e, st') => handler e st'
  end.

(** [if (c) { body }] *)
Definition when (c : bool) (body : M unit) : M unit :=
  if c then body else mret tt.

(** A call of a collaborator: the call is recorded, then its result is the
    value of the call. *)
Definition call {A : Type} (e : Event) (r : Res A) : M A :=
  modify (record e);; eval r.

(** ** Promises *)

(** The task's [fulfill] and [reject]: only the first call settles. *)
Definition settle_task (o : Outcome) : M unit :=
  modify (fun st => set_task_promise (settle o (task_promise st)) (record (EvSettle o) st)).

Definition fulfill (v : option Reply) : M unit := settle_task (Fulfilled v).

Definition reject (r : Reason) : M unit := settle_task (Rejected r).

(** The [fulfill] and [reject] of the promise made by [getTemplate]. *)
Definition settle_template (o : Settled Template) : M unit :=
  modify (fun st => set_template_promise (settle o (template_promise st)) st).

(** [new Promise(executor)] for the task: an executor that throws rejects
    the promise with what it threw, unless the promise is settled already. *)
Definition task_executor (body : M unit) : M unit :=
  try_catch body (fun e => reject (ReasonThrown e)).

(** [new Promise(executor)] in [getTemplate]: an executor that throws
    rejects the promise with what it threw.  The value is what the executor
    has left to be called back with, if anything. *)
Definition template_executor {A : Type} (body : M (option A)) : M (option A) :=
  modify (set_template_promise None);;
  try_catch body (fun e => settle_template (Rejected (ReasonThrown e));; mret None).

Definition bad_request (text : string) : Reason :=
  ReasonReply (mkReply 400 (Failure (errorMessage BadRequest text))).

Definition not_found (text : string) : Reason :=
  ReasonReply (mkReply 404 (Failure (errorMessage NotFound text))).

Definition success (result : ResultMsg) : option Reply :=
  Some (mkReply 200 result).

(** ** The engine instance manager *)

(** Modelled from the spec: [HandlebarsConverter.instance] of
    [lib/handlebars-converter/handlebars-converter.js], which is not among
    the sources. Asked for a new instance, or when there is none yet, it
    constructs a handle configured with the template location and the
    override map, which becomes the shared handle; otherwise it returns the
    shared handle unchanged. *)
Definition HandlebarsConverter_instance (createNew : bool) (location templatesMap : JSValue)
  : M Handle :=
  modify (record (EvInstance createNew location templatesMap));;
  shared ← gets handlebarsInstance;
  n ← gets handles_built;
  match (if createNew then None else shared) with
  | Some h => mret h
  | None =>
      let h := mkHandle n location templatesMap in
      modify (install_handle h);;
      modify (record (EvCreate h));;
      mret h
  end.

(** [templatesMap && Object.entries(templatesMap).length > 0 &&
    templatesMap.constructor === Object], as the condition of [? :]. *)
Definition needToUseMap (templatesMap : JSValue) : bool :=
  truthy templatesMap
  && (0 <? length (Object_entries templatesMap))%nat
  && is_Object_constructor (constructor_of templatesMap).

Definition GetHandlebarsInstance (templatesMap : JSValue) : M Handle :=
  let need := needToUseMap templatesMap in
  rebuild ← gets rebuildCache;
  location ← (c ← gets constants; eval (get_property c "TEMPLATE_FILES_LOCATION"));
  instance ← HandlebarsConverter_instance (if need then true else rebuild)
                                           location templatesMap;
  modify (set_rebuildCache (if need then true else false));;
  mret instance.

Definition expireCache : M unit :=
  modify (set_rebuildCache true);;
  modify (set_compileCache ∅).

(** ** The result assembler *)

Definition generateResult (msgContext : JSValue) (template : Template)
    (replacementDictionary : JSValue) : M ResultMsg :=
  rendered ← call (EvRender template msgContext) (Template_apply template msgContext);
  processed ← call (EvPostProcess rendered) (jsonProcessor_Process rendered);
  parsed ← call (EvParse processed) (JSON_parse processed);
  message ← call (EvMerge parsed replacementDictionary)
                 (resourceMerger_Process parsed replacementDictionary);
  mret (Envelope message).

(** ** The task handler *)

(** [Buffer.from(msg.f, 'base64').toString()]: [Buffer.from] throws on
    [undefined]. *)
Definition decode_field (msg : TaskMessage) (f : FieldName) : M string :=
  call (EvDecode f)
       (match encoded msg f with
        | Some s => Ok (base64_decode s)
        | None => Throw (TypeError "The first argument must be of type string or an instance of Buffer, ArrayBuffer, or Array or an Array-like Object. Received undefined")
        end).

(** [JSON.parse(text)] *)
Definition parse (text : string) : M JSValue :=
  call (EvParse text) (JSON_parse text).

(** [if (!base64RegEx.test(msg.f)) { reject(...) }] *)
Definition check_field (msg : TaskMessage) (f : FieldName) (text : string) : M unit :=
  when (negb (base64RegEx_test (ToString (encoded msg f)))) (reject (bad_request text)).

(** [if (msg.f) { check; v = JSON.parse(Buffer.from(msg.f, 'base64').toString()) }] *)
Definition optional_field (msg : TaskMessage) (f : FieldName) (text : string)
    (initial : JSValue) : M JSValue :=
  if field_truthy (encoded msg f) then
    check_field msg f text;;
    decoded ← decode_field msg f;
    parse decoded
  else mret initial.

(** [GetHandlebarsInstance(templatesMap).compile(templatePreprocessor.Process(text))],
    the expression that both conversions compile a template with: the
    handle is acquired first, then the argument is evaluated. *)
Definition compile_source (templatesMap : JSValue) (text : string) : M Template :=
  instance ← GetHandlebarsInstance templatesMap;
  source ← call (EvPreprocess text) (templatePreprocessor_Process text);
  call (EvCompile instance source) (Handlebars_compile instance source).

(** The [try] around [generateResult] that ends the inline conversion. *)
Definition create_result (context : JSValue) (template : Template)
    (replacementDictionary : JSValue) : M unit :=
  try_catch
    (result ← generateResult context template replacementDictionary;
     fulfill (success result))
    (fun err => reject (bad_request ("Unable to create result: " +:+ Error_toString err))).

(** The statements of [case '/api/convert/hl7'] inside the outer [try]. *)
Definition convert_inline_body (msg : TaskMessage) : M unit :=
  check_field msg FMessage "Message is not a base 64 encoded string.";;
  check_field msg FTemplate "Template is not a base 64 encoded string.";;
  replacementDictionary ←
    optional_field msg FReplacementDictionary
      "replacementDictionary is not a base 64 encoded string." (JObject []);
  templatesMap ←
    optional_field msg FTemplatesMap
      "templatesMap is not a base 64 encoded string." JUndefined;
  msgObj ←
    try_catch
      (b ← decode_field msg FMessage; parse b)
      (fun err =>
         reject (bad_request ("Unable to decode and parse HL7 v2 message. " +:+ err_message err));;
         mret (JObject []));
  templateString ←
    (if field_truthy (templateBase64 msg) then decode_field msg FTemplate else mret "");
  let context := JObject [("msg", msgObj)] in
  if (String.length templateString =? 0)%nat then
    copy ← parse (JSON_stringify msgObj);
    fulfill (success (Envelope copy))
  else
    template ← compile_source templatesMap templateString;
    create_result context template replacementDictionary.

Definition convert_inline (msg : TaskMessage) : M unit :=
  try_catch (convert_inline_body msg)
            (fun err => reject (bad_request (Error_toString err))).

(** [path.join(a, b)]: both arguments must be strings. *)
Definition path_join_checked (a : JSValue) (b : field) : Res string :=
  match a, b with
  | JString dir, Some name => Ok (path_join dir name)
  | _, _ => Throw (TypeError "The path argument must be of type string")
  end.

(** The callback that [getTemplate] hands to [fs.readFile].  It runs in a
    later turn of the event loop than the call, in the state that the tasks
    handled in between have left, and puts the template in the cache
    whether its name has an entry by then or not. *)
Definition readFile_callback (templateName : field) (content : option string) : M unit :=
  match content with
  | None => settle_template (Rejected (not_found "Template not found"))
  | Some templateContent =>
      try_catch
        (template ← compile_source JUndefined templateContent;
         cache ← gets compileCache;
         modify (set_compileCache (<[ToString templateName := template]> cache));;
         settle_template (Fulfilled template))
        (fun convertErr =>
           settle_template
             (Rejected (bad_request ("Error during template compilation. "
                                     +:+ Error_toString convertErr))))
  end.

(** [getTemplate(templateName)], as far as it runs in the turn of the call:
    the promise it returns is [template_promise], and [memory-cache] keys its
    entries by the string form of the key.  A cached template fulfils the
    promise.  Otherwise the path is made and [fs.readFile] is called, and
    the promise stays pending; the value is then what the callback will be
    called with.  What is thrown on the way, by the reading of the location,
    by [path.join] or by [fs.readFile] itself, rejects the promise. *)
Definition getTemplate (templateName : field) : M (option (option string)) :=
  template_executor
    (cache ← gets compileCache;
     match cache !! ToString templateName with
     | None =>
         location ← (c ← gets constants; eval (get_property c "TEMPLATE_FILES_LOCATION"));
         file ← eval (path_join_checked location templateName);
         files ← gets disk;
         content ← call (EvReadFile file) (files file);
         mret (Some content)
     | Some template =>
         settle_template (Fulfilled template);;
         mret None
     end).

(** A lookup that nothing interrupts: [getTemplate(templateName)] and, when
    the file is read, the callback of [fs.readFile] run at once, with no
    other task handled between the call and the callback. *)
Definition lookup_template (templateName : field) : M unit :=
  reading ← getTemplate templateName;
  match reading with
  | Some content => readFile_callback templateName content
  | None => mret tt
  end.

(** The [try] around [generateResult] in the first callback of [then];
    [generateResult] is called without a replacement dictionary, which is
    then [null]. *)
Definition evaluate_template (msgContext : JSValue) (compiledTemplate : Template) : M unit :=
  try_catch
    (result ← generateResult msgContext compiledTemplate JNull;
     fulfill (success result))
    (fun convertErr =>
       reject (bad_request ("Error during template evaluation. "
                            +:+ Error_toString convertErr))).

(** The two callbacks of [getTemplate(templateName).then(...)]. *)
Definition on_template (msgContext : JSValue) : M unit :=
  p ← gets template_promise;
  match p with
  | Some (Fulfilled compiledTemplate) => evaluate_template msgContext compiledTemplate
  | Some (Rejected err) => reject err
  | None => mret tt
  end.

(** The statements of [case '/api/convert/hl7/:template'], and the callbacks
    that complete the conversion, run as soon as they can: the callback of
    [fs.readFile] with no other task handled before it, and the callbacks of
    [then] once the promise of [getTemplate] is settled. *)
Definition convert_named (msg : TaskMessage) : M unit :=
  let messageContent := messageContent msg in
  let templateName := templateName msg in
  when (negb (field_truthy messageContent)) (reject (bad_request "No message provided."));;
  msgObject ←
    try_catch
      (parse (ToString messageContent))
      (fun err =>
         reject (bad_request ("Unable to decode and parse HL7 v2 message. "
                              +:+ Error_toString err));;
         mret (JObject []));
  let msgContext := JObject [("msg", msgObject)] in
  lookup_template templateName;;
  on_template msgContext.

(** [switch (msg.type)]: a type with no [case] falls through the switch. *)
Definition handler (msg : TaskMessage) : M unit :=
  match task_kind (type msg) with
  | Some InlineConversion => convert_inline msg
  | Some NamedConversion => convert_named msg
  | Some TemplatesUpdated =>
      expireCache;;
      fulfill None
  | Some ConstantsUpdated =>
      parsed ← parse (ToString (data msg));
      modify (set_constants parsed);;
      expireCache;;
      fulfill None
  | None => mret tt
  end.

(** Handling one task to its end: a new promise is made for it and the
    handler runs as the promise's executor, with the callbacks of a named
    conversion. *)
Definition process (msg : TaskMessage) (st : State) : State :=
  snd (task_executor (handler msg) (set_task_promise None st)).

(** How the task was settled, if it was. *)
Definition outcome (msg : TaskMessage) (st : State) : option Outcome :=
  task_promise (process msg st).

End Worker.

(** ** A reference implementation of the collaborators

    An executable instance of the libraries, on which tasks can be run:
    the base64 decoder of [Buffer], [JSON] on documents made of [null],
    booleans, integers, strings, arrays and objects, and a template engine
    for templates without expressions, which render to their own text. *)
Module Reference.

Definition dquote : ascii := "034".
Definition backslash : ascii := "092".

(** The value of a character of the base64 alphabet. *)
Definition sextet (c : ascii) : option N :=
  let n := N_of_ascii c in
  if in_range "A" "Z" c then Some (n - 65)%N
  else if in_range "a" "z" c then Some (n - 71)%N
  else if in_range "0" "9" c then Some (n + 4)%N
  else if Ascii.eqb c "+" || Ascii.eqb c "-" then Some 62%N
  else if Ascii.eqb c "/" || Ascii.eqb c "_" then Some 63%N
  else None.

(** The sextets of the input up to its first [=]; characters outside the
    alphabet are skipped. *)
Fixpoint sextets (s : string) : list N :=
  match s with
  | EmptyString => []
  | String c s' =>
      if Ascii.eqb c "=" then []
      else match sextet c with
           | Some n => n :: sextets s'
           | None => sextets s'
           end
  end.

Definition byte (n : N) : ascii := ascii_of_N (n mod 256).

Fixpoint bytes_of_sextets (l : list N) : string :=
  match l with
  | a :: b :: c :: d :: rest =>
      let n := (a * 262144 + b * 4096 + c * 64 + d)%N in
      String (byte (n / 65536)) (String (byte (n / 256)) (String (byte n) (bytes_of_sextets rest)))
  | [a; b; c] =>
      let n := (a * 262144 + b * 4096 + c * 64)%N in
      String (byte (n / 65536)) (String (byte (n / 256)) EmptyString)
  | [a; b] =>
      let n := (a * 262144 + b * 4096)%N in
      String (byte (n / 65536)) EmptyString
  | _ => EmptyString
  end.

Definition decode_base64 (s : string) : string := bytes_of_sextets (sextets s).

Definition is_space (c : ascii) : bool :=
  Ascii.eqb c " " || Ascii.eqb c "009" || Ascii.eqb c "010" || Ascii.eqb c "013".

Fixpoint skip_space (s : string) : string :=
  match s with
  | String c s' => if is_space c then skip_space s' else s
  | EmptyString => EmptyString
  end.

Definition is_digit (c : ascii) : bool := in_range "0" "9" c.

(** The digits at the start of [s], read as a number after [acc]. *)
Fixpoint read_digits (acc : Z) (s : string) : Z * string :=
  match s with
  | String c s' =>
      if is_digit c then read_digits (10 * acc + (Z.of_N (N_of_ascii c) - 48)) s'
      else (acc, s)
  | EmptyString => (acc, EmptyString)
  end.

(** The characters of a string literal after its opening quote. *)
Fixpoint read_string (s : string) : option (string * string) :=
  match s with
  | EmptyString => None
  | String c s' =>
      if Ascii.eqb c dquote then Some (EmptyString, s')
      else if Ascii.eqb c backslash then
        match s' with
        | String e s'' =>
            if Ascii.eqb e dquote || Ascii.eqb e backslash then
              match read_string s'' with
              | Some (text, rest) => Some (String e text, rest)
              | None => None
              end
            else None
        | EmptyString => None
        end
      else
        match read_string s' with
        | Some (text, rest) => Some (String c text, rest)
        | None => None
        end
  end.

(** Defining the property [k] of an object: a key that is there keeps its
    place and takes the new value. *)
Fixpoint define_property (k : string) (v : JSValue) (props : list (string * JSValue))
  : list (string * JSValue) :=
  match props with
  | [] => [(k, v)]
  | (k', v') :: rest =>
      if String.eqb k' k then (k', v) :: rest else (k', v') :: define_property k v rest
  end.

Definition starts_with (p s : string) : option string :=
  if String.prefix p s then Some (String.substring (String.length p) (String.length s - String.length p) s)
  else None.

(** A recursive-descent reader; [fuel] bounds the nesting and the number of
    items, and the length of the text is always enough. *)
Fixpoint read_value (fuel : nat) (s : string) : option (JSValue * string) :=
  match fuel with
  | O => None
  | S fuel' =>
      match skip_space s with
      | EmptyString => None
      | String c rest as text =>
          if Ascii.eqb c dquote then
            match read_string rest with
            | Some (str, rest') => Some (JString str, rest')
            | None => None
            end
          else if Ascii.eqb c "[" then
            match skip_space rest with
            | String "]" rest' => Some (JArray [], rest')
            | _ =>
                match read_items fuel' rest with
                | Some (items, rest') => Some (JArray items, rest')
                | None => None
                end
            end
          else if Ascii.eqb c "{" then
            match skip_space rest with
            | String "}" rest' => Some (JObject [], rest')
            | _ =>
                match read_members fuel' [] rest with
                | Some (props, rest') => Some (JObject props, rest')
                | None => None
                end
            end
          else if Ascii.eqb c "-" then
            match rest with
            | String d _ =>
                if is_digit d then
                  let (n, rest') := read_digits 0 rest in Some (JNumber (- n), rest')
                else None
            | EmptyString => None
            end
          else if is_digit c then
            let (n, rest') := read_digits 0 text in Some (JNumber n, rest')
          else
            match starts_with "null" text, starts_with "true" text, starts_with "false" text with
            | Some rest', _, _ => Some (JNull, rest')
            | _, Some rest', _ => Some (JBool true, rest')
            | _, _, Some rest' => Some (JBool false, rest')
            | _, _, _ => None
            end
      end
  end
with read_items (fuel : nat) (s : string) : option (list JSValue * string) :=
  match fuel with
  | O => None
  | S fuel' =>
      match read_value fuel' s with
      | Some (v, rest) =>
          match skip_space rest with
          | String "," rest' =>
              match read_items fuel' rest' with
              | Some (items, rest'') => Some (v :: items, rest'')
              | None => None
              end
          | String "]" rest' => Some ([v], rest')
          | _ => None
          end
      | None => None
      end
  end
with read_members (fuel : nat) (props : list (string * JSValue)) (s : string)
  : option (list (string * JSValue) * string) :=
  match fuel with
  | O => None
  | S fuel' =>
      match skip_space s with
      | String c rest =>
          if Ascii.eqb c dquote then
            match read_string rest with
            | Some (k, rest1) =>
                match skip_space rest1 with
                | String ":" rest2 =>
                    match read_value fuel' rest2 with
                    | Some (v, rest3) =>
                        let props' := define_property k v props in
                        match skip_space rest3 with
                        | String "," rest4 => read_members fuel' props' rest4
                        | String "}" rest4 => Some (props', rest4)
                        | _ => None
                        end
                    | None => None
                    end
                | _ => None
                end
            | None => None
            end
          else None
      | EmptyString => None
      end
  end.

Definition SyntaxError (m : string) : JSError := mkError "SyntaxError" m.

Definition parse_text (text : string) : Res JSValue :=
  match read_value (S (String.length text)) text with
  | Some (v, rest) =>
      match skip_space rest with
      | EmptyString => Ok v
      | _ => Throw (SyntaxError "Unexpected non-whitespace character after JSON")
      end
  | None => Throw (SyntaxError "Unexpected token in JSON")
  end.

Fixpoint quote_chars (s : string) : string :=
  match s with
  | EmptyString => String dquote EmptyString
  | String c s' =>
      if Ascii.eqb c dquote || Ascii.eqb c backslash
      then String backslash (String c (quote_chars s'))
      else String c (quote_chars s')
  end.

Definition quote (s : string) : string := String dquote (quote_chars s).

Definition join (parts : list string) : string :=
  match parts with
  | [] => ""
  | p :: ps => fold_left (fun acc q => acc +:+ "," +:+ q) ps p
  end.

(** [JSON.stringify(v)]; [undefined] as an array item prints as [null], and
    a property whose value is [undefined] is left out. *)
Fixpoint stringify (v : JSValue) : string :=
  match v with
  | JUndefined => "undefined"
  | JNull => "null"
  | JBool true => "true"
  | JBool false => "false"
  | JNumber n => pretty n
  | JString s => quote s
  | JArray items =>
      "[" +:+ join (map (fun x => match x with
                                  | JUndefined => "null"
                                  | _ => stringify x
                                  end) items) +:+ "]"
  | JObject props =>
      "{" +:+ join ((fix members (ps : list (string * JSValue)) : list string :=
                       match ps with
                       | [] => []
                       | (k, JUndefined) :: rest => members rest
                       | (k, x) :: rest => (quote k +:+ ":" +:+ stringify x) :: members rest
                       end) props) +:+ "}"
  end.

(** A post-processor that repairs one defect of rendered text: a comma
    with nothing after it but the bracket that closes its array or object
    is dropped. *)
Fixpoint drop_dangling_commas (s : string) : string :=
  match s with
  | EmptyString => EmptyString
  | String c s' =>
      let rest := drop_dangling_commas s' in
      if Ascii.eqb c "," then
        match skip_space s' with
        | String d _ => if Ascii.eqb d "}" || Ascii.eqb d "]" then rest else String c rest
        | EmptyString => String c rest
        end
      else String c rest
  end.

(** Does [s] contain [{{], the opening of an expression? *)
Fixpoint has_expression (s : string) : bool :=
  match s with
  | String "{" (String "{" _) => true
  | String _ s' => has_expression s'
  | EmptyString => false
  end.

Definition collaborators : Collaborators := {|
  Template := string;
  base64_decode := decode_base64;
  JSON_parse := parse_text;
  JSON_stringify := stringify;
  path_join := fun dir name => dir +:+ "/" +:+ name;
  templatePreprocessor_Process := fun source => Ok source;
  Handlebars_compile := fun _ source =>
    if has_expression source then Throw (mkError "Error" "Parse error: expressions are not supported")
    else Ok source;
  Template_apply := fun template _ => Ok template;
  jsonProcessor_Process := fun text => Ok (drop_dangling_commas text);
  resourceMerger_Process := fun v _ => Ok v
|}.

(** Does [s] contain the NUL character? *)
Fixpoint has_nul (s : string) : bool :=
  match s with
  | String c s' => Ascii.eqb c "000" || has_nul s'
  | EmptyString => false
  end.

(** The files of the template directory; a path with a NUL character is
    not accepted. *)
Definition files (file : string) : Res (option string) :=
  if has_nul file then
    Throw (TypeError "The argument 'path' must be a string, Uint8Array, or URL without null bytes")
  else if String.eqb file "/templates/greeting.hbs" then Ok (Some (quote "hello"))
  else if String.eqb file "/templates/broken.hbs" then Ok (Some "{{#if}}")
  else Ok None.

(** The worker as it starts: [rebuildCache] is [true], nothing is cached
    and no engine has been built. *)
Definition initial : @State collaborators :=
  mkState true (JObject [("TEMPLATE_FILES_LOCATION", JString "/templates")])
          ∅ None 0 files None None [].

(** [s] between double quotes. *)
Definition quoted (s : string) : string :=
  String dquote (s +:+ String dquote EmptyString).

End Reference.


(** ** What is observed of a run *)

Section Observations.
Context `{Collaborators}.

Definition attempt (e : Event) : option Outcome :=
  match e with
  | EvSettle o => Some o
  | _ => None
  end.

(** The calls of the task's [fulfill] and [reject] among some events. *)
Definition attempts (evs : list Event) : list Outcome := omap attempt evs.

(** The state of a promise after a series of calls of its [fulfill] and
    [reject]. *)
Definition settle_all (os : list Outcome) (p : option Outcome) : option Outcome :=
  foldl (fun p o => settle o p) p os.

(** The events of handling [msg] from [st]. *)
Definition new_events (msg : TaskMessage) (st : State) : list Event :=
  drop (length (events st)) (events (process msg st)).

(** [st] comes after [st0]: events were only added, and the task's promise
    is what the calls among them make it. *)
Definition extends (st0 st : State) : Prop :=
  exists new,
    events st = events st0 ++ new
    /\ task_promise st = settle_all (attempts new) (task_promise st0).

(** A statement that only ever moves the state forward. *)
Definition extending {A : Type} (m : M A) : Prop :=
  forall st, extends st (snd (m st)).

(** A statement that, when it completes normally, ends in a state with [Q]. *)
Definition ending {A : Type} (Q : State -> Prop) (m : M A) : Prop :=
  forall st, match fst (m st) with
             | Ok _ => Q (snd (m st))
             | Throw _ => True
             end.

Definition task_settled (st : State) : Prop := task_promise st <> None.

Definition template_settled (st : State) : Prop := template_promise st <> None.

(** A statement that, when it completes normally, leaves the task settled. *)
Definition settling {A : Type} (m : M A) : Prop := ending task_settled m.

(** A statement that cannot throw. *)
Definition total {A : Type} (m : M A) : Prop :=
  forall st, exists a, fst (m st) = Ok a.

(** The configuration names a template location [dir]. *)
Definition configured (dir : string) (st : State) : Prop :=
  get_property (constants st) "TEMPLATE_FILES_LOCATION" = Ok (JString dir).


(** A plain object with at least one property and none called
    [constructor]. *)
Definition plain_map (v : JSValue) : Prop :=
  exists props, v = JObject props /\ props <> [] /\ own_property "constructor" props = None.

(** A value that is no object at all, or the object without properties. *)
Definition no_map (v : JSValue) : Prop :=
  match v with
  | JObject props => props = []
  | _ => True
  end.

(** The acquisition [r], made in [st], constructed the handle after those
    built so far, configured with [location] and [templatesMap], made it
    the shared handle and left the contamination flag at [flag]. *)
Definition builds_fresh (templatesMap location : JSValue) (flag : bool) (st : State)
    (r : Res Handle * State) : Prop :=
  let h := mkHandle (handles_built st) location templatesMap in
  fst r = Ok h
  /\ handlebarsInstance (snd r) = Some h
  /\ handles_built (snd r) = S (handles_built st)
  /\ rebuildCache (snd r) = flag
  /\ events (snd r) = events st ++ [EvInstance true location templatesMap; EvCreate h].

(** The acquisition [r], made in [st], returned the shared handle [h],
    constructed nothing and left the contamination flag false; what was
    passed as the override map was forwarded to the engine all the same. *)
Definition reuses_shared (h : Handle) (templatesMap location : JSValue) (st : State)
    (r : Res Handle * State) : Prop :=
  fst r = Ok h
  /\ handlebarsInstance (snd r) = Some h
  /\ handles_built (snd r) = handles_built st
  /\ rebuildCache (snd r) = false
  /\ events (snd r) = events st ++ [EvInstance false location templatesMap].

(** The handle that an acquisition without a map returns in [st]: the
    shared one, or the next to be built. *)
Definition next_handle (location : JSValue) (st : State) : Handle :=
  match (if rebuildCache st then None else handlebarsInstance st) with
  | Some h => h
  | None => mkHandle (handles_built st) location JUndefined
  end.

(** What compiling [text] with the handle [h] comes to: the pre-processor,
    then the engine's [compile]. *)
Definition compiles (h : Handle) (text : string) : Res Template :=
  match templatePreprocessor_Process text with
  | Ok source => Handlebars_compile h source
  | Throw e => Throw e
  end.

(** The state after [n] lookups of [name] in a row, each with its callback
    before the next. *)
Definition lookups (n : nat) (name : string) (st : State) : State :=
  Nat.iter n (fun s => snd (lookup_template (Some name) s)) st.

Definition is_read (e : Event) : bool :=
  match e with
  | EvReadFile _ => true
  | _ => false
  end.

Definition is_compile (e : Event) : bool :=
  match e with
  | EvCompile _ _ => true
  | _ => false
  end.

(** How many of the events are of the kind [p]. *)
Definition tally (p : Event -> bool) (evs : list Event) : nat :=
  length (List.filter p evs).

(** A named-conversion task whose message is the text of [v] and whose
    template is [name]. *)
Definition named_request (msg : TaskMessage) (text name : string) (v : JSValue) : Prop :=
  task_kind (type msg) = Some NamedConversion
  /\ messageContent msg = Some text
  /\ field_truthy (Some text) = true
  /\ JSON_parse text = Ok v
  /\ templateName msg = Some name.

(** A state in which nothing compiled is kept: the cache is empty and the
    contamination flag is set, so that the next lookup of any name reads its
    file, and compiles what it reads, and the next acquisition builds. *)
Definition invalidated (s : State) : Prop :=
  compileCache s = ∅
  /\ rebuildCache s = true
  /\ (forall name dir,
        configured dir s ->
        tally is_read (events (lookups 1 name s)) = S (tally is_read (events s))
        /\ forall content source,
             disk s (path_join dir name) = Ok (Some content) ->
             templatePreprocessor_Process content = Ok source ->
             tally is_compile (events (lookups 1 name s)) = S (tally is_compile (events s)))
  /\ (forall M location,
        get_property (constants s) "TEMPLATE_FILES_LOCATION" = Ok location ->
        builds_fresh M location (needToUseMap M) s (GetHandlebarsInstance M s)).

(** The four steps of the result assembler. *)
Inductive Stage : Type := Rendering | PostProcessing | Parsing | Merging.

Definition stage (e : Event) : option Stage :=
  match e with
  | EvRender _ _ => Some Rendering
  | EvPostProcess _ => Some PostProcessing
  | EvParse _ => Some Parsing
  | EvMerge _ _ => Some Merging
  | _ => None
  end.

(** The steps of the assembler among some events, in the order they were
    taken. *)
Definition stages (evs : list Event) : list Stage := omap stage evs.

(** What the assembler computes: the template is rendered, the text is
    post-processed, the result is parsed and what was parsed is merged. *)
Definition assembled (template : Template) (context replacements : JSValue) : Res ResultMsg :=
  match Template_apply template context with
  | Throw e => Throw e
  | Ok rendered =>
      match jsonProcessor_Process rendered with
      | Throw e => Throw e
      | Ok processed =>
          match JSON_parse processed with
          | Throw e => Throw e
          | Ok parsed =>
              match resourceMerger_Process parsed replacements with
              | Throw e => Throw e
              | Ok message => Ok (Envelope message)
              end
          end
      end
  end.

(** [s] after the events [new], one after the other. *)
Definition add_events (new : list Event) (s : State) : State :=
  foldl (fun s e => record e s) s new.

(** The field [f] of [msg] fails the alphabet check. A field that fails is
    there and is not empty: [undefined] is tested as the word it prints as,
    which passes, and so does the empty string. *)
Definition fails (msg : TaskMessage) (f : FieldName) : Prop :=
  base64RegEx_test (ToString (encoded msg f)) = false.

Definition passes (msg : TaskMessage) (f : FieldName) : Prop :=
  base64RegEx_test (ToString (encoded msg f)) = true.

(** The order in which the fields are checked. *)
Definition field_index (f : FieldName) : nat :=
  match f with
  | FMessage => 0
  | FTemplate => 1
  | FReplacementDictionary => 2
  | FTemplatesMap => 3
  end.

(** The text of the rejection that names the field [f]. *)
Definition not_base64 (f : FieldName) : string :=
  match f with
  | FMessage => "Message is not a base 64 encoded string."
  | FTemplate => "Template is not a base 64 encoded string."
  | FReplacementDictionary => "replacementDictionary is not a base 64 encoded string."
  | FTemplatesMap => "templatesMap is not a base 64 encoded string."
  end.

(** What decoding the field [f] gives. *)
Definition decoded (msg : TaskMessage) (f : FieldName) : string :=
  base64_decode (ToString (encoded msg f)).

(** The optional field [f] is left out, or its decoded text parses. *)
Definition parses_if_given (msg : TaskMessage) (f : FieldName) : Prop :=
  field_truthy (encoded msg f) = true -> exists w, JSON_parse (decoded msg f) = Ok w.

(** The events of reading the optional field [f] when it passes the check. *)
Definition optional_events (msg : TaskMessage) (f : FieldName) : list Event :=
  if field_truthy (encoded msg f) then [EvDecode f; EvParse (decoded msg f)] else [].

(** The template text of an inline conversion. *)
Definition template_text (msg : TaskMessage) : string :=
  if field_truthy (templateBase64 msg) then decoded msg FTemplate else "".

(** A property of the state that a statement keeps. *)
Definition stable (I : State -> Prop) {A : Type} (m : M A) : Prop :=
  forall st, I st -> I (snd (m st)).

(** The engine module and the contamination flag agree: when the flag is
    clear there is a shared handle, and the shared handle was built before
    the next one will be. *)
Definition engine_ok (st : State) : Prop :=
  (rebuildCache st = false -> is_Some (handlebarsInstance st))
  /\ (forall h, handlebarsInstance st = Some h -> (handle_id h < handles_built st)%nat).

(** The worker as it starts. *)
Definition booted (st : State) : Prop :=
  rebuildCache st = true /\ handlebarsInstance st = None.

(** The states that the worker gets into, one task after the other. *)
Inductive reachable : State -> Prop :=
| reachable_booted (st : State) : booted st -> reachable st
| reachable_process (msg : TaskMessage) (st : State) :
    reachable st -> reachable (process msg st).

(** A reply that rejects with a structured error of one of the two kinds. *)
Definition structured_error (r : Reason) : Prop :=
  exists code text,
    r = ReasonReply (mkReply (match code with BadRequest => 400 | NotFound => 404 end)
                             (Failure (errorMessage code text))).

(** A settlement that the caller can read: a success, or a rejection with a
    structured error. *)
Definition is_reply (o : Outcome) : Prop :=
  match o with
  | Fulfilled _ => True
  | Rejected r => structured_error r
  end.

(** Since the events [base], every call of the task's [fulfill] and
    [reject] has been one that the caller can read. *)
Definition replies_since (base : list Event) (st : State) : Prop :=
  exists new, events st = base ++ new /\ Forall is_reply (attempts new).

End Observations.

(** ** Tasks and states to run on the reference collaborators *)

Module Scenarios.
Import Reference.
#[local] Existing Instance collaborators.

Definition location : JSValue := JString "/templates".



(** The same template as an array of entries, as
    [JSON.parse] makes of [[["greeting","hello"]]]. *)
Definition entries : JSValue := JArray [JArray [JString "greeting"; JString "hello"]].

(** The worker after a first acquisition without a map. *)
Definition warm : State := snd (GetHandlebarsInstance JUndefined initial).

(** The handle that this first acquisition built. *)
Definition baseline : Handle := mkHandle 0 location JUndefined.


(** A worker that has served a conversion with the template
    [greeting.hbs]. *)
Definition served : State := lookups 1 "greeting.hbs" initial.

Definition templates_updated : TaskMessage :=
  mkTask "templatesUpdated" None None None None None None None.

(** A constants-updated task with the payload [{"TEMPLATE_FILES_LOCATION":"/other"}]. *)
Definition constants_updated : TaskMessage :=
  mkTask "constantsUpdated" None None None None None None
         (Some ("{" +:+ quoted "TEMPLATE_FILES_LOCATION" +:+ ":" +:+ quoted "/other" +:+ "}")).

(** A constants-updated task with the payload [{]. *)
Definition constants_garbled : TaskMessage :=
  mkTask "constantsUpdated" None None None None None None (Some "{").

(** What [JSON.parse] throws at it. *)
Definition garbled_error : JSError := SyntaxError "Unexpected token in JSON".

(** The text [{"a":1,}], which [JSON.parse] does not accept. *)
Definition dangling : string := "{" +:+ quoted "a" +:+ ":1,}".

Definition context : JSValue := JObject [("msg", JObject [])].

(** The base64 text of [{"a":1}]. *)
Definition message : string := "eyJhIjoxfQ==".

Definition parsed : JSValue := JObject [("a", JNumber 1)].

Definition inline (message template replacementDictionary templatesMap : field) : TaskMessage :=
  mkTask "/api/convert/hl7" message template replacementDictionary templatesMap None None None.

(** The scenario of the specification: the message [{"a":1}] and the
    empty template. *)
Definition scenario : TaskMessage := inline (Some message) (Some "") None None.

(** The same task with a replacementDictionary that is not base64. *)
Definition with_bad_dictionary : TaskMessage := inline (Some message) (Some "") (Some "%") None.

(** A message that is not base64. *)
Definition bad_message : TaskMessage := inline (Some "%%%") (Some "") None None.

(** A templatesMap that is not base64, after a replacementDictionary that
    is base64, of the text [hello], which is not JSON. *)
Definition masked : TaskMessage :=
  inline (Some message) (Some "") (Some "aGVsbG8=") (Some "%%%").

(** A message and a template that are both not base64. *)
Definition twice_bad : TaskMessage := inline (Some "%%%") (Some "%%%") None None.

End Scenarios.

(** ** What is observed of a conversion *)

Section Conversions.
Context `{Collaborators}.

(** What reading the optional field [f] comes to when it passes the check:
    its parsed text, or [initial] when it is left out. *)
Definition optional_value (msg : TaskMessage) (f : FieldName) (initial : JSValue)
  : Res JSValue :=
  if field_truthy (encoded msg f) then JSON_parse (decoded msg f) else Ok initial.

(** The rejection that the message of a named conversion earns, if any:
    the first of the two that the statements before the lookup can make. *)
Definition message_rejection (msg : TaskMessage) : option Reason :=
  if negb (field_truthy (messageContent msg)) then
    Some (bad_request "No message provided.")
  else
    match JSON_parse (ToString (messageContent msg)) with
    | Throw e => Some (bad_request ("Unable to decode and parse HL7 v2 message. "
                                    +:+ Error_toString e))
    | Ok _ => None
    end.

(** The context that a named conversion renders its template against. *)
Definition named_context (msg : TaskMessage) : JSValue :=
  JObject [("msg", match JSON_parse (ToString (messageContent msg)) with
                   | Ok v => v
                   | Throw _ => JObject []
                   end)].

(** The reply of a conversion whose template is [t]: what the assembler
    makes of it, or the error it throws under the heading [heading]. *)
Definition conversion_reply (heading : string) (t : Template) (context replacements : JSValue)
  : Outcome :=
  match assembled t context replacements with
  | Ok result => Fulfilled (Some (mkReply 200 result))
  | Throw e => Rejected (bad_request (heading +:+ Error_toString e))
  end.

(** Two states with the same engine, flag and configuration. *)
Definition same_engine (s s' : State) : Prop :=
  rebuildCache s' = rebuildCache s
  /\ constants s' = constants s
  /\ handlebarsInstance s' = handlebarsInstance s
  /\ handles_built s' = handles_built s.

End Conversions.

Section MessageOfInline.
Context `{Collaborators}.

(** What [Buffer.from] throws at [undefined]. *)
Definition Buffer_from_undefined : JSError :=
  TypeError "The first argument must be of type string or an instance of Buffer, ArrayBuffer, or Array or an Array-like Object. Received undefined".

(** What decoding and parsing the message of an inline conversion comes
    to. *)
Definition message_value (msg : TaskMessage) : Res JSValue :=
  match messageBase64 msg with
  | Some m => JSON_parse (base64_decode m)
  | None => Throw Buffer_from_undefined
  end.

(** The events of decoding and parsing it. *)
Definition message_events (msg : TaskMessage) : list Event :=
  match messageBase64 msg with
  | Some m => [EvDecode FMessage; EvParse (base64_decode m)]
  | None => [EvDecode FMessage]
  end.

(** The rejection of a message that cannot be decoded and parsed. *)
Definition message_unreadable (e : JSError) : Reason :=
  bad_request ("Unable to decode and parse HL7 v2 message. " +:+ err_message e).

End MessageOfInline.


Section TemplateFiles.
Context `{Collaborators}.

(** [path.join(constants.TEMPLATE_FILES_LOCATION, templateName)], the
    argument of [fs.readFile] in [getTemplate]. *)
Definition template_path (constants : JSValue) (templateName : field) : Res string :=
  match get_property constants "TEMPLATE_FILES_LOCATION" with
  | Ok location => path_join_checked location templateName
  | Throw e => Throw e
  end.

(** The calls of the file system and of the engine module among the
    events. *)
Definition is_lookup_work (e : Event) : bool :=
  match e with
  | EvReadFile _ | EvInstance _ _ _ | EvCreate _ | EvPreprocess _ | EvCompile _ _ => true
  | _ => false
  end.

(** Since the events [base], neither the file system nor the engine module
    has been called. *)
Definition quiet_since (base : list Event) (s : State) : Prop :=
  exists new, events s = base ++ new /\ Forall (fun e => is_lookup_work e = false) new.

End TemplateFiles.

(** ** The turns of a named conversion

    A named conversion whose template is not cached takes two turns of the
    event loop: the one in which the task is handled, which ends with the
    call of [fs.readFile], and the one of the callback.  Other tasks can be
    handled between the two. *)

Section Turns.
Context `{Collaborators}.

(** The statements of [case '/api/convert/hl7/:template'] as they run in the
    turn in which the task is handled.  When [getTemplate] has called
    [fs.readFile] the task is suspended, and the value is what the later
    turn works on: the context, and what [fs.readFile] calls back with.
    Otherwise the promise of [getTemplate] is settled in this turn and the
    callbacks of [then] run at its end. *)
Definition convert_named_call (msg : TaskMessage) : M (option (JSValue * option string)) :=
  let messageContent := messageContent msg in
  let templateName := templateName msg in
  when (negb (field_truthy messageContent)) (reject (bad_request "No message provided."));;
  msgObject ←
    try_catch
      (parse (ToString messageContent))
      (fun err =>
         reject (bad_request ("Unable to decode and parse HL7 v2 message. "
                              +:+ Error_toString err));;
         mret (JObject []));
  let msgContext := JObject [("msg", msgObject)] in
  reading ← getTemplate templateName;
  match reading with
  | Some content => mret (Some (msgContext, content))
  | None => on_template msgContext;; mret None
  end.

(** The turn in which a named conversion is handled: a new promise is made
    for the task and the statements run as its executor. *)
Definition named_first_turn (msg : TaskMessage) : M (option (JSValue * option string)) :=
  modify (set_task_promise None);;
  try_catch (convert_named_call msg) (fun e => reject (ReasonThrown e);; mret None).

(** The later turn of a suspended conversion: the callback of
    [fs.readFile], then the callbacks of [then]. *)
Definition convert_named_callback (msg : TaskMessage) (msgContext : JSValue)
    (content : option string) : M unit :=
  readFile_callback (templateName msg) content;;
  on_template msgContext.

(** The state in which the later turn of a suspended task runs: the module
    variables, the cache and the engine are as the tasks handled in between
    have left them in [s]; the promises are the task's own, its promise as
    its first turn left it, at [own], and that of its [getTemplate]
    pending. *)
Definition resumed (own : option Outcome) (s : State) : State :=
  set_task_promise own (set_template_promise None s).

(** The calls of [fs.readFile] and of the engine's [compile] since [st]. *)
Definition reads_since (st s : State) : nat :=
  tally is_read (drop (length (events st)) (events s)).

Definition compiles_since (st s : State) : nat :=
  tally is_compile (drop (length (events st)) (events s)).

End Turns.

(** ** More tasks to run on the reference collaborators *)

Module Requests.
Import Reference Scenarios.
#[local] Existing Instance collaborators.

Definition named (messageContent templateName : field) : TaskMessage :=
  mkTask "/api/convert/hl7/:template" None None None None messageContent templateName None.

(** A named conversion of the empty object with [greeting.hbs]. *)
Definition greeting_request : TaskMessage := named (Some "{}") (Some "greeting.hbs").

(** A named conversion of the empty array with the same template. *)
Definition greeting_of_list : TaskMessage := named (Some "[]") (Some "greeting.hbs").

(** The worker when both have been handled and neither callback of
    [fs.readFile] has run. *)
Definition both_called : State :=
  snd (named_first_turn greeting_of_list (snd (named_first_turn greeting_request initial))).

(** The worker after the callback of the first, and after the callback of
    the second. *)
Definition first_done : State :=
  snd (convert_named_callback greeting_request (JObject [("msg", JObject [])])
         (Some (quote "hello")) (resumed None both_called)).

Definition both_done : State :=
  snd (convert_named_callback greeting_of_list (JObject [("msg", JArray [])])
         (Some (quote "hello")) (resumed None first_done)).

(** The same conversion without a message. *)
Definition without_message : TaskMessage := named None (Some "greeting.hbs").

(** A named conversion that names no template. *)
Definition without_name : TaskMessage := named (Some "{}") None.

(** The base64 text of [hello], which is not JSON. *)
Definition hello : string := "aGVsbG8=".

(** An inline conversion whose message is base64 and not JSON. *)
Definition unreadable : TaskMessage := inline (Some hello) (Some "") None None.

(** An inline conversion whose replacementDictionary is base64 and not
    JSON. *)
Definition with_unparsable_dictionary : TaskMessage :=
  inline (Some message) (Some "") (Some hello) None.

(** An inline conversion of [{"a":1}] with the template [{"a":1}], which
    has no expression and renders to its own text. *)
Definition templated : TaskMessage := inline (Some message) (Some message) None None.

(** A constants-updated task with the payload [null]. *)
Definition constants_null : TaskMessage :=
  mkTask "constantsUpdated" None None None None None None (Some "null").

(** What reading a property of [null] throws. *)
Definition null_error : JSError :=
  TypeError "Cannot read properties of null (reading 'TEMPLATE_FILES_LOCATION')".

(** What [path.join] throws at [undefined]. *)
Definition path_error : JSError := TypeError "The path argument must be of type string".





End Requests.

(** * Properties *)

(** Running a statement by unfolding the monad. *)
Ltac run :=
  cbv beta iota delta [mbind M_bind mret M_ret gets modify eval call try_catch when fst snd].

(** Reading the fields of a state that was built by the setters. *)
Ltac fields :=
  cbn [rebuildCache constants compileCache handlebarsInstance handles_built disk
       task_promise template_promise events
       set_rebuildCache set_constants set_compileCache install_handle
       set_task_promise set_template_promise record ToString settle].

Section Laws.
Context `{Collaborators}.

Lemma run_bind {A B : Type} (m : M A) (f : A -> M B) (st : State) :
  (m ≫= f) st = match m st with
                | (Ok a, st') => f a st'
                | (Throw e, st') => (Throw e, st')
                end.
Proof. reflexivity. Qed.

Lemma attempts_app (l1 l2 : list Event) : attempts (l1 ++ l2) = attempts l1 ++ attempts l2.
Proof. unfold attempts. apply omap_app. Qed.

Lemma settle_all_app (l1 l2 : list Outcome) (p : option Outcome) :
  settle_all (l1 ++ l2) p = settle_all l2 (settle_all l1 p).
Proof. unfold settle_all. apply foldl_app. Qed.

Lemma settle_all_settled (l : list Outcome) (o : Outcome) : settle_all l (Some o) = Some o.
Proof. induction l as [|o' l IH]; [reflexivity | exact IH]. Qed.

Lemma settle_all_pending (l : list Outcome) : settle_all l None = head l.
Proof. destruct l as [|o l]; [reflexivity | apply settle_all_settled]. Qed.

Lemma extends_refl (st : State) : extends st st.
Proof. exists []. split; [symmetry; apply app_nil_r | reflexivity]. Qed.

Lemma extends_trans (st1 st2 st3 : State) :
  extends st1 st2 -> extends st2 st3 -> extends st1 st3.
Proof.
  intros (n1 & E1 & P1) (n2 & E2 & P2). exists (n1 ++ n2). split.
  - rewrite E2, E1. symmetry. apply app_assoc.
  - rewrite attempts_app, settle_all_app, <- P1. exact P2.
Qed.

End Laws.

(** ** The pattern of the alphabet check *)

Section Pattern.

Lemma skip_class_split (s : string) :
  exists body, s = body +:+ skip_class s /\ all_class body = true.
Proof.
  induction s as [|c s IH]; [exists ""; split; reflexivity|].
  simpl. destruct (base64_class c) eqn:Hc.
  - destruct IH as (body & Hs & Hall). exists (String c body). simpl.
    rewrite Hc, Hall. split; [|reflexivity].
    change (String c s = String c (body +:+ skip_class s)). rewrite <- Hs. reflexivity.
  - exists "". split; reflexivity.
Qed.

Lemma skip_class_app (body pad : string) :
  all_class body = true -> skip_class (body +:+ pad) = skip_class pad.
Proof.
  induction body as [|c body IH]; [reflexivity|]. simpl.
  intros Hall. apply andb_prop in Hall as [Hc Hall]. rewrite Hc. apply IH, Hall.
Qed.

(** The test accepts the language of the pattern, and nothing else. *)
Lemma base64RegEx_test_matches (s : string) :
  base64RegEx_test s = true <-> matches_base64RegEx s.
Proof.
  unfold base64RegEx_test, matches_base64RegEx. split.
  - intros Ht. destruct (skip_class_split s) as (body & Hs & Hall).
    exists body, (skip_class s). split; [exact Hs | split; [exact Hall|]].
    apply orb_prop in Ht as [Ht|Ht]; [apply orb_prop in Ht as [Ht|Ht]|];
      apply String.eqb_eq in Ht; auto.
  - intros (body & pad & -> & Hall & Hpad). rewrite (skip_class_app body pad Hall).
    destruct Hpad as [-> | [-> | ->]]; reflexivity.
Qed.

End Pattern.

(** ** Every statement of the worker only moves the state forward *)

Section ExtendingRules.
Context `{Collaborators}.

Lemma extending_ret {A : Type} (a : A) : extending (mret a : M A).
Proof. intros st. apply extends_refl. Qed.

Lemma extending_bind {A B : Type} (m : M A) (f : A -> M B) :
  extending m -> (forall a, extending (f a)) -> extending (m ≫= f).
Proof.
  intros Hm Hf st. rewrite run_bind. specialize (Hm st).
  destruct (m st) as [[a|e] st1]; simpl in *; [|exact Hm].
  eapply extends_trans; [exact Hm | apply Hf].
Qed.

Lemma extending_try_catch {A : Type} (body : M A) (handler : JSError -> M A) :
  extending body -> (forall e, extending (handler e)) -> extending (try_catch body handler).
Proof.
  intros Hm Hh st. unfold try_catch. specialize (Hm st).
  destruct (body st) as [[a|e] st1]; simpl in *; [exact Hm|].
  eapply extends_trans; [exact Hm | apply Hh].
Qed.

Lemma extending_when (c : bool) (body : M unit) : extending body -> extending (when c body).
Proof. intros Hb. destruct c; [exact Hb | apply extending_ret]. Qed.

Lemma extending_gets {A : Type} (f : State -> A) : extending (gets f).
Proof. intros st. apply extends_refl. Qed.

Lemma extending_eval {A : Type} (r : Res A) : extending (eval r).
Proof. intros st. apply extends_refl. Qed.

Lemma extending_modify (f : State -> State) :
  (forall st, events (f st) = events st /\ task_promise (f st) = task_promise st) ->
  extending (modify f).
Proof.
  intros Hf st. destruct (Hf st) as [E P]. exists []. simpl. rewrite E, P.
  split; [symmetry; apply app_nil_r | reflexivity].
Qed.

Lemma extending_record (e : Event) : attempt e = None -> extending (modify (record e)).
Proof.
  intros He st. exists [e]. simpl. split; [reflexivity|].
  unfold attempts. simpl. rewrite He. reflexivity.
Qed.

Lemma extending_call {A : Type} (e : Event) (r : Res A) :
  attempt e = None -> extending (call e r).
Proof.
  intros He. apply extending_bind; [apply extending_record, He | intros; apply extending_eval].
Qed.

Lemma extending_settle_task (o : Outcome) : extending (settle_task o).
Proof. intros st. exists [EvSettle o]. simpl. split; reflexivity. Qed.

End ExtendingRules.

Ltac extending_step :=
  match goal with
  | |- extending (mret _) => apply extending_ret
  | |- extending (_ ≫= _) => apply extending_bind; [|intros]
  | |- extending (try_catch _ _) => apply extending_try_catch; [|intros]
  | |- extending (when _ _) => apply extending_when
  | |- extending (gets _) => apply extending_gets
  | |- extending (eval _) => apply extending_eval
  | |- extending (call _ _) => apply extending_call; reflexivity
  | |- extending (settle_task _) => apply extending_settle_task
  | |- extending (fulfill _) => apply extending_settle_task
  | |- extending (reject _) => apply extending_settle_task
  | |- extending (modify (record _)) => apply extending_record; reflexivity
  | |- extending (modify _) => apply extending_modify; intros; split; reflexivity
  | |- extending (if ?c then _ else _) => destruct c
  | |- extending (match ?x with _ => _ end) => destruct x
  | |- extending _ => assumption
  end.

Ltac extending_auto := repeat extending_step.

Section Extending.
Context `{Collaborators}.

Lemma extending_settle_template (o : Settled Template) : extending (settle_template o).
Proof. unfold settle_template. extending_auto. Qed.

Lemma extending_HandlebarsConverter_instance (createNew : bool) (location templatesMap : JSValue) :
  extending (HandlebarsConverter_instance createNew location templatesMap).
Proof. unfold HandlebarsConverter_instance. extending_auto. Qed.

Lemma extending_GetHandlebarsInstance (templatesMap : JSValue) :
  extending (GetHandlebarsInstance templatesMap).
Proof.
  unfold GetHandlebarsInstance. pose proof extending_HandlebarsConverter_instance.
  extending_auto. auto.
Qed.

Lemma extending_expireCache : extending expireCache.
Proof. unfold expireCache. extending_auto. Qed.

Lemma extending_generateResult (msgContext : JSValue) (template : Template)
    (replacementDictionary : JSValue) :
  extending (generateResult msgContext template replacementDictionary).
Proof. unfold generateResult. extending_auto. Qed.

Lemma extending_compile_source (templatesMap : JSValue) (text : string) :
  extending (compile_source templatesMap text).
Proof.
  unfold compile_source. pose proof extending_GetHandlebarsInstance.
  extending_auto. auto.
Qed.

Lemma extending_decode_field (msg : TaskMessage) (f : FieldName) :
  extending (decode_field msg f).
Proof. unfold decode_field. extending_auto. Qed.

Lemma extending_parse (text : string) : extending (parse text).
Proof. unfold parse. extending_auto. Qed.

Lemma extending_check_field (msg : TaskMessage) (f : FieldName) (text : string) :
  extending (check_field msg f text).
Proof. unfold check_field. extending_auto. Qed.

Lemma extending_optional_field (msg : TaskMessage) (f : FieldName) (text : string)
    (initial : JSValue) :
  extending (optional_field msg f text initial).
Proof.
  unfold optional_field.
  pose proof extending_check_field. pose proof extending_decode_field.
  pose proof extending_parse.
  extending_auto; auto.
Qed.

Lemma extending_create_result (context : JSValue) (template : Template)
    (replacementDictionary : JSValue) :
  extending (create_result context template replacementDictionary).
Proof. unfold create_result. pose proof extending_generateResult. extending_auto; auto. Qed.

Lemma extending_evaluate_template (msgContext : JSValue) (compiledTemplate : Template) :
  extending (evaluate_template msgContext compiledTemplate).
Proof. unfold evaluate_template. pose proof extending_generateResult. extending_auto; auto. Qed.

Lemma extending_convert_inline_body (msg : TaskMessage) : extending (convert_inline_body msg).
Proof.
  unfold convert_inline_body.
  pose proof extending_check_field. pose proof extending_optional_field.
  pose proof extending_decode_field. pose proof extending_parse.
  pose proof extending_compile_source. pose proof extending_create_result.
  extending_auto; auto.
Qed.

Lemma extending_convert_inline (msg : TaskMessage) : extending (convert_inline msg).
Proof.
  unfold convert_inline. pose proof extending_convert_inline_body.
  extending_auto; auto.
Qed.

Lemma extending_readFile_callback (templateName : field) (content : option string) :
  extending (readFile_callback templateName content).
Proof.
  unfold readFile_callback.
  pose proof extending_settle_template. pose proof extending_compile_source.
  extending_auto; auto.
Qed.

Lemma extending_lookup_template (templateName : field) : extending (lookup_template templateName).
Proof.
  unfold lookup_template, getTemplate, template_executor.
  pose proof extending_settle_template. pose proof extending_readFile_callback.
  extending_auto; auto.
Qed.

Lemma extending_on_template (msgContext : JSValue) : extending (on_template msgContext).
Proof.
  unfold on_template. pose proof extending_evaluate_template.
  extending_auto; auto.
Qed.

Lemma extending_convert_named (msg : TaskMessage) : extending (convert_named msg).
Proof.
  unfold convert_named.
  pose proof extending_parse. pose proof extending_lookup_template.
  pose proof extending_on_template.
  extending_auto; auto.
Qed.

Lemma extending_handler (msg : TaskMessage) : extending (handler msg).
Proof.
  unfold handler.
  pose proof extending_convert_inline. pose proof extending_convert_named.
  pose proof extending_expireCache. pose proof extending_parse.
  extending_auto; auto.
Qed.

Lemma extending_task_executor (body : M unit) : extending body -> extending (task_executor body).
Proof. intros Hb. unfold task_executor. extending_auto. Qed.

End Extending.

(** ** Every path of a recognised task reaches a settlement *)

Section Settling.
Context `{Collaborators}.

Lemma ending_bind {A B : Type} (Q : State -> Prop) (m : M A) (f : A -> M B) :
  (forall a, ending Q (f a)) -> ending Q (m ≫= f).
Proof.
  intros Hf st. rewrite run_bind.
  destruct (m st) as [[a|e] st1]; simpl; [apply Hf | exact I].
Qed.

Lemma ending_try_catch {A : Type} (Q : State -> Prop) (body : M A) (handler : JSError -> M A) :
  ending Q body -> (forall e, ending Q (handler e)) -> ending Q (try_catch body handler).
Proof.
  intros Hb Hh st. unfold try_catch. specialize (Hb st).
  destruct (body st) as [[a|e] st1]; simpl in *; [exact Hb | apply Hh].
Qed.

Lemma settling_settle_task (o : Outcome) : settling (settle_task o).
Proof. intros st. simpl. unfold task_settled. simpl. destruct (task_promise st); discriminate. Qed.

Lemma ending_settle_template (o : Settled Template) : ending template_settled (settle_template o).
Proof.
  intros st. simpl. unfold template_settled. simpl. destruct (template_promise st); discriminate.
Qed.

Lemma total_settle_template (o : Settled Template) : total (settle_template o).
Proof. intros st. exists tt. reflexivity. Qed.

Lemma total_settle_task (o : Outcome) : total (settle_task o).
Proof. intros st. exists tt. reflexivity. Qed.

Lemma total_try_catch {A : Type} (body : M A) (handler : JSError -> M A) :
  (forall e, total (handler e)) -> total (try_catch body handler).
Proof.
  intros Hh st. unfold try_catch.
  destruct (body st) as [[a|e] st1]; [exists a; reflexivity | apply Hh].
Qed.

Lemma total_bind {A B : Type} (m : M A) (f : A -> M B) :
  total m -> (forall a, total (f a)) -> total (m ≫= f).
Proof.
  intros Hm Hf st. rewrite run_bind. destruct (Hm st) as [a Ha].
  destruct (m st) as [[a'|e] st1]; simpl in Ha; [apply Hf | discriminate].
Qed.

(** The callback of [fs.readFile] settles the template's promise and never
    throws, whatever the engine does. *)
Lemma readFile_callback_settles (templateName : field) (content : option string) :
  ending template_settled (readFile_callback templateName content)
  /\ total (readFile_callback templateName content).
Proof.
  unfold readFile_callback. destruct content as [text|].
  - split.
    + apply ending_try_catch.
      * apply ending_bind. intros t. apply ending_bind. intros c.
        apply ending_bind. intros _. apply ending_settle_template.
      * intros e. apply ending_settle_template.
    + apply total_try_catch. intros e. apply total_settle_template.
  - split; [apply ending_settle_template | apply total_settle_template].
Qed.

(** What [getTemplate] does in the turn of the call, case by case. *)
Lemma getTemplate_run (templateName : field) (s : State) :
  getTemplate templateName s
  = match compileCache s !! ToString templateName with
    | Some t => (Ok None, set_template_promise (Some (Fulfilled t)) s)
    | None =>
        match template_path (constants s) templateName with
        | Throw e =>
            (Ok None, set_template_promise (Some (Rejected (ReasonThrown e))) s)
        | Ok file =>
            match disk s file with
            | Throw e =>
                (Ok None,
                 set_template_promise (Some (Rejected (ReasonThrown e)))
                   (record (EvReadFile file) s))
            | Ok content =>
                (Ok (Some content), record (EvReadFile file) (set_template_promise None s))
            end
        end
    end.
Proof.
  unfold getTemplate, template_executor, template_path, settle_template. run. fields.
  destruct (compileCache s !! ToString templateName) as [t|]; [reflexivity|]. fields.
  destruct (get_property (constants s) "TEMPLATE_FILES_LOCATION") as [location|e];
    [|reflexivity].
  destruct (path_join_checked location templateName) as [file|e]; [|reflexivity].
  fields. destruct (disk s file) as [content|e]; reflexivity.
Qed.

(** A lookup that nothing interrupts leaves the promise of [getTemplate]
    settled, and never throws. *)
Lemma lookup_template_settles (templateName : field) (st : State) :
  fst (lookup_template templateName st) = Ok tt
  /\ template_settled (snd (lookup_template templateName st)).
Proof.
  unfold lookup_template. rewrite run_bind, getTemplate_run.
  destruct (compileCache st !! ToString templateName) as [t|];
    [split; [reflexivity | discriminate]|].
  destruct (template_path (constants st) templateName) as [file|e];
    [|split; [reflexivity | discriminate]].
  destruct (disk st file) as [content|e]; [|split; [reflexivity | discriminate]].
  destruct (readFile_callback_settles templateName content) as [E T].
  specialize (E (record (EvReadFile file) (set_template_promise None st))).
  destruct (T (record (EvReadFile file) (set_template_promise None st))) as [[] Ha].
  rewrite Ha in E. split; assumption.
Qed.

Lemma settling_create_result (context : JSValue) (template : Template)
    (replacementDictionary : JSValue) :
  settling (create_result context template replacementDictionary).
Proof.
  unfold create_result. apply ending_try_catch; [|intros e; apply settling_settle_task].
  apply ending_bind. intros r. apply settling_settle_task.
Qed.

Lemma settling_evaluate_template (msgContext : JSValue) (compiledTemplate : Template) :
  settling (evaluate_template msgContext compiledTemplate).
Proof.
  unfold evaluate_template. apply ending_try_catch; [|intros e; apply settling_settle_task].
  apply ending_bind. intros r. apply settling_settle_task.
Qed.

Lemma total_evaluate_template (msgContext : JSValue) (compiledTemplate : Template) :
  total (evaluate_template msgContext compiledTemplate).
Proof. unfold evaluate_template. apply total_try_catch. intros e. apply total_settle_task. Qed.

Lemma on_template_settles (msgContext : JSValue) (st : State) :
  template_settled st ->
  fst (on_template msgContext st) = Ok tt /\ task_settled (snd (on_template msgContext st)).
Proof.
  intros Hs. unfold on_template. rewrite run_bind. simpl.
  unfold template_settled in Hs. destruct (template_promise st) as [[t|r]|]; [| |contradiction].
  - pose proof (settling_evaluate_template msgContext t st) as E.
    destruct (total_evaluate_template msgContext t st) as [[] Ha].
    rewrite Ha in E. split; assumption.
  - split; [reflexivity | apply (settling_settle_task (Rejected r) st)].
Qed.

Lemma settling_convert_inline (msg : TaskMessage) : settling (convert_inline msg).
Proof.
  unfold convert_inline. apply ending_try_catch; [|intros e; apply settling_settle_task].
  unfold convert_inline_body. do 6 (apply ending_bind; intros ?).
  destruct (String.length _ =? 0)%nat.
  - apply ending_bind. intros copy. apply settling_settle_task.
  - apply ending_bind. intros t. apply settling_create_result.
Qed.

Lemma settling_convert_named (msg : TaskMessage) : settling (convert_named msg).
Proof.
  unfold convert_named. apply ending_bind. intros _. apply ending_bind. intros msgObject.
  intros st. rewrite run_bind.
  destruct (lookup_template_settles (templateName msg) st) as [E S].
  destruct (lookup_template (templateName msg) st) as [r st1]. simpl in E, S. subst r.
  destruct (on_template_settles (JObject [("msg", msgObject)]) st1 S) as [E1 S1].
  rewrite E1. exact S1.
Qed.

Lemma settling_handler (msg : TaskMessage) (k : TaskKind) :
  task_kind (type msg) = Some k -> settling (handler msg).
Proof.
  intros Hk. unfold handler. rewrite Hk. destruct k.
  - apply settling_convert_inline.
  - apply settling_convert_named.
  - apply ending_bind. intros _. apply settling_settle_task.
  - do 3 (apply ending_bind; intros ?). apply settling_settle_task.
Qed.

(** The promise of a task whose executor settles on every normal path is
    settled: what the executor throws rejects it. *)
Lemma task_executor_settles (body : M unit) (st : State) :
  settling body -> task_settled (snd (task_executor body st)).
Proof.
  intros Hb. unfold task_executor, try_catch. specialize (Hb st).
  destruct (body st) as [[a|e] st1]; simpl in *; [exact Hb|].
  apply (settling_settle_task (Rejected (ReasonThrown e)) st1).
Qed.

Lemma process_extends (msg : TaskMessage) (st : State) :
  exists new,
    events (process msg st) = events st ++ new
    /\ task_promise (process msg st) = head (attempts new).
Proof.
  destruct (extending_task_executor (handler msg) (extending_handler msg)
              (set_task_promise None st)) as (new & E & P).
  exists new. split; [exact E|]. unfold process. rewrite P. apply settle_all_pending.
Qed.

Lemma outcome_first_attempt (msg : TaskMessage) (st : State) :
  outcome msg st = head (attempts (new_events msg st)).
Proof.
  destruct (process_extends msg st) as (new & E & P). unfold outcome, new_events.
  rewrite E, drop_app_length. exact P.
Qed.

(** A task with a [case] of its own is settled by the first call of its
    [fulfill] or [reject]. *)
Lemma recognised_task_settles (msg : TaskMessage) (st : State) (k : TaskKind) :
  task_kind (type msg) = Some k ->
  exists o later,
    attempts (new_events msg st) = o :: later /\ outcome msg st = Some o.
Proof.
  intros Hk.
  pose proof (task_executor_settles (handler msg) (set_task_promise None st)
                (settling_handler msg k Hk)) as Hs.
  pose proof (outcome_first_attempt msg st) as Ho.
  unfold task_settled in Hs. fold (process msg st) in Hs. fold (outcome msg st) in Hs.
  destruct (attempts (new_events msg st)) as [|o later].
  - rewrite Ho in Hs. contradiction.
  - exists o, later. split; [reflexivity | exact Ho].
Qed.

End Settling.

(** ** The settlement protocol *)

Section Settlement.
Context `{Collaborators}.

(** C4: a task of a recognised kind is settled, by the first call of its
    [fulfill] or [reject], whatever calls follow; a task of any other kind
    makes no call at all and stays pending. *)
Theorem task_settled_by_first_attempt (msg : TaskMessage) (st : State) :
  match task_kind (type msg) with
  | Some _ =>
      exists o later,
        attempts (new_events msg st) = o :: later /\ outcome msg st = Some o
  | None =>
      new_events msg st = [] /\ outcome msg st = None
  end.
Proof.
  destruct (task_kind (type msg)) as [k|] eqn:Hk.
  - apply (recognised_task_settles msg st k Hk).
  - assert (E : process msg st = set_task_promise None st).
    { unfold process, task_executor, handler. rewrite Hk. reflexivity. }
    unfold outcome, new_events. rewrite E. simpl. split; [apply drop_all | reflexivity].
Qed.

End Settlement.

(** ** The engine instance manager *)

Section Engine.
Context `{Collaborators}.

Lemma needToUseMap_plain_map (M : JSValue) : plain_map M -> needToUseMap M = true.
Proof.
  intros (props & -> & Hne & Hc). unfold needToUseMap. simpl. rewrite Hc.
  destruct props; [contradiction | reflexivity].
Qed.

Lemma needToUseMap_no_map (M : JSValue) : no_map M -> needToUseMap M = false.
Proof.
  unfold needToUseMap. destruct M as [| |b|n|s|items|props]; simpl; intros Hm;
    try reflexivity; try apply andb_false_r.
  subst props. reflexivity.
Qed.


(** The map is used only if it is an object with a property. *)
Lemma needToUseMap_object (M : JSValue) :
  needToUseMap M = true -> exists props, M = JObject props /\ props <> [].
Proof.
  unfold needToUseMap. destruct M as [| |b|n|s|items|props]; simpl;
    try discriminate; try (rewrite andb_false_r; discriminate).
  destruct props; [discriminate|]. intros _. eexists. split; [reflexivity | discriminate].
Qed.

(** An acquisition that uses the map, or finds the flag set, builds. *)
Lemma GetHandlebarsInstance_builds (M location : JSValue) (st : State) :
  get_property (constants st) "TEMPLATE_FILES_LOCATION" = Ok location ->
  needToUseMap M || rebuildCache st = true ->
  builds_fresh M location (needToUseMap M) st (GetHandlebarsInstance M st).
Proof.
  intros Hloc Hnew. unfold builds_fresh, GetHandlebarsInstance, HandlebarsConverter_instance.
  run. rewrite Hloc. run.
  assert (E : (if needToUseMap M then true else rebuildCache st) = true)
    by (destruct (needToUseMap M); [reflexivity | exact Hnew]).
  rewrite E. run. simpl. rewrite <- app_assoc.
  destruct (needToUseMap M); repeat split; reflexivity.
Qed.

(** An acquisition that does not use the map and finds the flag clear
    returns the shared handle. *)
Lemma GetHandlebarsInstance_reuses (M location : JSValue) (h : Handle) (st : State) :
  get_property (constants st) "TEMPLATE_FILES_LOCATION" = Ok location ->
  needToUseMap M = false ->
  rebuildCache st = false ->
  handlebarsInstance st = Some h ->
  reuses_shared h M location st (GetHandlebarsInstance M st).
Proof.
  intros Hloc Hneed Hflag Hshared.
  unfold reuses_shared, GetHandlebarsInstance, HandlebarsConverter_instance.
  run. rewrite Hloc, Hneed, Hflag. run. simpl. rewrite Hshared. run. simpl.
  repeat split; assumption || reflexivity.
Qed.

End Engine.

Section Acquisition.
Context `{Collaborators}.



(** C10: the override map is used only if it is an object with a property;
    given any value that is not an object, an array of entries for one,
    while the contamination flag is clear, the acquisition returns the
    shared handle, leaves the flag clear, and still passes the value on to
    the engine. *)
Theorem acquisition_ignores_other_values (M location : JSValue) (h : Handle) (st : State) :
  get_property (constants st) "TEMPLATE_FILES_LOCATION" = Ok location ->
  (forall props, M <> JObject props) ->
  rebuildCache st = false ->
  handlebarsInstance st = Some h ->
  (forall M', needToUseMap M' = true -> exists props, M' = JObject props /\ props <> [])
  /\ reuses_shared h M location st (GetHandlebarsInstance M st).
Proof.
  intros Hloc Hm Hflag Hshared. split; [apply needToUseMap_object|].
  apply GetHandlebarsInstance_reuses; auto.
  apply needToUseMap_no_map. destruct M; simpl; auto. edestruct Hm. reflexivity.
Qed.

End Acquisition.

(** ** The engine module and the contamination flag agree *)

Section StableRules.
Context `{Collaborators}.
Variable I : State -> Prop.

Lemma stable_ret {A : Type} (a : A) : stable I (mret a : M A).
Proof. intros st Hst. exact Hst. Qed.

Lemma stable_bind {A B : Type} (m : M A) (f : A -> M B) :
  stable I m -> (forall a, stable I (f a)) -> stable I (m ≫= f).
Proof.
  intros Hm Hf st Hst. rewrite run_bind. specialize (Hm st Hst).
  destruct (m st) as [[a|e] st1]; simpl in *; [apply Hf, Hm | exact Hm].
Qed.

Lemma stable_try_catch {A : Type} (body : M A) (handler : JSError -> M A) :
  stable I body -> (forall e, stable I (handler e)) -> stable I (try_catch body handler).
Proof.
  intros Hm Hh st Hst. unfold try_catch. specialize (Hm st Hst).
  destruct (body st) as [[a|e] st1]; simpl in *; [exact Hm | apply Hh, Hm].
Qed.

Lemma stable_when (c : bool) (body : M unit) : stable I body -> stable I (when c body).
Proof. intros Hb. destruct c; [exact Hb | apply stable_ret]. Qed.

Lemma stable_gets {A : Type} (f : State -> A) : stable I (gets f).
Proof. intros st Hst. exact Hst. Qed.

Lemma stable_eval {A : Type} (r : Res A) : stable I (eval r).
Proof. intros st Hst. exact Hst. Qed.

Lemma stable_modify (f : State -> State) :
  (forall st, I st -> I (f st)) -> stable I (modify f).
Proof. intros Hf st Hst. apply Hf, Hst. Qed.

Lemma stable_call {A : Type} (e : Event) (r : Res A) :
  (forall st, I st -> I (record e st)) -> stable I (call e r).
Proof.
  intros He. apply stable_bind; [apply stable_modify, He | intros; apply stable_eval].
Qed.

End StableRules.

(** A statement of the worker that keeps [engine_ok]: the setters it uses
    leave the engine and the flag alone, or set the flag. *)
Ltac engine_step :=
  match goal with
  | |- stable _ (mret _) => apply stable_ret
  | |- stable _ (_ ≫= _) => apply stable_bind; [|intros]
  | |- stable _ (try_catch _ _) => apply stable_try_catch; [|intros]
  | |- stable _ (when _ _) => apply stable_when
  | |- stable _ (gets _) => apply stable_gets
  | |- stable _ (eval _) => apply stable_eval
  | |- stable _ (call _ _) => apply stable_call; intros ? ?; assumption
  | |- stable _ (settle_task _) => apply stable_modify; intros ? ?; assumption
  | |- stable _ (fulfill _) => apply stable_modify; intros ? ?; assumption
  | |- stable _ (reject _) => apply stable_modify; intros ? ?; assumption
  | |- stable _ (settle_template _) => apply stable_modify; intros ? ?; assumption
  | |- stable _ (modify (set_rebuildCache true)) =>
      apply stable_modify; intros ? [_ ?]; split; [discriminate | assumption]
  | |- stable _ (modify _) => apply stable_modify; intros ? ?; assumption
  | |- stable _ (if ?c then _ else _) => destruct c
  | |- stable _ (match ?x with _ => _ end) => destruct x
  end.

Ltac engine_auto := repeat engine_step.

Section EngineInvariant.
Context `{Collaborators}.

Lemma engine_ok_GetHandlebarsInstance (templatesMap : JSValue) :
  stable engine_ok (GetHandlebarsInstance templatesMap).
Proof.
  intros st [Hshared Hid]. unfold GetHandlebarsInstance, HandlebarsConverter_instance. run.
  destruct (get_property (constants st) "TEMPLATE_FILES_LOCATION") as [location|e];
    [|split; assumption].
  fields.
  destruct (if needToUseMap templatesMap then true else rebuildCache st) eqn:Hnew.
  - run. split; simpl.
    + intros _. eexists. reflexivity.
    + intros h [= <-]. simpl. lia.
  - destruct (needToUseMap templatesMap); [discriminate|].
    destruct (Hshared Hnew) as [h Hh]. rewrite Hh. run. split; simpl.
    + intros _. exists h. exact Hh.
    + exact Hid.
Qed.

Lemma engine_ok_process (msg : TaskMessage) (st : State) :
  engine_ok st -> engine_ok (process msg st).
Proof.
  intros Hst. pose proof engine_ok_GetHandlebarsInstance as Hget.
  assert (Hhandler : stable engine_ok (task_executor (handler msg))).
  { unfold task_executor, handler, convert_inline, convert_inline_body, convert_named,
      lookup_template, getTemplate, template_executor, readFile_callback, on_template,
      evaluate_template,
      create_result, compile_source, generateResult, optional_field, check_field,
      decode_field, parse, expireCache.
    engine_auto; apply Hget. }
  apply Hhandler. exact Hst.
Qed.

(** In every state that the worker gets into, the hypotheses under which
    an acquisition returns the shared handle describe all there is: a clear
    flag comes with a shared handle, and the handle that an acquisition
    builds is not the shared one. *)
Lemma reachable_engine_ok (st : State) : reachable st -> engine_ok st.
Proof.
  induction 1 as [st [Hflag Hnone]|msg st _ IH].
  - split; [rewrite Hflag; discriminate | rewrite Hnone; discriminate].
  - apply engine_ok_process, IH.
Qed.

End EngineInvariant.

(** ** The engine instance manager on the reference collaborators *)

Module AcquisitionExamples.
Import Reference Scenarios.
#[local] Existing Instance collaborators.



Lemma acquisition_ignores_other_values_witness :
  reuses_shared baseline entries location warm (GetHandlebarsInstance entries warm).
Proof.
  destruct (acquisition_ignores_other_values entries location baseline warm) as (_ & Hr);
    [reflexivity | discriminate | reflexivity | reflexivity | exact Hr].
Defined.

(** An object that has a property called [constructor] is not taken for a
    plain object either. *)
Example own_constructor_property :
  needToUseMap (JObject [("constructor", JString "hello")]) = false.
Proof. reflexivity. Qed.

End AcquisitionExamples.

(** ** The compiled-template cache *)

Section Cache.
Context `{Collaborators}.

Lemma tally_app (p : Event -> bool) (l1 l2 : list Event) :
  tally p (l1 ++ l2) = (tally p l1 + tally p l2)%nat.
Proof. unfold tally. rewrite List.filter_app, length_app. reflexivity. Qed.

(** What an acquisition without a map does, field by field. *)
Lemma GetHandlebarsInstance_undefined (dir : string) (st : State) :
  configured dir st ->
  exists st' acq,
    GetHandlebarsInstance JUndefined st = (Ok (next_handle (JString dir) st), st')
    /\ rebuildCache st' = false
    /\ handlebarsInstance st' = Some (next_handle (JString dir) st)
    /\ constants st' = constants st
    /\ compileCache st' = compileCache st
    /\ disk st' = disk st
    /\ task_promise st' = task_promise st
    /\ template_promise st' = template_promise st
    /\ events st' = events st ++ acq
    /\ tally is_read acq = 0%nat
    /\ tally is_compile acq = 0%nat.
Proof.
  intros Hloc. unfold configured in Hloc.
  unfold GetHandlebarsInstance, HandlebarsConverter_instance, next_handle.
  run. rewrite Hloc. run. simpl.
  destruct (rebuildCache st); [|destruct (handlebarsInstance st) as [h|] eqn:Hshared];
    run; simpl; eexists; eexists; (split; [reflexivity|]); simpl;
    rewrite <- ?app_assoc; repeat split; reflexivity || exact Hshared.
Qed.

(** What compiling a template without a map does: the handle is acquired,
    the two collaborators are called, and nothing else changes. *)
Lemma compile_source_undefined (dir text : string) (st : State) :
  configured dir st ->
  exists st' new,
    compile_source JUndefined text st = (compiles (next_handle (JString dir) st) text, st')
    /\ next_handle (JString dir) st' = next_handle (JString dir) st
    /\ constants st' = constants st
    /\ compileCache st' = compileCache st
    /\ disk st' = disk st
    /\ task_promise st' = task_promise st
    /\ template_promise st' = template_promise st
    /\ events st' = events st ++ new
    /\ tally is_read new = 0%nat
    /\ tally is_compile new
       = match templatePreprocessor_Process text with Ok _ => 1%nat | Throw _ => 0%nat end.
Proof.
  intros Hloc.
  destruct (GetHandlebarsInstance_undefined dir st Hloc)
    as (st1 & acq & Hrun & Hflag & Hshared & Hconst & Hcache & Hdisk & Htask & Htempl
        & Hev & Hreads & Hcompiles).
  unfold compile_source, compiles. rewrite run_bind, Hrun. run.
  assert (Hnext : forall e1 e2,
             next_handle (JString dir) (record e1 st1) = next_handle (JString dir) st
             /\ next_handle (JString dir) (record e2 (record e1 st1))
                = next_handle (JString dir) st).
  { intros e1 e2. unfold next_handle. simpl. rewrite Hflag, Hshared. split; reflexivity. }
  destruct (templatePreprocessor_Process text) as [source|e].
  - eexists. exists (acq ++ [EvPreprocess text; EvCompile (next_handle (JString dir) st) source]).
    split; [reflexivity|]. simpl. rewrite Hev, <- !app_assoc, !tally_app, Hreads, Hcompiles.
    repeat split; try assumption; try reflexivity. apply Hnext.
  - eexists. exists (acq ++ [EvPreprocess text]).
    split; [reflexivity|]. simpl. rewrite Hev, <- !app_assoc, !tally_app, Hreads, Hcompiles.
    repeat split; try assumption; try reflexivity. apply (Hnext (EvPreprocess text) (EvPreprocess text)).
Qed.

(** A lookup of a cached name: the promise is fulfilled with the cached
    template and nothing else happens. *)
Lemma lookup_template_hit (name : string) (t : Template) (st : State) :
  compileCache st !! name = Some t ->
  lookup_template (Some name) st = (Ok tt, set_template_promise (Some (Fulfilled t)) st).
Proof.
  intros Hhit. unfold lookup_template, getTemplate, template_executor, settle_template.
  run. simpl.
  rewrite Hhit. reflexivity.
Qed.

(** A lookup whose file path cannot be made is rejected with the error
    as it was thrown, before anything is read. *)
Lemma lookup_template_throws (templateName : field) (e : JSError) (s : State) :
  compileCache s !! ToString templateName = None ->
  template_path (constants s) templateName = Throw e ->
  lookup_template templateName s
  = (Ok tt, set_template_promise (Some (Rejected (ReasonThrown e))) s).
Proof.
  intros Hmiss Hpath. unfold lookup_template. rewrite run_bind, getTemplate_run.
  rewrite Hmiss, Hpath. reflexivity.
Qed.


(** A lookup of a name that is not cached and whose file cannot be read. *)
Lemma lookup_template_missing (name dir : string) (st : State) :
  compileCache st !! name = None ->
  configured dir st ->
  disk st (path_join dir name) = Ok None ->
  lookup_template (Some name) st
  = (Ok tt, set_template_promise (Some (Rejected (not_found "Template not found")))
              (record (EvReadFile (path_join dir name)) st)).
Proof.
  intros Hmiss Hloc Hdisk. unfold configured in Hloc.
  unfold lookup_template, getTemplate, template_executor, readFile_callback, settle_template.
  run. fields.
  rewrite Hmiss. fields. rewrite Hloc. cbn [path_join_checked]. fields. rewrite Hdisk.
  reflexivity.
Qed.

(** A lookup of a name that is not cached and at whose path [fs.readFile]
    throws: the promise is rejected with what was thrown. *)
Lemma lookup_template_refused (name dir : string) (e : JSError) (st : State) :
  compileCache st !! name = None ->
  configured dir st ->
  disk st (path_join dir name) = Throw e ->
  lookup_template (Some name) st
  = (Ok tt, set_template_promise (Some (Rejected (ReasonThrown e)))
              (record (EvReadFile (path_join dir name)) st)).
Proof.
  intros Hmiss Hloc Hdisk. unfold configured in Hloc.
  unfold lookup_template. rewrite run_bind, getTemplate_run. cbn [ToString].
  unfold template_path. rewrite Hmiss, Hloc. cbn [path_join_checked]. rewrite Hdisk.
  reflexivity.
Qed.

(** A lookup of a name that is not cached and whose file is read: the text
    is compiled with the handle of an acquisition without a map; the
    template is stored and the promise fulfilled, or nothing is stored and
    the promise rejected. *)
Lemma lookup_template_retrieved (name dir content : string) (st : State) :
  compileCache st !! name = None ->
  configured dir st ->
  disk st (path_join dir name) = Ok (Some content) ->
  exists st' new,
    lookup_template (Some name) st = (Ok tt, st')
    /\ template_promise st'
       = Some (match compiles (next_handle (JString dir) st) content with
               | Ok t => Fulfilled t
               | Throw e => Rejected (bad_request ("Error during template compilation. "
                                                   +:+ Error_toString e))
               end)
    /\ compileCache st'
       = match compiles (next_handle (JString dir) st) content with
         | Ok t => <[name := t]> (compileCache st)
         | Throw _ => compileCache st
         end
    /\ next_handle (JString dir) st' = next_handle (JString dir) st
    /\ constants st' = constants st
    /\ disk st' = disk st
    /\ task_promise st' = task_promise st
    /\ events st' = events st ++ new
    /\ tally is_read new = 1%nat
    /\ tally is_compile new
       = match templatePreprocessor_Process content with Ok _ => 1%nat | Throw _ => 0%nat end.
Proof.
  intros Hmiss Hloc Hdisk.
  set (st1 := record (EvReadFile (path_join dir name)) (set_template_promise None st)).
  destruct (compile_source_undefined dir content st1 Hloc)
    as (st2 & new & Hrun & Hnext & Hconst & Hcache & Hfiles & Htask & Htempl
        & Hev & Hreads & Hcompiles).
  change (next_handle (JString dir) st1) with (next_handle (JString dir) st) in *.
  unfold configured in Hloc.
  unfold lookup_template, getTemplate, template_executor, readFile_callback, settle_template.
  run. fields.
  rewrite Hmiss. fields. rewrite Hloc. cbn [path_join_checked]. fields. rewrite Hdisk.
  fold st1. rewrite Hrun.
  destruct (compiles (next_handle (JString dir) st) content) as [t|e];
    run; simpl; eexists; exists (EvReadFile (path_join dir name) :: new);
    (split; [reflexivity|]); simpl; rewrite Htempl, Hev; simpl;
    rewrite <- ?app_assoc; simpl; rewrite ?Hcache.
  all: repeat split; try assumption; try reflexivity;
    try (unfold next_handle in *; simpl; exact Hnext);
    try (change (tally is_read (EvReadFile (path_join dir name) :: new))
           with (S (tally is_read new)); rewrite Hreads; reflexivity).
Qed.



(** A named conversion with a message that parses is the lookup followed
    by its callbacks. *)
Lemma process_named (msg : TaskMessage) (text name : string) (v : JSValue) (st : State) :
  named_request msg text name v ->
  process msg st
  = snd (on_template (JObject [("msg", v)])
           (snd (lookup_template (Some name)
                   (record (EvParse text) (set_task_promise None st))))).
Proof.
  intros (Hkind & Hcontent & Htruthy & Hparse & Hname).
  unfold process, task_executor, handler. rewrite Hkind.
  unfold convert_named, parse. rewrite Hcontent, Hname, Htruthy. cbn [negb]. run. fields.
  rewrite Hparse.
  set (s1 := record (EvParse text) (set_task_promise None st)).
  destruct (lookup_template_settles (Some name) s1) as [E S].
  destruct (lookup_template (Some name) s1) as [r s2]. simpl in E, S. subst r.
  destruct (on_template_settles (JObject [("msg", v)]) s2 S) as [E1 _].
  destruct (on_template (JObject [("msg", v)]) s2) as [r s3]. simpl in E1. subst r.
  reflexivity.
Qed.


(** A named conversion is the lookup followed by its callbacks, on a state
    that the validation of the message has only added events to, and
    perhaps a rejection. *)
Lemma process_named_any (msg : TaskMessage) (st : State) :
  task_kind (type msg) = Some NamedConversion ->
  exists s1 v pre,
    process msg st
    = snd (on_template (JObject [("msg", v)]) (snd (lookup_template (templateName msg) s1)))
    /\ events s1 = events st ++ pre
    /\ rebuildCache s1 = rebuildCache st
    /\ constants s1 = constants st
    /\ compileCache s1 = compileCache st
    /\ handlebarsInstance s1 = handlebarsInstance st
    /\ handles_built s1 = handles_built st
    /\ disk s1 = disk st.
Proof.
  intros Hkind.
  assert (Hrest : forall v s1,
    snd (task_executor (lookup_template (templateName msg);; on_template (JObject [("msg", v)])) s1)
    = snd (on_template (JObject [("msg", v)]) (snd (lookup_template (templateName msg) s1)))).
  { intros v s1. unfold task_executor, try_catch. rewrite run_bind.
    destruct (lookup_template_settles (templateName msg) s1) as [E S].
    destruct (lookup_template (templateName msg) s1) as [r s2]. simpl in E, S. subst r.
    cbv beta iota. cbn [snd].
    destruct (on_template_settles (JObject [("msg", v)]) s2 S) as [E1 _].
    destruct (on_template (JObject [("msg", v)]) s2) as [r s3]. simpl in E1. subst r.
    reflexivity. }
  unfold process, handler. rewrite Hkind. unfold convert_named, parse, reject, settle_task.
  destruct (field_truthy (messageContent msg));
    destruct (JSON_parse (ToString (messageContent msg))) as [v|e] eqn:Hparse.
  all: eexists; eexists; eexists; split;
    [ rewrite <- Hrest; unfold task_executor; run; cbn [negb]; run; fields;
      rewrite ?Hparse; reflexivity
    | fields; rewrite <- ?app_assoc; repeat split; reflexivity ].
Qed.

(** What a named conversion does when its message is valid, its template
    is not cached and the path of the file cannot be made. *)
Lemma named_path_error (msg : TaskMessage) (e : JSError) (st : State) :
  task_kind (type msg) = Some NamedConversion ->
  message_rejection msg = None ->
  compileCache st !! ToString (templateName msg) = None ->
  template_path (constants st) (templateName msg) = Throw e ->
  process msg st
  = set_task_promise (Some (Rejected (ReasonThrown e)))
      (record (EvSettle (Rejected (ReasonThrown e)))
         (set_template_promise (Some (Rejected (ReasonThrown e)))
            (set_template_promise None
               (record (EvParse (ToString (messageContent msg)))
                  (set_task_promise None st))))).
Proof.
  intros Hkind Hvalid Hmiss Hpath.
  assert (Hcontent : field_truthy (messageContent msg) = true
                     /\ exists v, JSON_parse (ToString (messageContent msg)) = Ok v).
  { unfold message_rejection in Hvalid.
    destruct (field_truthy (messageContent msg)); [|discriminate]. split; [reflexivity|].
    cbn [negb] in Hvalid.
    destruct (JSON_parse (ToString (messageContent msg))) as [v|e']; [|discriminate].
    exists v. reflexivity. }
  destruct Hcontent as (Htruthy & v & Hparse).
  set (s1 := record (EvParse (ToString (messageContent msg))) (set_task_promise None st)).
  unfold process, handler. rewrite Hkind. unfold convert_named, parse. rewrite Htruthy.
  cbn [negb]. unfold task_executor. run. fields. rewrite Hparse. fold s1.
  rewrite (lookup_template_throws (templateName msg) e s1 Hmiss Hpath).
  unfold on_template, reject, settle_task. run. fields. reflexivity.
Qed.


End Cache.

Module CacheExamples.
Import Reference Scenarios Requests.
#[local] Existing Instance collaborators.



End CacheExamples.

(** ** Invalidation *)

Section Invalidation.
Context `{Collaborators}.

Lemma empty_cache_invalidated (s : State) :
  compileCache s = ∅ -> rebuildCache s = true -> invalidated s.
Proof.
  intros Hcache Hflag. split; [exact Hcache | split; [exact Hflag | split]].
  - intros name dir Hloc.
    assert (Hmiss : compileCache s !! name = None) by (rewrite Hcache; apply lookup_empty).
    unfold lookups. simpl.
    destruct (disk s (path_join dir name)) as [[content|]|e] eqn:Hdisk.
    + destruct (lookup_template_retrieved name dir content s Hmiss Hloc Hdisk)
        as (s1 & new & Hrun & _ & _ & _ & _ & _ & _ & Hev & Hreads & Hcompiles).
      rewrite Hrun. simpl. rewrite Hev, !tally_app, Hreads, Hcompiles. split; [apply Nat.add_1_r|].
      intros content' source Hc Hsrc. injection Hc as <-. rewrite Hsrc. lia.
    + rewrite (lookup_template_missing name dir s Hmiss Hloc Hdisk). simpl.
      rewrite tally_app. split; [apply Nat.add_1_r | discriminate].
    + rewrite (lookup_template_refused name dir e s Hmiss Hloc Hdisk). simpl.
      rewrite tally_app. split; [apply Nat.add_1_r | discriminate].
  - intros M location Hloc. apply GetHandlebarsInstance_builds; [exact Hloc|].
    rewrite Hflag. apply orb_true_r.
Qed.

(** What a templates-updated task does. *)
Lemma process_templatesUpdated (msg : TaskMessage) (st : State) :
  task_kind (type msg) = Some TemplatesUpdated ->
  process msg st
  = set_task_promise (Some (Fulfilled None))
      (record (EvSettle (Fulfilled None))
         (set_compileCache ∅ (set_rebuildCache true (set_task_promise None st)))).
Proof.
  intros Hkind. unfold process, task_executor, handler. rewrite Hkind.
  unfold expireCache, fulfill, settle_task. run. reflexivity.
Qed.

(** What a constants-updated task does when its payload parses. *)
Lemma process_constantsUpdated (msg : TaskMessage) (v : JSValue) (st : State) :
  task_kind (type msg) = Some ConstantsUpdated ->
  JSON_parse (ToString (data msg)) = Ok v ->
  process msg st
  = set_task_promise (Some (Fulfilled None))
      (record (EvSettle (Fulfilled None))
         (set_compileCache ∅
            (set_rebuildCache true
               (set_constants v
                  (record (EvParse (ToString (data msg))) (set_task_promise None st)))))).
Proof.
  intros Hkind Hparse. unfold process, task_executor, handler. rewrite Hkind.
  unfold expireCache, fulfill, settle_task, parse. run. rewrite Hparse. reflexivity.
Qed.

(** What a constants-updated task does when its payload does not parse:
    the statement that throws is the first of the case, and the promise of
    the task is rejected with the error as it was thrown. *)
Lemma process_constantsUpdated_throws (msg : TaskMessage) (e : JSError) (st : State) :
  task_kind (type msg) = Some ConstantsUpdated ->
  JSON_parse (ToString (data msg)) = Throw e ->
  process msg st
  = set_task_promise (Some (Rejected (ReasonThrown e)))
      (record (EvSettle (Rejected (ReasonThrown e)))
         (record (EvParse (ToString (data msg))) (set_task_promise None st))).
Proof.
  intros Hkind Hparse. unfold process, task_executor, handler. rewrite Hkind.
  unfold expireCache, reject, settle_task, parse. run. rewrite Hparse. reflexivity.
Qed.

(** C3 (amended): a templates-updated task, and a constants-updated task
    whose payload parses, empty the compiled-template cache and set the
    contamination flag, so that the next lookup of any name reads and
    compiles again and the next acquisition builds a handle; the task is
    then fulfilled with no payload. *)
Theorem notifications_invalidate (msg : TaskMessage) (st : State) :
  (task_kind (type msg) = Some TemplatesUpdated ->
   invalidated (process msg st)
   /\ constants (process msg st) = constants st
   /\ outcome msg st = Some (Fulfilled None))
  /\ (forall v,
        task_kind (type msg) = Some ConstantsUpdated ->
        JSON_parse (ToString (data msg)) = Ok v ->
        invalidated (process msg st)
        /\ constants (process msg st) = v
        /\ outcome msg st = Some (Fulfilled None)).
Proof.
  split.
  - intros Hkind. unfold outcome. rewrite (process_templatesUpdated msg st Hkind).
    split; [apply empty_cache_invalidated; reflexivity | split; reflexivity].
  - intros v Hkind Hparse. unfold outcome.
    rewrite (process_constantsUpdated msg v st Hkind Hparse).
    split; [apply empty_cache_invalidated; reflexivity | split; reflexivity].
Qed.

(** C9: when the payload of a constants-updated task does not parse, the
    cache, the contamination flag and the configuration are as they were,
    and a template that was cached is still what a lookup of its name
    returns, without reading anything. *)
Theorem unparsable_constants_keep_cache (msg : TaskMessage) (e : JSError) (st : State) :
  task_kind (type msg) = Some ConstantsUpdated ->
  JSON_parse (ToString (data msg)) = Throw e ->
  compileCache (process msg st) = compileCache st
  /\ rebuildCache (process msg st) = rebuildCache st
  /\ constants (process msg st) = constants st
  /\ forall name t,
       compileCache st !! name = Some t ->
       template_promise (lookups 1 name (process msg st)) = Some (Fulfilled t)
       /\ events (lookups 1 name (process msg st)) = events (process msg st).
Proof.
  intros Hkind Hparse. rewrite (process_constantsUpdated_throws msg e st Hkind Hparse).
  split; [reflexivity | split; [reflexivity | split; [reflexivity|]]].
  intros name t Hhit. unfold lookups. simpl.
  rewrite (lookup_template_hit name t) by exact Hhit. split; reflexivity.
Qed.

(** The error of an unparsable payload reaches the caller as it was thrown,
    not as a reply with a status and a descriptor. *)
Lemma unparsable_constants_outcome (msg : TaskMessage) (e : JSError) (st : State) :
  task_kind (type msg) = Some ConstantsUpdated ->
  JSON_parse (ToString (data msg)) = Throw e ->
  outcome msg st = Some (Rejected (ReasonThrown e))
  /\ ~ structured_error (ReasonThrown e).
Proof.
  intros Hkind Hparse. unfold outcome.
  rewrite (process_constantsUpdated_throws msg e st Hkind Hparse).
  split; [reflexivity|]. intros (code & text & Habs). discriminate.
Qed.

End Invalidation.

Module InvalidationExamples.
Import Reference Scenarios.
#[local] Existing Instance collaborators.

Lemma notifications_invalidate_witness :
  (compileCache (process templates_updated served) = ∅
   /\ outcome templates_updated served = Some (Fulfilled None))
  /\ (compileCache (process constants_updated served) = ∅
      /\ constants (process constants_updated served)
         = JObject [("TEMPLATE_FILES_LOCATION", JString "/other")]).
Proof.
  split.
  - destruct (notifications_invalidate templates_updated served) as (Ht & _).
    destruct Ht as ((Hcache & _) & _ & Hout); [reflexivity|]. split; assumption.
  - destruct (notifications_invalidate constants_updated served) as (_ & Hc).
    destruct (Hc (JObject [("TEMPLATE_FILES_LOCATION", JString "/other")]))
      as ((Hcache & _) & Hconst & _); [reflexivity | reflexivity |]. split; assumption.
Defined.

(** C3, as stated, fails: a constants-updated task whose payload does not
    parse leaves the cached template and the flag as they were, and is not
    fulfilled. *)
Lemma garbled_constants_invalidate_nothing :
  compileCache (process constants_garbled served) !! "greeting.hbs" = Some (quote "hello")
  /\ rebuildCache (process constants_garbled served) = false
  /\ outcome constants_garbled served = Some (Rejected (ReasonThrown garbled_error)).
Proof. repeat split; reflexivity. Qed.

Lemma unparsable_constants_keep_cache_witness :
  template_promise (lookups 1 "greeting.hbs" (process constants_garbled served))
  = Some (Fulfilled (quote "hello")).
Proof.
  destruct (unparsable_constants_keep_cache constants_garbled garbled_error served)
    as (_ & _ & _ & Hhit); [reflexivity | reflexivity |].
  destruct (Hhit "greeting.hbs" (quote "hello")) as (Ht & _); [reflexivity | exact Ht].
Defined.

(** C8 fails on the code: the rejection of a constants-updated task with
    an unparsable payload is the [SyntaxError] itself. *)
Lemma garbled_constants_raw_error :
  outcome constants_garbled served = Some (Rejected (ReasonThrown garbled_error))
  /\ ~ structured_error (ReasonThrown garbled_error).
Proof.
  split; [reflexivity|].
  intros (code & text & Habs). destruct code; discriminate Habs.
Qed.

End InvalidationExamples.

(** ** The result assembler *)

Section Assembler.
Context `{Collaborators}.

(** The assembler returns, or throws, what the four steps come to, and
    touches nothing but the list of events. *)
Lemma generateResult_assembled (context replacements : JSValue) (template : Template)
    (st : State) :
  fst (generateResult context template replacements st) = assembled template context replacements
  /\ task_promise (snd (generateResult context template replacements st)) = task_promise st
  /\ exists new,
       events (snd (generateResult context template replacements st)) = events st ++ new
       /\ attempts new = []
       /\ stages new `prefix_of` [Rendering; PostProcessing; Parsing; Merging].
Proof.
  unfold generateResult, assembled. run.
  destruct (Template_apply template context) as [rendered|e]; fields.
  - destruct (jsonProcessor_Process rendered) as [processed|e]; fields.
    + destruct (JSON_parse processed) as [parsed|e]; fields.
      * destruct (resourceMerger_Process parsed replacements) as [message|e]; fields;
          (split; [reflexivity | split; [reflexivity|]]); rewrite <- !app_assoc;
          eexists; (split; [reflexivity | split; [reflexivity|]]); simpl;
          exists []; reflexivity.
      * split; [reflexivity | split; [reflexivity|]]. rewrite <- !app_assoc.
        eexists. split; [reflexivity | split; [reflexivity|]]. simpl.
        exists [Merging]. reflexivity.
    + split; [reflexivity | split; [reflexivity|]]. rewrite <- !app_assoc.
      eexists. split; [reflexivity | split; [reflexivity|]]. simpl.
      exists [Parsing; Merging]. reflexivity.
  - split; [reflexivity | split; [reflexivity|]].
    eexists. split; [reflexivity | split; [reflexivity|]]. simpl.
    exists [PostProcessing; Parsing; Merging]. reflexivity.
Qed.

(** C7 (amended): the assembler renders the template to text, passes the
    text through the post-processor, parses what comes back, passes what
    was parsed through the merger together with the replacements, and wraps
    the outcome as [{fhirResource: merged}]; a step that fails leaves the
    later steps out, and both conversions reject the task, when it is still
    pending, with 400 and BadRequest. *)
Theorem assembler_pipeline (context replacements : JSValue) (template : Template) (st : State) :
  (forall rendered processed parsed message,
      Template_apply template context = Ok rendered ->
      jsonProcessor_Process rendered = Ok processed ->
      JSON_parse processed = Ok parsed ->
      resourceMerger_Process parsed replacements = Ok message ->
      fst (generateResult context template replacements st) = Ok (Envelope message)
      /\ events (snd (generateResult context template replacements st))
         = events st ++ [EvRender template context; EvPostProcess rendered;
                         EvParse processed; EvMerge parsed replacements])
  /\ (exists new,
        events (snd (generateResult context template replacements st)) = events st ++ new
        /\ stages new `prefix_of` [Rendering; PostProcessing; Parsing; Merging])
  /\ (forall e,
        assembled template context replacements = Throw e ->
        fst (generateResult context template replacements st) = Throw e
        /\ (task_promise st = None ->
            task_promise (snd (create_result context template replacements st))
            = Some (Rejected (bad_request ("Unable to create result: " +:+ Error_toString e)))
            /\ (replacements = JNull ->
                task_promise (snd (evaluate_template context template st))
                = Some (Rejected (bad_request ("Error during template evaluation. "
                                               +:+ Error_toString e)))))).
Proof.
  destruct (generateResult_assembled context replacements template st)
    as (Hres & Htask & new & Hev & _ & Hstages).
  split; [|split].
  - intros rendered processed parsed message Hr Hp Hj Hm.
    unfold generateResult. run. rewrite Hr. fields. rewrite Hp. fields. rewrite Hj. fields.
    rewrite Hm. fields. rewrite <- !app_assoc. split; reflexivity.
  - exists new. split; assumption.
  - intros e Ha. rewrite Ha in Hres. split; [exact Hres|]. intros Hpending.
    assert (Hcatch : forall (text : string),
      task_promise
        (snd (try_catch
                (result ← generateResult context template replacements;
                 fulfill (success result))
                (fun err => reject (bad_request (text +:+ Error_toString err))) st))
      = Some (Rejected (bad_request (text +:+ Error_toString e)))).
    { intros text. unfold try_catch. rewrite run_bind.
      destruct (generateResult context template replacements st) as [r s1].
      simpl in Hres, Htask. subst r. unfold reject, settle_task. run. fields.
      rewrite Htask, Hpending. reflexivity. }
    split; [apply Hcatch|]. intros ->. apply Hcatch.
Qed.

End Assembler.

Module AssemblerExamples.
Import Reference Scenarios.
#[local] Existing Instance collaborators.

(** C7, as stated, fails: the rendered text is not parsed as it is
    rendered, but after the post-processor has been through it; here the
    text as rendered does not parse, and the assembler succeeds. *)
Lemma post_processing_precedes_parsing :
  Template_apply dangling context = Ok dangling
  /\ JSON_parse dangling = Throw (SyntaxError "Unexpected token in JSON")
  /\ fst (generateResult context dangling JNull initial)
     = Ok (Envelope (JObject [("a", JNumber 1)]))
  /\ stages (events (snd (generateResult context dangling JNull initial)))
     = [Rendering; PostProcessing; Parsing; Merging]
  /\ stages (events (snd (generateResult context dangling JNull initial)))
     <> [Rendering; Parsing; PostProcessing; Merging].
Proof. repeat split; try reflexivity. discriminate. Qed.

Lemma assembler_pipeline_witness :
  fst (generateResult context dangling JNull initial) = Ok (Envelope (JObject [("a", JNumber 1)]))
  /\ task_promise (snd (create_result context "hello" JNull initial))
     = Some (Rejected (bad_request
                         "Unable to create result: SyntaxError: Unexpected token in JSON")).
Proof.
  split.
  - destruct (assembler_pipeline (H := collaborators) context JNull dangling initial) as (Hok & _).
    destruct (Hok dangling ("{" +:+ quoted "a" +:+ ":1}") (JObject [("a", JNumber 1)])
                  (JObject [("a", JNumber 1)])) as (Hr & _);
      [reflexivity | reflexivity | reflexivity | reflexivity | exact Hr].
  - destruct (assembler_pipeline (H := collaborators) context JNull "hello" initial) as (_ & _ & Hfail).
    destruct (Hfail (SyntaxError "Unexpected token in JSON")) as (_ & Hrej); [reflexivity|].
    destruct Hrej as (Hc & _); [reflexivity | exact Hc].
Defined.

End AssemblerExamples.

(** ** The inline conversion *)

Section Inline.
Context `{Collaborators}.

Lemma events_add_events (new : list Event) (s : State) :
  events (add_events new s) = events s ++ new.
Proof.
  revert s. induction new as [|e new IH]; intros s; simpl.
  - symmetry. apply app_nil_r.
  - unfold add_events in *. simpl. rewrite IH. simpl. rewrite <- app_assoc. reflexivity.
Qed.

(** Adding events changes no other field. *)
Lemma add_events_fields (new : list Event) (s : State) :
  rebuildCache (add_events new s) = rebuildCache s
  /\ constants (add_events new s) = constants s
  /\ compileCache (add_events new s) = compileCache s
  /\ handlebarsInstance (add_events new s) = handlebarsInstance s
  /\ handles_built (add_events new s) = handles_built s
  /\ task_promise (add_events new s) = task_promise s.
Proof.
  revert s. induction new as [|e new IH]; intros s; [repeat split|].
  unfold add_events in *. simpl. destruct (IH (record e s)) as (? & ? & ? & ? & ? & ?).
  repeat split; assumption.
Qed.

Lemma add_events_app (l1 l2 : list Event) (s : State) :
  add_events (l1 ++ l2) s = add_events l2 (add_events l1 s).
Proof. unfold add_events. apply foldl_app. Qed.

(** Running the executor of the task up to the end of a first statement. *)
Lemma executor_bind {A : Type} (m : M A) (k : A -> M unit) (h : JSError -> M unit) (s : State) :
  task_executor (try_catch (m ≫= k) h) s
  = match m s with
    | (Ok a, s') => task_executor (try_catch (k a) h) s'
    | (Throw e, s') => task_executor (h e) s'
    end.
Proof.
  unfold task_executor, try_catch. rewrite run_bind.
  destruct (m s) as [[a|e] s']; reflexivity.
Qed.

Lemma bind_assoc {A B C : Type} (m : M A) (k1 : A -> M B) (k2 : B -> M C) (s : State) :
  ((m ≫= k1) ≫= k2) s = (m ≫= (fun a => k1 a ≫= k2)) s.
Proof.
  rewrite !run_bind. destruct (m s) as [[a|e] s']; [rewrite run_bind|]; reflexivity.
Qed.

Lemma check_field_passes (msg : TaskMessage) (f : FieldName) (text : string) (s : State) :
  passes msg f -> check_field msg f text s = (Ok tt, s).
Proof. intros Hp. unfold check_field. rewrite Hp. reflexivity. Qed.

Lemma check_field_fails (msg : TaskMessage) (f : FieldName) (text : string) (s : State) :
  fails msg f ->
  check_field msg f text s
  = (Ok tt, set_task_promise (settle (Rejected (bad_request text)) (task_promise s))
              (record (EvSettle (Rejected (bad_request text))) s)).
Proof. intros Hf. unfold check_field. rewrite Hf. reflexivity. Qed.

(** A field that fails the check is there, and is not empty. *)
Lemma fails_truthy (msg : TaskMessage) (f : FieldName) :
  fails msg f -> field_truthy (encoded msg f) = true.
Proof.
  unfold fails. destruct (encoded msg f) as [x|]; [|discriminate].
  destruct x; [discriminate | reflexivity].
Qed.

(** Reading an optional field that passes the check. *)
Lemma optional_field_passes (msg : TaskMessage) (f : FieldName) (text : string)
    (initial : JSValue) (s : State) :
  passes msg f ->
  optional_field msg f text initial s
  = (if field_truthy (encoded msg f) then JSON_parse (decoded msg f) else Ok initial,
     add_events (optional_events msg f) s).
Proof.
  intros Hp. unfold optional_field, optional_events, decoded.
  destruct (field_truthy (encoded msg f)) eqn:Ht; [|reflexivity].
  rewrite run_bind, (check_field_passes msg f text s Hp).
  unfold decode_field, parse. destruct (encoded msg f) as [x|]; [|discriminate].
  run. cbn [ToString]. destruct (JSON_parse (base64_decode x)); reflexivity.
Qed.

(** Once the task is settled, whatever runs next leaves it as it is. *)
Lemma settled_prefix {A : Type} (m : M A) (o : Outcome) (s : State) :
  extending m ->
  task_promise s = Some o ->
  task_promise (snd (m s)) = Some o /\ exists post, events (snd (m s)) = events s ++ post.
Proof.
  intros Hm Hs. destruct (Hm s) as (post & Hev & Hp).
  split; [|exists post; exact Hev]. rewrite Hp, Hs. apply settle_all_settled.
Qed.

End Inline.

Section Validation.
Context `{Collaborators}.

Lemma executor_bind_assoc {A B : Type} (m : M A) (k1 : A -> M B) (k2 : B -> M unit)
    (h : JSError -> M unit) (s : State) :
  task_executor (try_catch ((m ≫= k1) ≫= k2) h) s
  = task_executor (try_catch (m ≫= (fun a => k1 a ≫= k2)) h) s.
Proof. unfold task_executor, try_catch. rewrite bind_assoc. reflexivity. Qed.

(** What remains to be run when the task has just been rejected with [o],
    after the events [pre], cannot change that. *)
Lemma rejected_at (msg : TaskMessage) (st s1 : State) (m : M unit) (pre : list Event)
    (o : Outcome) :
  process msg st = snd (m s1) ->
  extending m ->
  task_promise s1 = Some o ->
  events s1 = events st ++ pre ++ [EvSettle o] ->
  outcome msg st = Some o
  /\ exists post, new_events msg st = pre ++ EvSettle o :: post.
Proof.
  intros Hrun Hm Hs Hev. destruct (settled_prefix m o s1 Hm Hs) as (Ho & post & Hpost).
  unfold outcome, new_events. rewrite Hrun. split; [exact Ho|]. exists post.
  rewrite Hpost, Hev, <- !app_assoc, drop_app_length. reflexivity.
Qed.

(** What is left of the inline conversion after one of its checks only
    moves the state forward. *)
Ltac inline_rest :=
  match goal with
  | |- snd (?m ?s) = snd (?em ?es) => unify em m; unify es s; reflexivity
  | |- extending _ =>
      pose proof extending_check_field; pose proof extending_optional_field;
      pose proof extending_decode_field; pose proof extending_parse;
      pose proof extending_compile_source; pose proof extending_create_result;
      apply extending_task_executor; extending_auto; auto
  end.

(** An optional field that passes the check and parses, or is left out,
    is read without a word. *)
Lemma optional_field_parses (msg : TaskMessage) (f : FieldName) (text : string)
    (initial : JSValue) (s : State) :
  passes msg f ->
  parses_if_given msg f ->
  exists w, optional_field msg f text initial s = (Ok w, add_events (optional_events msg f) s).
Proof.
  intros Hp Hg. rewrite (optional_field_passes msg f text initial s Hp).
  unfold parses_if_given in Hg. destruct (field_truthy (encoded msg f)).
  - destruct (Hg eq_refl) as [w Hw]. exists w. rewrite Hw. reflexivity.
  - exists initial. reflexivity.
Qed.

Lemma optional_field_given (msg : TaskMessage) (f : FieldName) (text : string)
    (initial : JSValue) :
  field_truthy (encoded msg f) = true ->
  optional_field msg f text initial
  = (check_field msg f text;; decoded ← decode_field msg f; parse decoded).
Proof. intros Ht. unfold optional_field. rewrite Ht. reflexivity. Qed.

Lemma attempts_optional_events (msg : TaskMessage) (f : FieldName) :
  attempts (optional_events msg f) = [].
Proof. unfold optional_events. destruct (field_truthy (encoded msg f)); reflexivity. Qed.

Lemma decode_in_optional_events (msg : TaskMessage) (f g : FieldName) :
  EvDecode g ∈ optional_events msg f -> g = f.
Proof.
  unfold optional_events. destruct (field_truthy (encoded msg f)); intros Hin.
  - apply elem_of_cons in Hin as [Heq|Hin]; [congruence|].
    apply elem_of_cons in Hin as [Heq|Hin]; [discriminate|].
    apply elem_of_nil in Hin. contradiction.
  - apply elem_of_nil in Hin. contradiction.
Qed.

(** C6 (amended): in an inline conversion, the first field, in the order
    message, template, replacementDictionary, templatesMap, that fails the
    alphabet check has the task rejected with 400 and BadRequest; the
    rejection names that field, and comes before the field is decoded,
    unless the field is templatesMap and a replacementDictionary that was
    given does not parse. *)
Theorem first_failing_field_rejects (msg : TaskMessage) (f : FieldName) (st : State) :
  task_kind (type msg) = Some InlineConversion ->
  fails msg f ->
  (forall g, (field_index g < field_index f)%nat -> passes msg g) ->
  (exists text, outcome msg st = Some (Rejected (bad_request text)))
  /\ ((f = FTemplatesMap -> parses_if_given msg FReplacementDictionary) ->
      outcome msg st = Some (Rejected (bad_request (not_base64 f)))
      /\ exists pre post,
           new_events msg st = pre ++ EvSettle (Rejected (bad_request (not_base64 f))) :: post
           /\ attempts pre = []
           /\ EvDecode f ∉ pre).
Proof.
  intros Hkind Hf Hbefore.
  assert (Hnamed : (f = FTemplatesMap -> parses_if_given msg FReplacementDictionary) ->
    outcome msg st = Some (Rejected (bad_request (not_base64 f)))
    /\ exists pre post,
         new_events msg st = pre ++ EvSettle (Rejected (bad_request (not_base64 f))) :: post
         /\ attempts pre = []
         /\ EvDecode f ∉ pre).
  { intros Hgiven.
    assert (Hstart : process msg st
                     = snd (task_executor (convert_inline msg) (set_task_promise None st))).
    { unfold process, handler. rewrite Hkind. reflexivity. }
    unfold convert_inline, convert_inline_body in Hstart.
    pose proof (fails_truthy msg f Hf) as Htruthy.
    assert (Hpending : task_promise (set_task_promise None st) = None) by reflexivity.
    destruct f.
    - (* the message *)
      rewrite executor_bind, (check_field_fails msg FMessage _ _ Hf) in Hstart.
      rewrite Hpending in Hstart.
      assert (Hr : outcome msg st = Some (Rejected (bad_request (not_base64 FMessage)))
                   /\ exists post,
                        new_events msg st
                        = [] ++ EvSettle (Rejected (bad_request (not_base64 FMessage))) :: post).
      { eapply rejected_at; [rewrite Hstart; inline_rest | inline_rest | reflexivity
                            | reflexivity]. }
      destruct Hr as (Ho & post & Hev). split; [exact Ho|]. exists [], post.
      split; [exact Hev | split; [reflexivity | apply not_elem_of_nil]].
    - (* the template *)
      rewrite executor_bind, (check_field_passes msg FMessage) in Hstart
        by (apply Hbefore; simpl; lia).
      rewrite executor_bind, (check_field_fails msg FTemplate _ _ Hf) in Hstart.
      rewrite Hpending in Hstart.
      assert (Hr : outcome msg st = Some (Rejected (bad_request (not_base64 FTemplate)))
                   /\ exists post,
                        new_events msg st
                        = [] ++ EvSettle (Rejected (bad_request (not_base64 FTemplate))) :: post).
      { eapply rejected_at; [rewrite Hstart; inline_rest | inline_rest | reflexivity
                            | reflexivity]. }
      destruct Hr as (Ho & post & Hev). split; [exact Ho|]. exists [], post.
      split; [exact Hev | split; [reflexivity | apply not_elem_of_nil]].
    - (* the replacement dictionary *)
      rewrite executor_bind, (check_field_passes msg FMessage) in Hstart
        by (apply Hbefore; simpl; lia).
      rewrite executor_bind, (check_field_passes msg FTemplate) in Hstart
        by (apply Hbefore; simpl; lia).
      rewrite (optional_field_given msg FReplacementDictionary _ _ Htruthy) in Hstart.
      rewrite executor_bind_assoc, executor_bind,
        (check_field_fails msg FReplacementDictionary _ _ Hf) in Hstart.
      rewrite Hpending in Hstart.
      assert (Hr : outcome msg st = Some (Rejected (bad_request (not_base64 FReplacementDictionary)))
                   /\ exists post,
                        new_events msg st
                        = [] ++ EvSettle (Rejected (bad_request (not_base64 FReplacementDictionary))) :: post).
      { eapply rejected_at; [rewrite Hstart; inline_rest | inline_rest | reflexivity
                            | reflexivity]. }
      destruct Hr as (Ho & post & Hev). split; [exact Ho|]. exists [], post.
      split; [exact Hev | split; [reflexivity | apply not_elem_of_nil]].
    - (* the templates map *)
      rewrite executor_bind, (check_field_passes msg FMessage) in Hstart
        by (apply Hbefore; simpl; lia).
      rewrite executor_bind, (check_field_passes msg FTemplate) in Hstart
        by (apply Hbefore; simpl; lia).
      destruct (optional_field_parses msg FReplacementDictionary
                  "replacementDictionary is not a base 64 encoded string." (JObject [])
                  (set_task_promise None st)) as [w Hw];
        [apply Hbefore; simpl; lia | apply Hgiven; reflexivity |].
      rewrite executor_bind, Hw in Hstart.
      rewrite (optional_field_given msg FTemplatesMap _ _ Htruthy) in Hstart.
      rewrite executor_bind_assoc, executor_bind,
        (check_field_fails msg FTemplatesMap _ _ Hf) in Hstart.
      destruct (add_events_fields (optional_events msg FReplacementDictionary)
                  (set_task_promise None st)) as (_ & _ & _ & _ & _ & Hquiet).
      assert (Hr : outcome msg st = Some (Rejected (bad_request (not_base64 FTemplatesMap)))
                   /\ exists post,
                        new_events msg st
                        = optional_events msg FReplacementDictionary
                          ++ EvSettle (Rejected (bad_request (not_base64 FTemplatesMap)))
                          :: post).
      { eapply rejected_at; [rewrite Hstart; inline_rest | inline_rest | |].
        - fields. rewrite Hquiet. reflexivity.
        - fields. rewrite events_add_events, <- app_assoc. reflexivity. }
      destruct Hr as (Ho & post & Hev). split; [exact Ho|].
      exists (optional_events msg FReplacementDictionary), post.
      split; [exact Hev | split; [apply attempts_optional_events|]].
      intros Hin. apply decode_in_optional_events in Hin. discriminate. }
  split; [|exact Hnamed].
  destruct f; try (destruct Hnamed as (Ho & _); [discriminate | eexists; exact Ho]).
  (* the templates map, after a replacement dictionary that does not parse *)
  pose proof (Hbefore FReplacementDictionary ltac:(simpl; lia)) as Hp.
  destruct (field_truthy (encoded msg FReplacementDictionary)) eqn:Ht;
    [destruct (JSON_parse (decoded msg FReplacementDictionary)) as [w|e] eqn:Hparse|].
  - destruct Hnamed as (Ho & _); [|eexists; exact Ho].
    intros _ _. exists w. exact Hparse.
  - exists (Error_toString e). unfold outcome, process, handler. rewrite Hkind.
    unfold convert_inline, convert_inline_body.
    rewrite executor_bind, (check_field_passes msg FMessage) by (apply Hbefore; simpl; lia).
    rewrite executor_bind, (check_field_passes msg FTemplate) by (apply Hbefore; simpl; lia).
    rewrite executor_bind, (optional_field_passes msg FReplacementDictionary _ _ _ Hp).
    rewrite Ht, Hparse.
    destruct (add_events_fields (optional_events msg FReplacementDictionary)
                (set_task_promise None st)) as (_ & _ & _ & _ & _ & Hpending).
    unfold task_executor, reject, settle_task. run. fields. rewrite Hpending. reflexivity.
  - destruct Hnamed as (Ho & _); [|eexists; exact Ho].
    intros _ Habs. rewrite Ht in Habs. discriminate.
Qed.

(** Decoding and parsing a message that is well formed. *)
Lemma message_parsed (msg : TaskMessage) (m : string) (v : JSValue)
    (handler : JSError -> M JSValue) (s : State) :
  messageBase64 msg = Some m ->
  JSON_parse (base64_decode m) = Ok v ->
  try_catch (b ← decode_field msg FMessage; parse b) handler s
  = (Ok v, add_events [EvDecode FMessage; EvParse (base64_decode m)] s).
Proof.
  intros Hm Hv. unfold decode_field, parse, encoded. rewrite Hm. run. rewrite Hv. reflexivity.
Qed.

(** Decoding the template of an inline conversion. *)
Lemma template_decoded (msg : TaskMessage) (s : State) :
  (if field_truthy (templateBase64 msg) then decode_field msg FTemplate else mret "") s
  = (Ok (template_text msg),
     add_events (if field_truthy (templateBase64 msg) then [EvDecode FTemplate] else []) s).
Proof.
  unfold template_text, decoded, decode_field, encoded.
  destruct (templateBase64 msg) as [x|]; [|reflexivity].
  destruct (field_truthy (Some x)); reflexivity.
Qed.

(** C5 (amended): an inline conversion in which every field that is given
    passes the alphabet check, the replacementDictionary and the
    templatesMap, if given, parse, the message decodes and parses, and the
    template text is empty or left out, is settled by the copy of the
    parsed message through its JSON text: it is fulfilled with status 200
    and, as [fhirResource], what [JSON.parse] makes of [JSON.stringify] of
    the message, which is the message itself wherever that round trip gives
    its argument back, and rejected with 400 and BadRequest should the copy
    throw; no engine is acquired. *)
Theorem empty_template_passthrough (msg : TaskMessage) (m : string) (v : JSValue) (st : State) :
  task_kind (type msg) = Some InlineConversion ->
  (forall f, passes msg f) ->
  parses_if_given msg FReplacementDictionary ->
  parses_if_given msg FTemplatesMap ->
  messageBase64 msg = Some m ->
  JSON_parse (base64_decode m) = Ok v ->
  template_text msg = "" ->
  outcome msg st
  = Some match JSON_parse (JSON_stringify v) with
         | Ok copy => Fulfilled (Some (mkReply 200 (Envelope copy)))
         | Throw e => Rejected (bad_request (Error_toString e))
         end
  /\ (JSON_parse (JSON_stringify v) = Ok v ->
      outcome msg st = Some (Fulfilled (Some (mkReply 200 (Envelope v)))))
  /\ rebuildCache (process msg st) = rebuildCache st
  /\ handlebarsInstance (process msg st) = handlebarsInstance st
  /\ compileCache (process msg st) = compileCache st.
Proof.
  intros Hkind Hpass Hrd Htm Hm Hv Hempty.
  set (s0 := set_task_promise None st).
  destruct (optional_field_parses msg FReplacementDictionary
              "replacementDictionary is not a base 64 encoded string." (JObject []) s0)
    as [rd Hrd']; [apply Hpass | exact Hrd |].
  set (s1 := add_events (optional_events msg FReplacementDictionary) s0) in *.
  destruct (optional_field_parses msg FTemplatesMap
              "templatesMap is not a base 64 encoded string." JUndefined s1)
    as [tm Htm']; [apply Hpass | exact Htm |].
  set (s2 := add_events (optional_events msg FTemplatesMap) s1) in *.
  set (s3 := add_events [EvDecode FMessage; EvParse (base64_decode m)] s2).
  set (s4 := add_events (if field_truthy (templateBase64 msg) then [EvDecode FTemplate] else [])
                        s3).
  set (reply := match JSON_parse (JSON_stringify v) with
                | Ok copy => Fulfilled (Some (mkReply 200 (Envelope copy)))
                | Throw e => Rejected (bad_request (Error_toString e))
                end).
  assert (Hrun : process msg st
                 = set_task_promise (settle reply (task_promise s4))
                     (record (EvSettle reply) (record (EvParse (JSON_stringify v)) s4))).
  { unfold process, handler. rewrite Hkind. fold s0.
    unfold convert_inline, convert_inline_body.
    rewrite executor_bind, (check_field_passes msg FMessage) by apply Hpass.
    rewrite executor_bind, (check_field_passes msg FTemplate) by apply Hpass.
    rewrite executor_bind, Hrd'. rewrite executor_bind, Htm'.
    rewrite executor_bind, (message_parsed msg m v _ s2 Hm Hv). fold s3.
    rewrite executor_bind, template_decoded. fold s4. rewrite Hempty.
    cbn [String.length Nat.eqb].
    unfold task_executor, parse, fulfill, reject, settle_task, reply. run.
    destruct (JSON_parse (JSON_stringify v)); reflexivity. }
  assert (Hquiet : rebuildCache s4 = rebuildCache st
                   /\ compileCache s4 = compileCache st
                   /\ handlebarsInstance s4 = handlebarsInstance st
                   /\ task_promise s4 = None).
  { unfold s4, s3, s2, s1. rewrite <- !add_events_app.
    match goal with
    | |- rebuildCache (add_events ?l s0) = _ /\ _ =>
        destruct (add_events_fields l s0) as (Hflag & _ & Hcache & Hshared & _ & Hpending)
    end.
    repeat split; assumption. }
  destruct Hquiet as (Hflag & Hcache & Hshared & Hpending).
  unfold outcome. rewrite Hrun. fields. rewrite Hpending.
  split; [reflexivity | split; [|repeat split; assumption]].
  intros Hcopy. unfold reply. rewrite Hcopy. reflexivity.
Qed.

End Validation.

(** ** The inline conversion always answers with a reply *)

Section Replies.
Context `{Collaborators}.

Lemma replies_since_record (base : list Event) (e : Event) (st : State) :
  attempt e = None -> replies_since base st -> replies_since base (record e st).
Proof.
  intros He (new & Hev & Hall). exists (new ++ [e]). simpl. rewrite Hev, <- app_assoc.
  split; [reflexivity|]. rewrite attempts_app. unfold attempts at 2. simpl. rewrite He.
  rewrite app_nil_r. exact Hall.
Qed.

Lemma replies_since_settle (base : list Event) (o : Outcome) :
  is_reply o -> stable (replies_since base) (settle_task o).
Proof.
  intros Ho st (new & Hev & Hall). exists (new ++ [EvSettle o]). simpl.
  rewrite Hev, <- app_assoc. split; [reflexivity|]. rewrite attempts_app.
  apply Forall_app. split; [exact Hall|]. apply Forall_cons. split; [exact Ho|].
  apply Forall_nil. exact I.
Qed.

Lemma bad_request_is_reply (text : string) : is_reply (Rejected (bad_request text)).
Proof. exists BadRequest, text. reflexivity. Qed.

End Replies.

Ltac reply_step :=
  match goal with
  | |- stable _ (mret _) => apply stable_ret
  | |- stable _ (_ ≫= _) => apply stable_bind; [|intros]
  | |- stable _ (try_catch _ _) => apply stable_try_catch; [|intros]
  | |- stable _ (when _ _) => apply stable_when
  | |- stable _ (gets _) => apply stable_gets
  | |- stable _ (eval _) => apply stable_eval
  | |- stable _ (call _ _) =>
      apply stable_call; intros ? ?; apply replies_since_record; [reflexivity | assumption]
  | |- stable _ (fulfill _) => apply replies_since_settle; exact I
  | |- stable _ (reject (bad_request _)) => apply replies_since_settle, bad_request_is_reply
  | |- stable _ (modify (record _)) =>
      apply stable_modify; intros ? ?; apply replies_since_record; [reflexivity | assumption]
  | |- stable _ (modify _) => apply stable_modify; intros ? ?; assumption
  | |- stable _ (if ?c then _ else _) => destruct c
  | |- stable _ (match ?x with _ => _ end) => destruct x
  end.

Section InlineReplies.
Context `{Collaborators}.

(** Whatever the fields of an inline conversion are, and whatever the
    collaborators throw, the task is settled with a success or with a
    structured error: every statement that can throw is inside a [try]. *)
Lemma inline_outcome_is_reply (msg : TaskMessage) (st : State) :
  task_kind (type msg) = Some InlineConversion ->
  exists o, outcome msg st = Some o /\ is_reply o.
Proof.
  intros Hkind.
  assert (Hstable : stable (replies_since (events st)) (convert_inline msg)).
  { unfold convert_inline, convert_inline_body, create_result, compile_source,
      GetHandlebarsInstance, HandlebarsConverter_instance, generateResult, optional_field,
      check_field, decode_field, parse.
    repeat reply_step. }
  assert (Htotal : total (convert_inline msg)).
  { unfold convert_inline. apply total_try_catch. intros e. apply total_settle_task. }
  assert (Hrun : process msg st = snd (convert_inline msg (set_task_promise None st))).
  { unfold process, handler. rewrite Hkind. unfold task_executor, try_catch.
    destruct (Htotal (set_task_promise None st)) as [[] Hok].
    destruct (convert_inline msg (set_task_promise None st)) as [r s1].
    simpl in Hok. subst r. reflexivity. }
  destruct (Hstable (set_task_promise None st)) as (new & Hev & Hall).
  { exists []. split; [symmetry; apply app_nil_r | apply Forall_nil; exact I]. }
  destruct (recognised_task_settles msg st InlineConversion Hkind) as (o & later & Hatt & Ho).
  exists o. split; [exact Ho|].
  assert (Hnew : new_events msg st = new).
  { unfold new_events. rewrite Hrun, Hev. apply drop_app_length. }
  rewrite Hnew in Hatt. rewrite Hatt in Hall. apply Forall_cons in Hall as [Hreply _].
  exact Hreply.
Qed.

End InlineReplies.

Module InlineExamples.
Import Reference Scenarios.
#[local] Existing Instance collaborators.

Example scenario_message : decode_base64 message = "{" +:+ quoted "a" +:+ ":1}".
Proof. reflexivity. Qed.

Lemma empty_template_passthrough_witness :
  outcome scenario initial = Some (Fulfilled (Some (mkReply 200 (Envelope parsed)))).
Proof.
  destruct (empty_template_passthrough scenario message parsed initial) as (Ho & _);
    [reflexivity | intros []; reflexivity | discriminate | discriminate
    | reflexivity | reflexivity | reflexivity | exact Ho].
Defined.

(** C5, as stated, fails: the message decodes and parses and the template
    text is empty, and the task is rejected. *)
Lemma bad_dictionary_rejects_passthrough :
  JSON_parse (decoded with_bad_dictionary FMessage) = Ok parsed
  /\ template_text with_bad_dictionary = ""
  /\ outcome with_bad_dictionary initial
     = Some (Rejected (bad_request "replacementDictionary is not a base 64 encoded string.")).
Proof. repeat split; reflexivity. Qed.

Lemma first_failing_field_rejects_witness :
  outcome bad_message initial
  = Some (Rejected (ReasonReply (mkReply 400 (Failure (errorMessage BadRequest
                                  "Message is not a base 64 encoded string."))))).
Proof.
  destruct (first_failing_field_rejects bad_message FMessage initial) as (_ & Hnamed);
    [reflexivity | reflexivity | intros g Hg; inversion Hg |].
  destruct Hnamed as (Ho & _); [discriminate | exact Ho].
Defined.

(** C6, as stated, fails: the templatesMap fails the check and no field
    before it does, and the rejection does not name it. *)
Lemma rejection_names_no_field :
  fails masked FTemplatesMap
  /\ (forall g, (field_index g < field_index FTemplatesMap)%nat -> passes masked g)
  /\ outcome masked initial
     = Some (Rejected (bad_request "SyntaxError: Unexpected token in JSON"))
  /\ "SyntaxError: Unexpected token in JSON" <> not_base64 FTemplatesMap.
Proof.
  split; [reflexivity | split; [|split; [reflexivity | discriminate]]].
  intros [] Hg; try reflexivity. simpl in Hg. lia.
Qed.

(** A message and a template that are not base64: the task's [reject] is
    called three times and its [fulfill] once, and the first call stands. *)
Example later_attempts_are_ignored :
  attempts (new_events twice_bad initial)
  = [Rejected (bad_request "Message is not a base 64 encoded string.");
     Rejected (bad_request "Template is not a base 64 encoded string.");
     Rejected (bad_request
                 "Unable to decode and parse HL7 v2 message. Unexpected token in JSON");
     Fulfilled (Some (mkReply 200 (Envelope (JObject []))))]
  /\ outcome twice_bad initial
     = Some (Rejected (bad_request "Message is not a base 64 encoded string.")).
Proof. split; reflexivity. Qed.

End InlineExamples.

(** * Further properties of the worker *)

(** ** Which values are used as an override map *)

(** X1: the override map is used exactly when it is an object with at
    least one property and no property of its own called [constructor];
    every other value, an array, a string, a number or the empty object
    among them, is passed on to the engine but does not ask for a new
    instance. *)
Theorem needToUseMap_iff (M : JSValue) : needToUseMap M = true <-> plain_map M.
Proof.
  split; [|apply needToUseMap_plain_map].
  unfold needToUseMap, plain_map.
  destruct M as [| |b|n|s|items|props]; simpl;
    try discriminate; try (rewrite andb_false_r; discriminate).
  destruct props as [|p props]; [discriminate|].
  destruct (own_property "constructor" (p :: props)) eqn:Hown; [discriminate|].
  intros _. exists (p :: props). split; [reflexivity | split; [discriminate | exact Hown]].
Qed.

(** ** What a conversion leaves alone *)

(** A statement of the worker that keeps a property of the fields that it
    never assigns. *)
Ltac frame_step :=
  match goal with
  | |- stable _ (mret _) => apply stable_ret
  | |- stable _ (_ ≫= _) => apply stable_bind; [|intros]
  | |- stable _ (try_catch _ _) => apply stable_try_catch; [|intros]
  | |- stable _ (when _ _) => apply stable_when
  | |- stable _ (gets _) => apply stable_gets
  | |- stable _ (eval _) => apply stable_eval
  | |- stable _ (call _ _) => apply stable_call; intros ? ?; assumption
  | |- stable _ (settle_task _) => apply stable_modify; intros ? ?; assumption
  | |- stable _ (fulfill _) => apply stable_modify; intros ? ?; assumption
  | |- stable _ (reject _) => apply stable_modify; intros ? ?; assumption
  | |- stable _ (settle_template _) => apply stable_modify; intros ? ?; assumption
  | |- stable _ (modify _) => apply stable_modify; intros ? ?; assumption
  | |- stable _ (if ?c then _ else _) => destruct c
  | |- stable _ (match ?x with _ => _ end) => destruct x
  end.

Section Frames.
Context `{Collaborators}.

(** Compiling a template assigns neither the cache nor the configuration. *)
Lemma compile_source_frame (c : gmap string Template) (k : JSValue) (M : JSValue)
    (text : string) :
  stable (fun s => compileCache s = c /\ constants s = k) (compile_source M text).
Proof.
  unfold compile_source, GetHandlebarsInstance, HandlebarsConverter_instance.
  repeat frame_step.
Qed.

(** X2: an inline conversion, whatever its fields and whatever becomes of
    it, leaves the compiled-template cache and the configuration as they
    were: a template that is sent with the task is never stored. *)
Theorem inline_leaves_cache_and_configuration (msg : TaskMessage) (st : State) :
  task_kind (type msg) = Some InlineConversion ->
  compileCache (process msg st) = compileCache st
  /\ constants (process msg st) = constants st.
Proof.
  intros Hkind.
  assert (Hstable : stable (fun s => compileCache s = compileCache st
                                     /\ constants s = constants st)
                           (task_executor (convert_inline msg))).
  { unfold task_executor, convert_inline, convert_inline_body, create_result, compile_source,
      GetHandlebarsInstance, HandlebarsConverter_instance, generateResult, optional_field,
      check_field, decode_field, parse.
    repeat frame_step. }
  unfold process, handler. rewrite Hkind. apply Hstable. split; reflexivity.
Qed.

(** The call of [getTemplate] assigns neither the cache nor the
    configuration. *)
Lemma getTemplate_frame (templateName : field) (s : State) :
  compileCache (snd (getTemplate templateName s)) = compileCache s
  /\ constants (snd (getTemplate templateName s)) = constants s.
Proof.
  rewrite getTemplate_run.
  destruct (compileCache s !! ToString templateName); [split; reflexivity|].
  destruct (template_path (constants s) templateName) as [file|e]; [|split; reflexivity].
  destruct (disk s file); split; reflexivity.
Qed.

(** The callback of [fs.readFile] puts the template under the name when
    the text compiles, whatever the cache holds by then, and changes
    nothing otherwise. *)
Lemma readFile_callback_cache (templateName : field) (content : option string) (s : State) :
  constants (snd (readFile_callback templateName content s)) = constants s
  /\ compileCache (snd (readFile_callback templateName content s))
     = match content with
       | Some text =>
           match fst (compile_source JUndefined text s) with
           | Ok t => <[ToString templateName := t]> (compileCache s)
           | Throw _ => compileCache s
           end
       | None => compileCache s
       end.
Proof.
  unfold readFile_callback, settle_template. destruct content as [text|];
    [|split; reflexivity].
  pose proof (compile_source_frame (compileCache s) (constants s) JUndefined text s
                (conj eq_refl eq_refl)) as [Hcache Hconst].
  run. destruct (compile_source JUndefined text s) as [[t|e] s1];
    cbn [fst snd] in *; fields; rewrite ?Hcache; split; assumption || reflexivity.
Qed.

(** A lookup that nothing interrupts changes the cache in one way only:
    it stores a template under a key that had none. *)
Lemma lookup_template_cache (templateName : field) (s : State) :
  constants (snd (lookup_template templateName s)) = constants s
  /\ (compileCache (snd (lookup_template templateName s)) = compileCache s
      \/ (compileCache s !! ToString templateName = None
          /\ exists t, compileCache (snd (lookup_template templateName s))
                       = <[ToString templateName := t]> (compileCache s))).
Proof.
  unfold lookup_template. rewrite run_bind, getTemplate_run.
  destruct (compileCache s !! ToString templateName) as [t|] eqn:Hmiss;
    [split; [reflexivity | left; reflexivity]|].
  destruct (template_path (constants s) templateName) as [file|e];
    [|split; [reflexivity | left; reflexivity]].
  destruct (disk s file) as [content|e]; [|split; [reflexivity | left; reflexivity]].
  destruct (readFile_callback_cache templateName content
              (record (EvReadFile file) (set_template_promise None s))) as [Hconst Hcache].
  cbn [fst snd]. rewrite Hconst, Hcache. split; [reflexivity|].
  destruct content as [text|]; [|left; reflexivity].
  destruct (fst (compile_source JUndefined text _)) as [t|e];
    [right; split; [reflexivity | exists t; reflexivity] | left; reflexivity].
Qed.

(** Rendering and settling assign neither the cache nor the configuration. *)
Lemma on_template_frame (c : gmap string Template) (k : JSValue) (context : JSValue) :
  stable (fun s => compileCache s = c /\ constants s = k) (on_template context).
Proof.
  unfold on_template, evaluate_template, generateResult. repeat frame_step.
Qed.

(** X3: a named conversion leaves the configuration as it was and changes
    the compiled-template cache under its own template name only.  The call
    of [getTemplate] stores nothing.  The callback of [fs.readFile], in
    whatever state the tasks handled since the call have left, puts the
    template under the name when the text compiles, replacing an entry that
    was stored there in the meantime, and changes nothing otherwise; the
    callbacks of [then] store nothing.  When nothing is handled between the
    call and the callback, the name had no entry at the call, so that no
    entry is dropped or replaced. *)
Theorem named_keeps_cache_entries (msg : TaskMessage) (st : State) :
  task_kind (type msg) = Some NamedConversion ->
  (constants (process msg st) = constants st
   /\ (forall name t,
         compileCache st !! name = Some t -> compileCache (process msg st) !! name = Some t)
   /\ (forall name,
         name <> ToString (templateName msg) ->
         compileCache (process msg st) !! name = compileCache st !! name))
  /\ (forall s,
        compileCache (snd (getTemplate (templateName msg) s)) = compileCache s
        /\ constants (snd (getTemplate (templateName msg) s)) = constants s)
  /\ (forall content context s,
        let s' := snd (on_template context
                         (snd (readFile_callback (templateName msg) content s))) in
        constants s' = constants s
        /\ compileCache s'
           = match content with
             | Some text =>
                 match fst (compile_source JUndefined text s) with
                 | Ok t => <[ToString (templateName msg) := t]> (compileCache s)
                 | Throw _ => compileCache s
                 end
             | None => compileCache s
             end).
Proof.
  intros Hkind. split; [|split].
  - destruct (process_named_any msg st Hkind)
      as (s1 & v & pre & Hrun & _ & _ & Hconst & Hcache & _).
    destruct (lookup_template_cache (templateName msg) s1) as (Hconst2 & Hcache2).
    set (s2 := snd (lookup_template (templateName msg) s1)) in *.
    destruct (on_template_frame (compileCache s2) (constants s2) (JObject [("msg", v)]) s2
                (conj eq_refl eq_refl)) as [Hcache3 Hconst3].
    rewrite <- Hrun in Hcache3, Hconst3. rewrite Hcache3, Hconst3, Hconst2, Hconst.
    split; [reflexivity|].
    destruct Hcache2 as [Hsame|(Hnone & t' & Hins)].
    + rewrite Hsame, Hcache. split; intros; [assumption | reflexivity].
    + rewrite Hins, Hcache. rewrite Hcache in Hnone. split.
      * intros name t Hhit. rewrite lookup_insert_ne; [exact Hhit|].
        intros Heq. rewrite Heq, Hhit in Hnone. discriminate.
      * intros name Hne. apply lookup_insert_ne. congruence.
  - apply getTemplate_frame.
  - intros content context s s'.
    destruct (readFile_callback_cache (templateName msg) content s) as [Hconst Hcache].
    set (s1 := snd (readFile_callback (templateName msg) content s)) in *.
    destruct (on_template_frame (compileCache s1) (constants s1) context s1
                (conj eq_refl eq_refl)) as [Hcache2 Hconst2].
    unfold s'. rewrite Hcache2, Hconst2, Hconst, Hcache. split; reflexivity.
Qed.

End Frames.

(** ** The failures of an inline conversion *)

(** What is left of a conversion after a statement that settled the task
    only moves the state forward. *)
Ltac conversion_rest :=
  match goal with
  | |- snd (?m ?s) = snd (?em ?es) => unify em m; unify es s; reflexivity
  | |- extending _ =>
      pose proof extending_check_field; pose proof extending_optional_field;
      pose proof extending_decode_field; pose proof extending_parse;
      pose proof extending_compile_source; pose proof extending_create_result;
      pose proof extending_lookup_template; pose proof extending_on_template;
      apply extending_task_executor; extending_auto; auto
  end.

Section InlineFailures.
Context `{Collaborators}.

(** The [try] around the decoding and parsing of the message. *)
Lemma message_read (msg : TaskMessage) (s : State) :
  try_catch (b ← decode_field msg FMessage; parse b)
    (fun err => reject (message_unreadable err);; mret (JObject [])) s
  = match message_value msg with
    | Ok v => (Ok v, add_events (message_events msg) s)
    | Throw e =>
        (Ok (JObject []),
         set_task_promise
           (settle (Rejected (message_unreadable e))
                   (task_promise (add_events (message_events msg) s)))
           (record (EvSettle (Rejected (message_unreadable e)))
                   (add_events (message_events msg) s)))
    end.
Proof.
  unfold message_value, message_events, decode_field, parse, encoded, reject, settle_task.
  destruct (messageBase64 msg) as [m|]; run; [|reflexivity].
  destruct (JSON_parse (base64_decode m)); reflexivity.
Qed.

(** X4: in an inline conversion whose fields pass the alphabet check and
    whose optional fields parse, a message that is missing or that does
    not decode and parse has the task rejected with 400, BadRequest and the
    message of the error after "Unable to decode and parse HL7 v2 message.";
    the conversion then goes on with the empty object for the message, so
    that with an empty template the task's [fulfill] is still called,
    with [{}] as the resource, and ignored. *)
Theorem inline_message_failure (msg : TaskMessage) (e : JSError) (st : State) :
  task_kind (type msg) = Some InlineConversion ->
  (forall f, passes msg f) ->
  parses_if_given msg FReplacementDictionary ->
  parses_if_given msg FTemplatesMap ->
  message_value msg = Throw e ->
  outcome msg st = Some (Rejected (message_unreadable e))
  /\ (forall copy,
        template_text msg = "" ->
        JSON_parse (JSON_stringify (JObject [])) = Ok copy ->
        attempts (new_events msg st)
        = [Rejected (message_unreadable e); Fulfilled (Some (mkReply 200 (Envelope copy)))]).
Proof.
  intros Hkind Hpass Hrd Htm Hmessage.
  set (s0 := set_task_promise None st).
  destruct (optional_field_parses msg FReplacementDictionary
              "replacementDictionary is not a base 64 encoded string." (JObject []) s0)
    as [rd Hrd']; [apply Hpass | exact Hrd |].
  set (s1 := add_events (optional_events msg FReplacementDictionary) s0) in *.
  destruct (optional_field_parses msg FTemplatesMap
              "templatesMap is not a base 64 encoded string." JUndefined s1)
    as [tm Htm']; [apply Hpass | exact Htm |].
  set (s2 := add_events (optional_events msg FTemplatesMap) s1) in *.
  set (s3 := add_events (message_events msg) s2).
  assert (Hpending : task_promise s3 = None).
  { unfold s3, s2, s1. rewrite <- !add_events_app.
    match goal with
    | |- task_promise (add_events ?l s0) = _ =>
        destruct (add_events_fields l s0) as (_ & _ & _ & _ & _ & Hp)
    end.
    exact Hp. }
  assert (Hevents : events s3
                    = events st ++ (optional_events msg FReplacementDictionary
                                    ++ optional_events msg FTemplatesMap
                                    ++ message_events msg)).
  { unfold s3, s2, s1. rewrite !events_add_events, <- !app_assoc. reflexivity. }
  assert (Hstart : process msg st
                   = snd (task_executor (convert_inline msg) s0)).
  { unfold process, handler. rewrite Hkind. reflexivity. }
  unfold convert_inline, convert_inline_body in Hstart.
  rewrite executor_bind, (check_field_passes msg FMessage) in Hstart by apply Hpass.
  rewrite executor_bind, (check_field_passes msg FTemplate) in Hstart by apply Hpass.
  rewrite executor_bind, Hrd' in Hstart. rewrite executor_bind, Htm' in Hstart.
  rewrite executor_bind in Hstart.
  change (try_catch (b ← decode_field msg FMessage; parse b) _ s2)
    with (try_catch (b ← decode_field msg FMessage; parse b)
            (fun err => reject (message_unreadable err);; mret (JObject [])) s2) in Hstart.
  rewrite message_read, Hmessage in Hstart. fold s3 in Hstart. rewrite Hpending in Hstart.
  cbn [settle] in Hstart.
  split.
  - assert (Hr : outcome msg st = Some (Rejected (message_unreadable e))
                 /\ exists post,
                      new_events msg st
                      = (optional_events msg FReplacementDictionary
                         ++ optional_events msg FTemplatesMap ++ message_events msg)
                        ++ EvSettle (Rejected (message_unreadable e)) :: post).
    { eapply rejected_at; [rewrite Hstart; conversion_rest | conversion_rest | reflexivity|].
      fields. rewrite Hevents, <- !app_assoc. reflexivity. }
    apply Hr.
  - intros copy Hempty Hcopy.
    rewrite executor_bind, template_decoded, Hempty in Hstart.
    cbn [String.length Nat.eqb] in Hstart.
    unfold task_executor, parse, fulfill, settle_task in Hstart.
    cbv beta iota delta [mbind M_bind mret M_ret gets modify eval call try_catch fst snd]
      in Hstart.
    rewrite Hcopy in Hstart.
    unfold new_events. rewrite Hstart. fields.
    match goal with
    | |- context [events (add_events ?l ?s)] => rewrite (events_add_events l s)
    end.
    fields. rewrite Hevents, <- !app_assoc, drop_app_length, !attempts_app,
      !attempts_optional_events.
    unfold message_events. destruct (messageBase64 msg);
      destruct (field_truthy (templateBase64 msg)); reflexivity.
Qed.

(** X5: in an inline conversion, a replacementDictionary or templatesMap
    that passes the alphabet check, as do the fields checked before it, but
    does not parse has the task rejected with 400, BadRequest and the text
    of the parse error, and ends the conversion there: the message is not
    decoded, no engine is acquired and nothing is rendered. *)
Theorem unparsable_optional_field_stops (msg : TaskMessage) (f : FieldName) (e : JSError)
    (st : State) :
  task_kind (type msg) = Some InlineConversion ->
  f = FReplacementDictionary \/ f = FTemplatesMap ->
  (forall g, (field_index g <= field_index f)%nat -> passes msg g) ->
  (f = FTemplatesMap -> parses_if_given msg FReplacementDictionary) ->
  field_truthy (encoded msg f) = true ->
  JSON_parse (decoded msg f) = Throw e ->
  outcome msg st = Some (Rejected (bad_request (Error_toString e)))
  /\ new_events msg st
     = match f with
       | FTemplatesMap => optional_events msg FReplacementDictionary
       | _ => []
       end
       ++ [EvDecode f; EvParse (decoded msg f);
           EvSettle (Rejected (bad_request (Error_toString e)))].
Proof.
  intros Hkind Hf Hpass Hgiven Htruthy Hparse.
  set (s0 := set_task_promise None st).
  assert (Hrun : process msg st
                 = set_task_promise (Some (Rejected (bad_request (Error_toString e))))
                     (record (EvSettle (Rejected (bad_request (Error_toString e))))
                        (add_events (optional_events msg f)
                           (add_events match f with
                                       | FTemplatesMap =>
                                           optional_events msg FReplacementDictionary
                                       | _ => []
                                       end s0)))).
  { unfold process, handler. rewrite Hkind. fold s0.
    unfold convert_inline, convert_inline_body.
    rewrite executor_bind, (check_field_passes msg FMessage)
      by (apply Hpass; destruct Hf as [-> | ->]; simpl; lia).
    rewrite executor_bind, (check_field_passes msg FTemplate)
      by (apply Hpass; destruct Hf as [-> | ->]; simpl; lia).
    destruct Hf as [-> | ->].
    - rewrite executor_bind, (optional_field_passes msg FReplacementDictionary)
        by (apply Hpass; simpl; lia).
      rewrite Htruthy, Hparse.
      destruct (add_events_fields (optional_events msg FReplacementDictionary) s0)
        as (_ & _ & _ & _ & _ & Hpending).
      unfold task_executor, reject, settle_task. run. fields. rewrite Hpending. reflexivity.
    - destruct (optional_field_parses msg FReplacementDictionary
                  "replacementDictionary is not a base 64 encoded string." (JObject []) s0)
        as [rd Hrd]; [apply Hpass; simpl; lia | apply Hgiven; reflexivity |].
      rewrite executor_bind, Hrd.
      rewrite executor_bind, (optional_field_passes msg FTemplatesMap)
        by (apply Hpass; simpl; lia).
      rewrite Htruthy, Hparse.
      destruct (add_events_fields
                  (optional_events msg FReplacementDictionary ++ optional_events msg FTemplatesMap)
                  s0) as (_ & _ & _ & _ & _ & Hpending).
      rewrite add_events_app in Hpending.
      unfold task_executor, reject, settle_task. run. fields. rewrite Hpending. reflexivity. }
  unfold outcome, new_events. rewrite Hrun. fields. split; [reflexivity|].
  rewrite !events_add_events. unfold s0. fields.
  rewrite <- !app_assoc, drop_app_length. unfold optional_events at 2. rewrite Htruthy.
  destruct Hf as [-> | ->]; reflexivity.
Qed.

End InlineFailures.

(** ** A conversion from end to end *)

Section EndToEnd.
Context `{Collaborators}.

(** The handle that an acquisition returns depends on the engine, the flag
    and the configuration only. *)
Lemma GetHandlebarsInstance_same_engine (M : JSValue) (s s' : State) :
  same_engine s s' ->
  fst (GetHandlebarsInstance M s') = fst (GetHandlebarsInstance M s).
Proof.
  intros (Hflag & Hconst & Hshared & Hbuilt).
  unfold GetHandlebarsInstance, HandlebarsConverter_instance. run. fields.
  rewrite ?Hflag, ?Hconst.
  destruct (get_property (constants s) "TEMPLATE_FILES_LOCATION") as [location|e];
    [|reflexivity].
  fields. rewrite ?Hshared, ?Hbuilt.
  destruct (if needToUseMap M then true else rebuildCache s); [reflexivity|].
  destruct (handlebarsInstance s); reflexivity.
Qed.

Lemma same_engine_add_events (new : list Event) (p : option Outcome) (st : State) :
  same_engine st (add_events new (set_task_promise p st)).
Proof.
  destruct (add_events_fields new (set_task_promise p st))
    as (Hflag & Hconst & _ & Hshared & Hbuilt & _).
  repeat split; assumption.
Qed.

(** Compiling [text] with the map [M]: the handle is acquired, which may
    throw, and the text compiled with it; the task's promise is left as it
    is, and the flag is what the acquisition makes it. *)
Lemma compile_source_result (M : JSValue) (text : string) (s : State) :
  exists s',
    compile_source M text s
    = (match fst (GetHandlebarsInstance M s) with
       | Ok h => compiles h text
       | Throw e => Throw e
       end, s')
    /\ task_promise s' = task_promise s
    /\ rebuildCache s'
       = match fst (GetHandlebarsInstance M s) with
         | Ok _ => needToUseMap M
         | Throw _ => rebuildCache s
         end.
Proof.
  unfold compile_source, compiles, GetHandlebarsInstance, HandlebarsConverter_instance.
  run. fields.
  destruct (get_property (constants s) "TEMPLATE_FILES_LOCATION") as [location|e];
    [|eexists; repeat split; reflexivity].
  fields.
  destruct (if needToUseMap M then true else rebuildCache s);
    [|destruct (handlebarsInstance s)];
    fields; destruct (templatePreprocessor_Process text);
    eexists; (split; [reflexivity|]); fields;
    destruct (needToUseMap M); split; reflexivity.
Qed.

(** The [try] that ends a conversion settles a pending task with the reply
    of the conversion, and assigns no flag. *)
Lemma conversion_try (heading : string) (t : Template) (context replacements : JSValue)
    (s : State) :
  task_promise s = None ->
  exists s',
    try_catch
      (result ← generateResult context t replacements; fulfill (success result))
      (fun err => reject (bad_request (heading +:+ Error_toString err))) s
    = (Ok tt, s')
    /\ task_promise s' = Some (conversion_reply heading t context replacements)
    /\ rebuildCache s' = rebuildCache s
    /\ compileCache s' = compileCache s
    /\ handles_built s' = handles_built s.
Proof.
  intros Hpending. unfold conversion_reply, assembled, generateResult, fulfill, reject,
    settle_task. run. fields.
  destruct (Template_apply t context) as [rendered|e]; fields.
  - destruct (jsonProcessor_Process rendered) as [processed|e]; fields.
    + destruct (JSON_parse processed) as [parsed|e]; fields.
      * destruct (resourceMerger_Process parsed replacements) as [message|e]; fields;
          rewrite Hpending; eexists; repeat split; reflexivity.
      * rewrite Hpending. eexists. repeat split; reflexivity.
    + rewrite Hpending. eexists. repeat split; reflexivity.
  - rewrite Hpending. eexists. repeat split; reflexivity.
Qed.

Lemma optional_field_value (msg : TaskMessage) (f : FieldName) (text : string)
    (initial w : JSValue) (s : State) :
  passes msg f ->
  optional_value msg f initial = Ok w ->
  optional_field msg f text initial s = (Ok w, add_events (optional_events msg f) s).
Proof.
  intros Hp Hw. rewrite (optional_field_passes msg f text initial s Hp).
  unfold optional_value in Hw. rewrite Hw. reflexivity.
Qed.

(** X6: an inline conversion whose fields pass the alphabet check, whose
    optional fields and message are read as [rd], [tm] and [v], and whose
    template text is not empty, is settled by what compiling and rendering
    come to: the reply of the assembler on the compiled template, the
    context [{msg: v}] and [rd], with "Unable to create result: " before the
    text of an error of the assembler, or a 400 BadRequest with the text of
    the error that acquiring the handle or compiling threw.  Once the
    handle is acquired the flag says whether [tm] was used as a map. *)
Theorem inline_conversion_outcome (msg : TaskMessage) (v rd tm : JSValue) (st : State) :
  task_kind (type msg) = Some InlineConversion ->
  (forall f, passes msg f) ->
  optional_value msg FReplacementDictionary (JObject []) = Ok rd ->
  optional_value msg FTemplatesMap JUndefined = Ok tm ->
  message_value msg = Ok v ->
  template_text msg <> "" ->
  outcome msg st
  = Some match fst (GetHandlebarsInstance tm st) with
         | Throw e => Rejected (bad_request (Error_toString e))
         | Ok h =>
             match compiles h (template_text msg) with
             | Throw e => Rejected (bad_request (Error_toString e))
             | Ok t =>
                 conversion_reply "Unable to create result: " t (JObject [("msg", v)]) rd
             end
         end
  /\ rebuildCache (process msg st)
     = match fst (GetHandlebarsInstance tm st) with
       | Throw _ => rebuildCache st
       | Ok _ => needToUseMap tm
       end.
Proof.
  intros Hkind Hpass Hrd Htm Hmessage Htext.
  set (s0 := set_task_promise None st).
  set (s1 := add_events (optional_events msg FReplacementDictionary) s0).
  set (s2 := add_events (optional_events msg FTemplatesMap) s1).
  set (s3 := add_events (message_events msg) s2).
  set (s4 := add_events (if field_truthy (templateBase64 msg) then [EvDecode FTemplate] else [])
               s3).
  assert (Hs4 : s4 = add_events
                       (optional_events msg FReplacementDictionary
                        ++ optional_events msg FTemplatesMap ++ message_events msg
                        ++ (if field_truthy (templateBase64 msg)
                            then [EvDecode FTemplate] else [])) s0).
  { unfold s4, s3, s2, s1. rewrite !add_events_app. reflexivity. }
  assert (Hpending : task_promise s4 = None).
  { rewrite Hs4.
    match goal with
    | |- task_promise (add_events ?l s0) = _ =>
        destruct (add_events_fields l s0) as (_ & _ & _ & _ & _ & Hp)
    end.
    exact Hp. }
  assert (Hflag4 : rebuildCache s4 = rebuildCache st).
  { rewrite Hs4. apply same_engine_add_events. }
  assert (Hengine : fst (GetHandlebarsInstance tm s4) = fst (GetHandlebarsInstance tm st)).
  { rewrite Hs4. apply GetHandlebarsInstance_same_engine, same_engine_add_events. }
  assert (Hlength : (String.length (template_text msg) =? 0)%nat = false).
  { destruct (template_text msg); [congruence | reflexivity]. }
  destruct (compile_source_result tm (template_text msg) s4) as (s5 & Hcompile & Hp5 & Hflag5).
  rewrite Hengine in Hcompile, Hflag5. rewrite Hpending in Hp5. rewrite Hflag4 in Hflag5.
  assert (Hstart : process msg st
                   = snd (match fst (GetHandlebarsInstance tm st) with
                          | Throw e => task_executor (reject (bad_request (Error_toString e))) s5
                          | Ok h =>
                              match compiles h (template_text msg) with
                              | Throw e =>
                                  task_executor (reject (bad_request (Error_toString e))) s5
                              | Ok t =>
                                  task_executor
                                    (try_catch
                                       (create_result (JObject [("msg", v)]) t rd)
                                       (fun err => reject (bad_request (Error_toString err))))
                                    s5
                              end
                          end)).
  { unfold process, handler. rewrite Hkind. fold s0.
    unfold convert_inline, convert_inline_body.
    rewrite executor_bind, (check_field_passes msg FMessage) by apply Hpass.
    rewrite executor_bind, (check_field_passes msg FTemplate) by apply Hpass.
    rewrite executor_bind, (optional_field_value msg FReplacementDictionary _ _ rd)
      by (apply Hpass || exact Hrd).
    rewrite executor_bind, (optional_field_value msg FTemplatesMap _ _ tm)
      by (apply Hpass || exact Htm).
    rewrite executor_bind.
    change (try_catch (b ← decode_field msg FMessage; parse b) _ (add_events _ (add_events _ s0)))
      with (try_catch (b ← decode_field msg FMessage; parse b)
              (fun err => reject (message_unreadable err);; mret (JObject [])) s2).
    rewrite message_read, Hmessage.
    rewrite executor_bind, template_decoded. fold s3 s4. rewrite Hlength.
    rewrite executor_bind, Hcompile.
    destruct (fst (GetHandlebarsInstance tm st)) as [h|e]; [|reflexivity].
    destruct (compiles h (template_text msg)); reflexivity. }
  rewrite Hstart. unfold outcome. rewrite Hstart.
  destruct (fst (GetHandlebarsInstance tm st)) as [h|e].
  - destruct (compiles h (template_text msg)) as [t|e].
    + destruct (conversion_try "Unable to create result: " t (JObject [("msg", v)]) rd s5 Hp5)
        as (s6 & Htry & Hp6 & Hflag6 & _).
      assert (Hrun : task_executor
                       (try_catch (create_result (JObject [("msg", v)]) t rd)
                          (fun err => reject (bad_request (Error_toString err)))) s5
                     = (Ok tt, s6)).
      { unfold task_executor, create_result, try_catch at 1 2. rewrite Htry. reflexivity. }
      rewrite Hrun. cbn [snd]. rewrite Hp6, Hflag6. split; [reflexivity | exact Hflag5].
    + unfold task_executor, reject, settle_task. run. fields. rewrite Hp5.
      split; [reflexivity | exact Hflag5].
  - unfold task_executor, reject, settle_task. run. fields. rewrite Hp5.
    split; [reflexivity | exact Hflag5].
Qed.

End EndToEnd.

(** ** A named conversion from end to end *)

Section NamedConversions.
Context `{Collaborators}.

(** The callbacks of the lookup when it was fulfilled with [t] and the
    task is pending. *)
Lemma on_template_fulfilled (context : JSValue) (t : Template) (s : State) :
  template_promise s = Some (Fulfilled t) ->
  task_promise s = None ->
  task_promise (snd (on_template context s))
  = Some (conversion_reply "Error during template evaluation. " t context JNull)
  /\ rebuildCache (snd (on_template context s)) = rebuildCache s
  /\ compileCache (snd (on_template context s)) = compileCache s
  /\ handles_built (snd (on_template context s)) = handles_built s.
Proof.
  intros Htempl Hpending.
  destruct (conversion_try "Error during template evaluation. " t context JNull s Hpending)
    as (s' & Htry & Hp & Hflag & Hcache & Hbuilt).
  assert (Hrun : on_template context s = (Ok tt, s')).
  { unfold on_template. rewrite run_bind. unfold gets. rewrite Htempl.
    unfold evaluate_template. exact Htry. }
  rewrite Hrun. repeat split; assumption.
Qed.

(** A lookup that reads a file acquires the handle without a map, which
    clears the flag. *)
Lemma lookup_template_clears_flag (name dir content : string) (st : State) :
  compileCache st !! name = None ->
  configured dir st ->
  disk st (path_join dir name) = Ok (Some content) ->
  rebuildCache (snd (lookup_template (Some name) st)) = false.
Proof.
  intros Hmiss Hloc Hdisk.
  set (st1 := record (EvReadFile (path_join dir name)) (set_template_promise None st)).
  destruct (compile_source_result JUndefined content st1) as (st2 & Hrun & _ & Hflag).
  destruct (GetHandlebarsInstance_undefined dir st1 Hloc) as (st' & acq & Hacq & _).
  rewrite Hacq in Hrun, Hflag. cbn [fst] in Hrun, Hflag.
  unfold configured in Hloc.
  unfold lookup_template, getTemplate, template_executor, readFile_callback, settle_template.
  run. fields.
  rewrite Hmiss. fields. rewrite Hloc. cbn [path_join_checked]. fields. rewrite Hdisk.
  fold st1. rewrite Hrun.
  destruct (compiles _ content);
    run; fields; exact Hflag.
Qed.

Lemma quiet_since_record (base : list Event) (e : Event) (s : State) :
  is_lookup_work e = false -> quiet_since base s -> quiet_since base (record e s).
Proof.
  intros He (new & Hev & Hall). exists (new ++ [e]). cbn [events record].
  rewrite Hev, <- app_assoc. split; [reflexivity|].
  apply Forall_app. split; [exact Hall|]. apply Forall_cons. split; [exact He | apply Forall_nil].
  exact I.
Qed.

Lemma quiet_since_settle (base : list Event) (o : Outcome) :
  stable (quiet_since base) (settle_task o).
Proof.
  intros s Hs. apply (quiet_since_record base (EvSettle o) s eq_refl) in Hs.
  destruct Hs as (new & Hev & Hall). exists new. split; [exact Hev | exact Hall].
Qed.

(** The callbacks of the lookup call neither the file system nor the
    engine module. *)
Lemma on_template_quiet (base : list Event) (context : JSValue) :
  stable (quiet_since base) (on_template context).
Proof.
  unfold on_template, evaluate_template, generateResult, fulfill, reject.
  repeat match goal with
         | |- stable _ (mret _) => apply stable_ret
         | |- stable _ (_ ≫= _) => apply stable_bind; [|intros]
         | |- stable _ (try_catch _ _) => apply stable_try_catch; [|intros]
         | |- stable _ (gets _) => apply stable_gets
         | |- stable _ (call _ _) =>
             apply stable_call; intros ? ?; apply quiet_since_record; [reflexivity | assumption]
         | |- stable _ (settle_task _) => apply quiet_since_settle
         | |- stable _ (match ?x with _ => _ end) => destruct x
         end.
Qed.

(** A named conversion of a cached name. *)
Lemma named_served (msg : TaskMessage) (text name : string) (v : JSValue) (t : Template)
    (st : State) :
  named_request msg text name v ->
  compileCache st !! name = Some t ->
  outcome msg st
  = Some (conversion_reply "Error during template evaluation. " t (JObject [("msg", v)]) JNull)
  /\ compileCache (process msg st) = compileCache st
  /\ rebuildCache (process msg st) = rebuildCache st
  /\ handles_built (process msg st) = handles_built st
  /\ Forall (fun e => is_lookup_work e = false) (new_events msg st).
Proof.
  intros Hreq Hhit. unfold outcome, new_events.
  rewrite (process_named msg text name v st Hreq).
  set (s1 := record (EvParse text) (set_task_promise None st)).
  rewrite (lookup_template_hit name t s1 Hhit). cbn [snd].
  destruct (on_template_fulfilled (JObject [("msg", v)]) t
              (set_template_promise (Some (Fulfilled t)) s1) eq_refl eq_refl)
    as (Hp & Hflag & Hcache & Hbuilt).
  rewrite Hp, Hflag, Hcache, Hbuilt.
  split; [reflexivity | split; [reflexivity | split; [reflexivity | split; [reflexivity|]]]].
  destruct (on_template_quiet (events st) (JObject [("msg", v)])
              (set_template_promise (Some (Fulfilled t)) s1)) as (new & Hev & Hall).
  { exists [EvParse text]. split; [reflexivity|].
    apply Forall_cons. split; [reflexivity | apply Forall_nil; exact I]. }
  rewrite Hev, drop_app_length. exact Hall.
Qed.

(** A named conversion of a name that is not cached and whose file
    compiles. *)
Lemma named_stored (msg : TaskMessage) (text name dir content : string) (v : JSValue)
    (t : Template) (st : State) :
  named_request msg text name v ->
  compileCache st !! name = None ->
  configured dir st ->
  disk st (path_join dir name) = Ok (Some content) ->
  compiles (next_handle (JString dir) st) content = Ok t ->
  outcome msg st
  = Some (conversion_reply "Error during template evaluation. " t (JObject [("msg", v)]) JNull)
  /\ compileCache (process msg st) = <[name := t]> (compileCache st)
  /\ rebuildCache (process msg st) = false.
Proof.
  intros Hreq Hmiss Hloc Hdisk Hok. unfold outcome.
  rewrite (process_named msg text name v st Hreq).
  set (s1 := record (EvParse text) (set_task_promise None st)).
  pose proof (lookup_template_clears_flag name dir content s1 Hmiss Hloc Hdisk) as Hflag.
  destruct (lookup_template_retrieved name dir content s1 Hmiss Hloc Hdisk)
    as (s2 & new & Hrun & Htempl & Hcache & _ & _ & _ & Htask & _).
  change (next_handle (JString dir) s1) with (next_handle (JString dir) st) in *.
  rewrite Hok in Htempl, Hcache. rewrite Hrun in *. cbn [snd] in *.
  destruct (on_template_fulfilled (JObject [("msg", v)]) t s2 Htempl Htask)
    as (Hp & Hflag' & Hcache' & _).
  rewrite Hp, Hflag', Hcache', Hflag, Hcache. repeat split; reflexivity.
Qed.

(** X7: a named conversion whose message parses as [v] is settled by the
    assembler's reply on the template of its name, the context [{msg: v}]
    and no replacement dictionary, with "Error during template evaluation. "
    before the text of an error of the assembler.  When the name is cached
    the cached template is used, and the cache, the flag and the number of
    handles built stay as they were; when it is not, and its file compiles,
    the compiled template is used and stored under the name, and the flag
    is cleared. *)
Theorem named_conversion_outcome (msg : TaskMessage) (text name : string) (v : JSValue)
    (st : State) :
  named_request msg text name v ->
  let reply t :=
    conversion_reply "Error during template evaluation. " t (JObject [("msg", v)]) JNull in
  (forall t,
      compileCache st !! name = Some t ->
      outcome msg st = Some (reply t)
      /\ compileCache (process msg st) = compileCache st
      /\ rebuildCache (process msg st) = rebuildCache st
      /\ handles_built (process msg st) = handles_built st)
  /\ (forall dir content t,
        compileCache st !! name = None ->
        configured dir st ->
        disk st (path_join dir name) = Ok (Some content) ->
        compiles (next_handle (JString dir) st) content = Ok t ->
        outcome msg st = Some (reply t)
        /\ compileCache (process msg st) = <[name := t]> (compileCache st)
        /\ rebuildCache (process msg st) = false).
Proof.
  intros Hreq reply. split.
  - intros t Hhit.
    destruct (named_served msg text name v t st Hreq Hhit) as (Ho & Hc & Hf & Hb & _).
    repeat split; assumption.
  - intros dir content t Hmiss Hloc Hdisk Hok.
    exact (named_stored msg text name dir content v t st Hreq Hmiss Hloc Hdisk Hok).
Qed.

(** X10: when a named conversion has compiled and stored its template, the
    same task handled again is settled in the same way from the cache: no
    file is read, no handle is acquired and nothing is compiled, and the
    cache and the flag stay as the first task left them. *)
Theorem named_conversion_repeated (msg : TaskMessage) (text name dir content : string)
    (v : JSValue) (t : Template) (st : State) :
  named_request msg text name v ->
  compileCache st !! name = None ->
  configured dir st ->
  disk st (path_join dir name) = Ok (Some content) ->
  compiles (next_handle (JString dir) st) content = Ok t ->
  outcome msg (process msg st) = outcome msg st
  /\ Forall (fun e => is_lookup_work e = false) (new_events msg (process msg st))
  /\ compileCache (process msg (process msg st)) = compileCache (process msg st)
  /\ rebuildCache (process msg (process msg st)) = false.
Proof.
  intros Hreq Hmiss Hloc Hdisk Hok.
  destruct (named_stored msg text name dir content v t st Hreq Hmiss Hloc Hdisk Hok)
    as (Ho & Hc & Hf).
  destruct (named_served msg text name v t (process msg st) Hreq) as (Ho' & Hc' & Hf' & _ & Hq).
  { rewrite Hc. apply lookup_insert_eq. }
  rewrite Ho, Ho', Hc', Hf', Hf. repeat split; try reflexivity. exact Hq.
Qed.

(** A named conversion is the lookup followed by its callbacks, on a state
    in which the task is rejected if its message earned it, and pending
    otherwise. *)
Lemma named_validated (msg : TaskMessage) (st : State) :
  task_kind (type msg) = Some NamedConversion ->
  exists s1,
    process msg st
    = snd (on_template (named_context msg) (snd (lookup_template (templateName msg) s1)))
    /\ task_promise s1 = match message_rejection msg with
                         | Some r => Some (Rejected r)
                         | None => None
                         end
    /\ rebuildCache s1 = rebuildCache st
    /\ constants s1 = constants st
    /\ compileCache s1 = compileCache st
    /\ handlebarsInstance s1 = handlebarsInstance st
    /\ handles_built s1 = handles_built st
    /\ disk s1 = disk st
    /\ replies_since (events st) s1.
Proof.
  intros Hkind.
  assert (Hrest : forall v s1,
    snd (task_executor (lookup_template (templateName msg);; on_template (JObject [("msg", v)])) s1)
    = snd (on_template (JObject [("msg", v)]) (snd (lookup_template (templateName msg) s1)))).
  { intros v s1. unfold task_executor, try_catch. rewrite run_bind.
    destruct (lookup_template_settles (templateName msg) s1) as [E S].
    destruct (lookup_template (templateName msg) s1) as [r s2]. simpl in E, S. subst r.
    cbv beta iota. cbn [snd].
    destruct (on_template_settles (JObject [("msg", v)]) s2 S) as [E1 _].
    destruct (on_template (JObject [("msg", v)]) s2) as [r s3]. simpl in E1. subst r.
    reflexivity. }
  unfold process, handler. rewrite Hkind.
  unfold convert_named, parse, reject, settle_task, named_context, message_rejection.
  destruct (field_truthy (messageContent msg));
    destruct (JSON_parse (ToString (messageContent msg))) as [v|e] eqn:Hparse.
  all: eexists; split;
    [ rewrite <- Hrest; unfold task_executor; run; cbn [negb]; run; fields;
      rewrite ?Hparse; reflexivity
    | fields; repeat (split; [reflexivity|]);
      unfold replies_since; fields;
      eexists; (split; [rewrite <- ?app_assoc; reflexivity|]);
      unfold attempts; cbn [omap list_omap attempt app];
      repeat (apply Forall_cons; split; [apply bad_request_is_reply|]);
      apply Forall_nil; exact I ].
Qed.

(** X8: a named conversion whose message is missing, empty or unparsable
    is rejected for it, with "No message provided." when it is missing or
    empty, and the lookup is made all the same: a template that is not
    cached and whose file compiles is compiled and stored under its name by
    the rejected task. *)
Theorem named_rejected_message_still_looks_up (msg : TaskMessage) (r : Reason) (st : State) :
  task_kind (type msg) = Some NamedConversion ->
  message_rejection msg = Some r ->
  outcome msg st = Some (Rejected r)
  /\ (forall name dir content t,
        templateName msg = Some name ->
        compileCache st !! name = None ->
        configured dir st ->
        disk st (path_join dir name) = Ok (Some content) ->
        compiles (next_handle (JString dir) st) content = Ok t ->
        compileCache (process msg st) = <[name := t]> (compileCache st)).
Proof.
  intros Hkind Hrej.
  destruct (named_validated msg st Hkind)
    as (s1 & Hrun & Htask & Hflag & Hconst & Hcache & Hshared & Hbuilt & Hdisk & _).
  rewrite Hrej in Htask. split.
  - unfold outcome. rewrite Hrun.
    destruct (settled_prefix (lookup_template (templateName msg)) (Rejected r) s1
                (extending_lookup_template _) Htask) as (Htask2 & _).
    destruct (settled_prefix (on_template (named_context msg)) (Rejected r) _
                (extending_on_template _) Htask2) as (Htask3 & _).
    exact Htask3.
  - intros name dir content t Hname Hmiss Hloc Hfile Hok.
    rewrite Hrun, Hname.
    destruct (lookup_template_retrieved name dir content s1)
      as (s2 & new & Hlook & _ & Hstored & _);
      [rewrite Hcache; exact Hmiss | unfold configured; rewrite Hconst; exact Hloc
      | rewrite Hdisk; exact Hfile |].
    assert (Hnext : next_handle (JString dir) s1 = next_handle (JString dir) st)
      by (unfold next_handle; rewrite Hflag, Hshared, Hbuilt; reflexivity).
    rewrite Hnext, Hok in Hstored. rewrite Hlook. cbn [snd].
    destruct (on_template_frame (compileCache s2) (constants s2) (named_context msg) s2
                (conj eq_refl eq_refl)) as [Hkept _].
    rewrite Hkept, Hstored, Hcache. reflexivity.
Qed.

(** X9: in a named conversion whose message is valid and whose template
    is not cached, an error thrown while the path of the template file is
    made, because the task names no template or because the configuration
    has no location to read, or is [null], reaches the caller as it was
    thrown, and not as a reply with a status and a descriptor; no file is
    read and the cache stays as it was. *)
Theorem named_path_error_is_raw (msg : TaskMessage) (e : JSError) (st : State) :
  task_kind (type msg) = Some NamedConversion ->
  message_rejection msg = None ->
  compileCache st !! ToString (templateName msg) = None ->
  template_path (constants st) (templateName msg) = Throw e ->
  outcome msg st = Some (Rejected (ReasonThrown e))
  /\ ~ structured_error (ReasonThrown e)
  /\ tally is_read (new_events msg st) = 0%nat
  /\ compileCache (process msg st) = compileCache st.
Proof.
  intros Hkind Hvalid Hmiss Hpath.
  unfold outcome, new_events. rewrite (named_path_error msg e st Hkind Hvalid Hmiss Hpath).
  fields. split; [reflexivity | split; [|split; [|reflexivity]]].
  - intros (code & text' & Heq). discriminate.
  - rewrite <- app_assoc, drop_app_length. reflexivity.
Qed.

(** X14: a constants-updated task takes any payload that parses for the
    configuration.  When the path of a template file cannot be made from
    it, as when the payload is [null] or has no location, every named
    conversion with a valid message that is handled next is rejected with
    the error as it was thrown: the update has emptied the cache, so that
    no name is served from it. *)
Theorem unusable_constants_break_named (update msg : TaskMessage) (v : JSValue)
    (e : JSError) (st : State) :
  task_kind (type update) = Some ConstantsUpdated ->
  JSON_parse (ToString (data update)) = Ok v ->
  task_kind (type msg) = Some NamedConversion ->
  message_rejection msg = None ->
  template_path v (templateName msg) = Throw e ->
  outcome update st = Some (Fulfilled None)
  /\ outcome msg (process update st) = Some (Rejected (ReasonThrown e)).
Proof.
  intros Hupdate Hparse Hkind Hvalid Hpath.
  unfold outcome at 1. rewrite (process_constantsUpdated update v st Hupdate Hparse).
  split; [reflexivity|].
  unfold outcome. rewrite (named_path_error msg e _ Hkind Hvalid); [reflexivity | | exact Hpath].
  apply lookup_empty.
Qed.

End NamedConversions.

(** ** The alphabet check *)

(** X11: a field passes the alphabet check exactly when it is missing, the
    check being made on the word that [undefined] prints as, or consists of
    characters of the class followed by at most two [=]: the check asks
    neither for a length that is a multiple of four nor for a field that
    is there. *)
Theorem alphabet_check_accepts (msg : TaskMessage) (f : FieldName) :
  passes msg f
  <-> match encoded msg f with
      | None => True
      | Some x => matches_base64RegEx x
      end.
Proof.
  unfold passes. destruct (encoded msg f) as [x|]; cbn [ToString].
  - apply base64RegEx_test_matches.
  - split; [intros _; exact I | intros _; reflexivity].
Qed.

(** ** Which rejections are replies *)

Section StructuredReplies.
Context `{Collaborators}.

(** X12: every call of [fulfill] and [reject] that an inline conversion
    makes, the ignored ones among them, passes a success or a status with
    an error descriptor, whatever the fields are and whatever the
    collaborators throw; so does the call that settles the task. *)
Theorem inline_attempts_are_replies (msg : TaskMessage) (st : State) :
  task_kind (type msg) = Some InlineConversion ->
  Forall is_reply (attempts (new_events msg st))
  /\ exists o, outcome msg st = Some o /\ is_reply o.
Proof.
  intros Hkind. split; [|apply inline_outcome_is_reply, Hkind].
  assert (Hstable : stable (replies_since (events st)) (convert_inline msg)).
  { unfold convert_inline, convert_inline_body, create_result, compile_source,
      GetHandlebarsInstance, HandlebarsConverter_instance, generateResult, optional_field,
      check_field, decode_field, parse.
    repeat reply_step. }
  assert (Htotal : total (convert_inline msg)).
  { unfold convert_inline. apply total_try_catch. intros e. apply total_settle_task. }
  assert (Hrun : process msg st = snd (convert_inline msg (set_task_promise None st))).
  { unfold process, handler. rewrite Hkind. unfold task_executor, try_catch.
    destruct (Htotal (set_task_promise None st)) as [[] Hok].
    destruct (convert_inline msg (set_task_promise None st)) as [r s1].
    simpl in Hok. subst r. reflexivity. }
  destruct (Hstable (set_task_promise None st)) as (new & Hev & Hall).
  { exists []. split; [symmetry; apply app_nil_r | apply Forall_nil; exact I]. }
  unfold new_events. rewrite Hrun, Hev, drop_app_length. exact Hall.
Qed.

(** The lookup never calls the task's [fulfill] or [reject]. *)
Lemma lookup_template_replies (base : list Event) (templateName : field) :
  stable (replies_since base) (lookup_template templateName).
Proof.
  unfold lookup_template, getTemplate, template_executor, readFile_callback, compile_source,
    GetHandlebarsInstance, HandlebarsConverter_instance, settle_template.
  repeat reply_step.
Qed.

(** Compiling a template leaves the promise of the lookup alone. *)
Lemma compile_source_template_promise (p : option (Settled Template)) (M : JSValue)
    (text : string) :
  stable (fun s => template_promise s = p) (compile_source M text).
Proof.
  unfold compile_source, GetHandlebarsInstance, HandlebarsConverter_instance.
  repeat frame_step.
Qed.

(** The callback of [fs.readFile] never calls the task's [fulfill] or
    [reject]. *)
Lemma readFile_callback_replies (base : list Event) (templateName : field)
    (content : option string) :
  stable (replies_since base) (readFile_callback templateName content).
Proof.
  unfold readFile_callback, compile_source, GetHandlebarsInstance,
    HandlebarsConverter_instance, settle_template.
  repeat reply_step.
Qed.

(** The callback of [fs.readFile] fulfils a pending promise, or rejects it
    with a status and a descriptor. *)
Lemma readFile_callback_promise_is_reply (templateName : field) (content : option string)
    (s : State) :
  template_promise s = None ->
  match template_promise (snd (readFile_callback templateName content s)) with
  | Some (Fulfilled _) => True
  | Some (Rejected r) => structured_error r
  | None => False
  end.
Proof.
  intros Hpending. unfold readFile_callback, settle_template.
  destruct content as [text|].
  - pose proof (compile_source_template_promise None JUndefined text s Hpending) as Hkept.
    run. destruct (compile_source JUndefined text s) as [[t|e] s1];
      cbn [snd] in Hkept; fields; rewrite Hkept; [exact I|].
    eexists BadRequest, _. reflexivity.
  - run. fields. rewrite Hpending. exists NotFound, "Template not found". reflexivity.
Qed.

(** A lookup that finds the name in the cache, or can make a path at which
    [fs.readFile] does not throw, is fulfilled, or rejected with a status
    and a descriptor. *)
Lemma lookup_template_promise_is_reply (templateName : field) (s : State) :
  is_Some (compileCache s !! ToString templateName)
  \/ (exists file content,
        template_path (constants s) templateName = Ok file /\ disk s file = Ok content) ->
  match template_promise (snd (lookup_template templateName s)) with
  | Some (Fulfilled _) => True
  | Some (Rejected r) => structured_error r
  | None => False
  end.
Proof.
  intros Hfound. unfold lookup_template. rewrite run_bind, getTemplate_run.
  destruct (compileCache s !! ToString templateName) as [t|] eqn:Hmiss; [exact I|].
  destruct Hfound as [[t Ht]|(file & content & Hfile & Hdisk)]; [discriminate|].
  rewrite Hfile, Hdisk.
  apply readFile_callback_promise_is_reply. reflexivity.
Qed.

(** The callbacks of a lookup whose promise is a reply only make calls
    that are replies. *)
Lemma on_template_replies (base : list Event) (context : JSValue) (s : State) :
  match template_promise s with
  | Some (Fulfilled _) => True
  | Some (Rejected r) => structured_error r
  | None => False
  end ->
  replies_since base s ->
  replies_since base (snd (on_template context s)).
Proof.
  intros Hpromise Hs. unfold on_template. rewrite run_bind. unfold gets. cbn [fst snd].
  destruct (template_promise s) as [[t|r]|]; [| |contradiction].
  - revert s Hs. change (stable (replies_since base) (evaluate_template context t)).
    unfold evaluate_template, generateResult. repeat reply_step.
  - apply (replies_since_settle base (Rejected r) Hpromise s Hs).
Qed.

(** X13: in a named conversion whose template is cached, or for whose file
    a path can be made at which [fs.readFile] does not throw, every call of
    [fulfill] and [reject] passes a success or a status with an error
    descriptor, whatever the message is, whether the file is there and
    whatever the collaborators throw; so does the call that settles the
    task.  The callback of [fs.readFile] and the callbacks of [then] that
    follow it make such calls only, in whatever state they run. *)
Theorem named_attempts_are_replies (msg : TaskMessage) (st : State) :
  task_kind (type msg) = Some NamedConversion ->
  is_Some (compileCache st !! ToString (templateName msg))
  \/ (exists file content,
        template_path (constants st) (templateName msg) = Ok file
        /\ disk st file = Ok content) ->
  (Forall is_reply (attempts (new_events msg st))
   /\ exists o, outcome msg st = Some o /\ is_reply o)
  /\ (forall content context base s,
        template_promise s = None ->
        replies_since base s ->
        replies_since base
          (snd (on_template context (snd (readFile_callback (templateName msg) content s))))).
Proof.
  intros Hkind Hfound.
  assert (Hall : Forall is_reply (attempts (new_events msg st))).
  { destruct (named_validated msg st Hkind)
      as (s1 & Hrun & _ & _ & Hconst & Hcache & _ & _ & Hdisk & Hpre).
    assert (Hfound1 : is_Some (compileCache s1 !! ToString (templateName msg))
                      \/ (exists file content,
                            template_path (constants s1) (templateName msg) = Ok file
                            /\ disk s1 file = Ok content)).
    { rewrite Hcache, Hconst, Hdisk. exact Hfound. }
    pose proof (lookup_template_promise_is_reply (templateName msg) s1 Hfound1) as Hpromise.
    pose proof (lookup_template_replies (events st) (templateName msg) s1 Hpre) as Hlookup.
    destruct (on_template_replies (events st) (named_context msg) _ Hpromise Hlookup)
      as (new & Hev & Hnew).
    unfold new_events. rewrite Hrun, Hev, drop_app_length. exact Hnew. }
  split.
  - split; [exact Hall|].
    destruct (recognised_task_settles msg st NamedConversion Hkind) as (o & later & Hatt & Ho).
    exists o. split; [exact Ho|]. rewrite Hatt in Hall.
    apply Forall_cons in Hall as [Hreply _]. exact Hreply.
  - intros content context base s Hpending Hs.
    apply on_template_replies.
    + apply readFile_callback_promise_is_reply, Hpending.
    + apply readFile_callback_replies, Hs.
Qed.

End StructuredReplies.

(** ** Conversions that interleave *)

Section Interleaving.
Context `{Collaborators}.

(** A named conversion handled to its end is its two turns, the second
    right after the first. *)
Lemma process_in_turns (msg : TaskMessage) (st : State) :
  task_kind (type msg) = Some NamedConversion ->
  process msg st
  = match named_first_turn msg st with
    | (Ok (Some (msgContext, content)), s1) =>
        snd (convert_named_callback msg msgContext content s1)
    | (_, s1) => s1
    end.
Proof.
  intros Hkind. unfold process, handler. rewrite Hkind.
  assert (Hturns : forall context s,
    snd (task_executor (lookup_template (templateName msg);; on_template context) s)
    = match try_catch
              (reading ← getTemplate (templateName msg);
               match reading with
               | Some content => mret (Some (context, content))
               | None => on_template context;; mret None
               end)
              (fun e => reject (ReasonThrown e);; mret None) s with
      | (Ok (Some (msgContext, content)), s1) =>
          snd (convert_named_callback msg msgContext content s1)
      | (_, s1) => s1
      end).
  { intros context s.
    unfold task_executor, try_catch, lookup_template, convert_named_callback.
    rewrite !run_bind.
    destruct (getTemplate (templateName msg) s) as [[[content|]|e] s1]; cbn [fst snd].
    - cbv beta iota delta [mret M_ret]. rewrite !run_bind.
      destruct (readFile_callback_settles (templateName msg) content) as [E T].
      specialize (E s1). destruct (T s1) as [[] Ha].
      destruct (readFile_callback (templateName msg) content s1) as [r s2].
      cbn [fst snd] in *. subst r.
      destruct (on_template_settles context s2 E) as [E1 _].
      destruct (on_template context s2) as [r s3]. cbn [fst] in E1. subst r. reflexivity.
    - cbv beta iota delta [mret M_ret]. rewrite ?run_bind.
      destruct (on_template context s1) as [[[]|e] s2];
        unfold reject, settle_task; run; reflexivity.
    - reflexivity. }
  set (agree := fun (m : M unit) (m' : M (option (JSValue * option string))) (s : State) =>
    snd (task_executor m s)
    = match try_catch m' (fun e => reject (ReasonThrown e);; mret None) s with
      | (Ok (Some (msgContext, content)), s1) =>
          snd (convert_named_callback msg msgContext content s1)
      | (_, s1) => s1
      end).
  assert (Hstep : forall (A : Type) (pre : M A) (k : A -> M unit)
                         (k' : A -> M (option (JSValue * option string))),
             (forall a s, agree (k a) (k' a) s) -> forall s, agree (pre ≫= k) (pre ≫= k') s).
  { intros A pre k k' Hk s. specialize (fun a => Hk a). unfold agree in *.
    unfold task_executor, try_catch in *. rewrite !run_bind.
    destruct (pre s) as [[a|e] s1]; [apply Hk|].
    unfold reject, settle_task. run. reflexivity. }
  change (agree (convert_named msg) (convert_named_call msg) (set_task_promise None st)).
  unfold convert_named, convert_named_call.
  apply Hstep. intros _ s1. apply Hstep. intros v s2. apply Hturns.
Qed.

(** What the turn in which a named conversion is handled does when the
    message parses and the name is not cached: the file is being read and
    the task is left pending. *)
Lemma named_first_turn_reads (msg : TaskMessage) (text name dir : string) (v : JSValue)
    (content : option string) (st : State) :
  named_request msg text name v ->
  compileCache st !! name = None ->
  configured dir st ->
  disk st (path_join dir name) = Ok content ->
  named_first_turn msg st
  = (Ok (Some (JObject [("msg", v)], content)),
     record (EvReadFile (path_join dir name))
       (set_template_promise None (record (EvParse text) (set_task_promise None st)))).
Proof.
  intros (Hkind & Hcontent & Htruthy & Hparse & Hname) Hmiss Hloc Hdisk.
  unfold configured in Hloc.
  unfold named_first_turn, convert_named_call, parse. rewrite Hcontent, Hname, Htruthy.
  cbn [negb]. run. fields. rewrite Hparse, getTemplate_run. fields.
  unfold template_path. fields. rewrite Hmiss, Hloc. cbn [path_join_checked]. rewrite Hdisk.
  reflexivity.
Qed.

(** The callback of [fs.readFile] on a text, in a state whose configuration
    names a location and in which the promise is pending: the text is
    compiled with the handle of an acquisition without a map, and the
    template, if there is one, is put under the name. *)
Lemma readFile_callback_compiled (name dir content : string) (s : State) :
  configured dir s ->
  template_promise s = None ->
  exists s' new,
    readFile_callback (Some name) (Some content) s = (Ok tt, s')
    /\ template_promise s'
       = Some (match compiles (next_handle (JString dir) s) content with
               | Ok t => Fulfilled t
               | Throw e => Rejected (bad_request ("Error during template compilation. "
                                                   +:+ Error_toString e))
               end)
    /\ compileCache s'
       = match compiles (next_handle (JString dir) s) content with
         | Ok t => <[name := t]> (compileCache s)
         | Throw _ => compileCache s
         end
    /\ next_handle (JString dir) s' = next_handle (JString dir) s
    /\ constants s' = constants s
    /\ task_promise s' = task_promise s
    /\ events s' = events s ++ new
    /\ tally is_read new = 0%nat
    /\ tally is_compile new
       = match templatePreprocessor_Process content with Ok _ => 1%nat | Throw _ => 0%nat end.
Proof.
  intros Hloc Hpending.
  destruct (compile_source_undefined dir content s Hloc)
    as (s2 & new & Hrun & Hnext & Hconst & Hcache & _ & Htask & Htempl
        & Hev & Hreads & Hcompiles).
  rewrite Hpending in Htempl.
  unfold readFile_callback, settle_template. run. rewrite Hrun.
  destruct (compiles (next_handle (JString dir) s) content) as [t|e];
    run; fields; eexists; exists new; (split; [reflexivity|]); fields;
    rewrite Htempl, ?Hcache; cbn [settle ToString].
  all: repeat split; try assumption; try reflexivity;
    unfold next_handle in *; fields; exact Hnext.
Qed.

(** Events that are no work of a lookup are neither reads nor compiles. *)
Lemma tally_quiet (new : list Event) :
  Forall (fun e => is_lookup_work e = false) new ->
  tally is_read new = 0%nat /\ tally is_compile new = 0%nat.
Proof.
  induction 1 as [|e new He _ [IHr IHc]]; [split; reflexivity|].
  unfold tally in *. destruct e; try discriminate; cbn; split; assumption.
Qed.

(** The later turn of a conversion whose text compiles to [t], on a
    pending task. *)
Lemma convert_named_callback_compiled (msg : TaskMessage) (name dir content : string)
    (context : JSValue) (t : Template) (s : State) :
  templateName msg = Some name ->
  configured dir s ->
  template_promise s = None ->
  task_promise s = None ->
  compiles (next_handle (JString dir) s) content = Ok t ->
  let s' := snd (convert_named_callback msg context (Some content) s) in
  task_promise s' = Some (conversion_reply "Error during template evaluation. " t context JNull)
  /\ compileCache s' = <[name := t]> (compileCache s)
  /\ next_handle (JString dir) s' = next_handle (JString dir) s
  /\ constants s' = constants s
  /\ exists new,
       events s' = events s ++ new
       /\ tally is_read new = 0%nat
       /\ tally is_compile new = 1%nat.
Proof.
  intros Hname Hloc Hpending Htask Hok s'.
  destruct (readFile_callback_compiled name dir content s Hloc Hpending)
    as (s1 & new & Hrun & Htempl & Hcache & Hnext & Hconst & Htask1 & Hev & Hreads & Hcompiles).
  rewrite Hok in Htempl, Hcache. rewrite Htask in Htask1.
  assert (Hsource : tally is_compile new = 1%nat).
  { rewrite Hcompiles. unfold compiles in Hok.
    destruct (templatePreprocessor_Process content); [reflexivity | discriminate]. }
  assert (Hs' : s' = snd (on_template context s1)).
  { unfold s', convert_named_callback. rewrite run_bind, Hname, Hrun. reflexivity. }
  rewrite Hs'.
  destruct (on_template_fulfilled context t s1 Htempl Htask1) as (Hp & _ & Hc & _).
  assert (Hframe : stable (fun s2 => next_handle (JString dir) s2 = next_handle (JString dir) s1
                                     /\ constants s2 = constants s1)
                          (on_template context)).
  { unfold on_template, evaluate_template, generateResult. repeat frame_step. }
  destruct (Hframe s1 (conj eq_refl eq_refl)) as [Hnext2 Hconst2].
  destruct (on_template_quiet (events s1) context s1) as (new2 & Hev2 & Hquiet).
  { exists []. split; [symmetry; apply app_nil_r | apply Forall_nil; exact I]. }
  destruct (tally_quiet new2 Hquiet) as [Hr2 Hc2].
  rewrite Hp, Hc, Hcache, Hnext2, Hnext, Hconst2, Hconst.
  repeat (split; [reflexivity|]).
  exists (new ++ new2). rewrite Hev2, Hev, <- app_assoc, !tally_app, Hreads, Hsource, Hr2, Hc2.
  repeat split; reflexivity.
Qed.

(** X15: two named conversions of the same name, which is not cached and
    whose text compiles, the second handled before the callback of the
    first has run: both call [fs.readFile] and are left pending; both
    callbacks compile the text and put the template under the name, the
    second over the entry of the first; and each task is fulfilled or
    rejected by the assembler's reply on its own context. *)
Theorem interleaved_lookups_both_compile (a b : TaskMessage)
    (ta tb name dir content : string) (va vb : JSValue) (t : Template) (st : State) :
  named_request a ta name va ->
  named_request b tb name vb ->
  compileCache st !! name = None ->
  configured dir st ->
  disk st (path_join dir name) = Ok (Some content) ->
  compiles (next_handle (JString dir) st) content = Ok t ->
  let ca := JObject [("msg", va)] in
  let cb := JObject [("msg", vb)] in
  let reply c := conversion_reply "Error during template evaluation. " t c JNull in
  let s1 := snd (named_first_turn a st) in
  let s2 := snd (named_first_turn b s1) in
  let s3 := snd (convert_named_callback a ca (Some content) (resumed (task_promise s1) s2)) in
  let s4 := snd (convert_named_callback b cb (Some content) (resumed (task_promise s2) s3)) in
  fst (named_first_turn a st) = Ok (Some (ca, Some content))
  /\ fst (named_first_turn b s1) = Ok (Some (cb, Some content))
  /\ task_promise s1 = None
  /\ task_promise s2 = None
  /\ task_promise s3 = Some (reply ca)
  /\ task_promise s4 = Some (reply cb)
  /\ compileCache s3 = <[name := t]> (compileCache st)
  /\ compileCache s4 = <[name := t]> (compileCache s3)
  /\ reads_since st s4 = 2%nat
  /\ compiles_since st s4 = 2%nat.
Proof.
  intros Ha Hb Hmiss Hloc Hdisk Hok ca cb reply s1 s2 s3 s4.
  pose proof (named_first_turn_reads a ta name dir va (Some content) st Ha Hmiss Hloc Hdisk)
    as Hturn1.
  assert (Hs1 : s1 = record (EvReadFile (path_join dir name))
                       (set_template_promise None
                          (record (EvParse ta) (set_task_promise None st))))
    by (unfold s1; rewrite Hturn1; reflexivity).
  assert (Hturn2 : named_first_turn b s1
                   = (Ok (Some (cb, Some content)),
                      record (EvReadFile (path_join dir name))
                        (set_template_promise None
                           (record (EvParse tb) (set_task_promise None s1))))).
  { apply (named_first_turn_reads b tb name dir vb (Some content) s1 Hb);
      rewrite Hs1; first [exact Hmiss | exact Hloc | exact Hdisk]. }
  assert (Hs2 : s2 = record (EvReadFile (path_join dir name))
                       (set_template_promise None
                          (record (EvParse tb) (set_task_promise None s1))))
    by (unfold s2; rewrite Hturn2; reflexivity).
  assert (Hp1 : task_promise s1 = None) by (rewrite Hs1; reflexivity).
  assert (Hp2 : task_promise s2 = None) by (rewrite Hs2; reflexivity).
  destruct Ha as (_ & _ & _ & _ & Hnamea). destruct Hb as (_ & _ & _ & _ & Hnameb).
  set (r3 := resumed (task_promise s1) s2) in *.
  assert (Hr3 : configured dir r3 /\ next_handle (JString dir) r3 = next_handle (JString dir) st
                /\ compileCache r3 = compileCache st
                /\ events r3 = events st ++ [EvParse ta; EvReadFile (path_join dir name);
                                             EvParse tb; EvReadFile (path_join dir name)]).
  { unfold r3. rewrite Hs2, Hs1. unfold configured, next_handle, resumed. fields.
    rewrite <- !app_assoc. repeat split; try reflexivity. exact Hloc. }
  destruct Hr3 as (Hloc3 & Hnext3 & Hcache3 & Hev3).
  destruct (convert_named_callback_compiled a name dir content ca t r3 Hnamea Hloc3)
    as (Ho3 & Hc3 & Hn3 & Hk3 & new3 & Hnew3 & Hreads3 & Hcompiles3);
    [reflexivity | unfold r3, resumed; fields; exact Hp1 | rewrite Hnext3; exact Hok |].
  fold s3 in Ho3, Hc3, Hn3, Hk3, Hnew3.
  set (r4 := resumed (task_promise s2) s3) in *.
  assert (Hr4 : configured dir r4 /\ next_handle (JString dir) r4 = next_handle (JString dir) st
                /\ compileCache r4 = compileCache s3
                /\ events r4 = events s3).
  { unfold r4, configured, resumed. fields. unfold configured in Hloc3.
    rewrite Hk3. split; [exact Hloc3|]. split; [|split; reflexivity].
    rewrite <- Hnext3, <- Hn3. reflexivity. }
  destruct Hr4 as (Hloc4 & Hnext4 & Hcache4 & Hev4).
  destruct (convert_named_callback_compiled b name dir content cb t r4 Hnameb Hloc4)
    as (Ho4 & Hc4 & _ & _ & new4 & Hnew4 & Hreads4 & Hcompiles4);
    [reflexivity | unfold r4, resumed; fields; exact Hp2 | rewrite Hnext4; exact Hok |].
  fold s4 in Ho4, Hc4, Hnew4.
  rewrite Hturn1. fold s1. rewrite Hturn2.
  split; [reflexivity | split; [reflexivity | split; [exact Hp1 | split; [exact Hp2|]]]].
  split; [exact Ho3 | split; [exact Ho4|]].
  split; [rewrite Hc3, Hcache3; reflexivity | split; [rewrite Hc4, Hcache4; reflexivity|]].
  unfold reads_since, compiles_since.
  rewrite Hnew4, Hev4, Hnew3, Hev3, <- !app_assoc, drop_app_length, !tally_app,
    Hreads3, Hreads4, Hcompiles3, Hcompiles4.
  split; reflexivity.
Qed.

End Interleaving.

(** ** The conversions on the reference collaborators *)

Module ConversionExamples.
Import Reference Scenarios Requests.
#[local] Existing Instance collaborators.

Lemma inline_leaves_cache_and_configuration_witness :
  compileCache (process templated served) = compileCache served
  /\ constants (process templated served) = constants served.
Proof. apply (inline_leaves_cache_and_configuration templated served). reflexivity. Defined.

Lemma named_keeps_cache_entries_witness :
  compileCache (process greeting_request served) !! "greeting.hbs" = Some (quote "hello")
  /\ compileCache
       (snd (on_template context
               (snd (readFile_callback (Some "greeting.hbs") (Some (quote "bye")) served))))
     !! "greeting.hbs" = Some (quote "bye").
Proof.
  destruct (named_keeps_cache_entries greeting_request served) as ((_ & Hkept & _) & _ & Hput);
    [reflexivity|].
  split; [apply Hkept; reflexivity|].
  destruct (Hput (Some (quote "bye")) context served) as (_ & Hcache).
  refine (eq_trans (f_equal (fun c => c !! "greeting.hbs") Hcache) _). reflexivity.
Defined.

Lemma inline_message_failure_witness :
  outcome unreadable initial = Some (Rejected (message_unreadable garbled_error))
  /\ attempts (new_events unreadable initial)
     = [Rejected (message_unreadable garbled_error);
        Fulfilled (Some (mkReply 200 (Envelope (JObject []))))].
Proof.
  destruct (inline_message_failure unreadable garbled_error initial) as (Ho & Hlater);
    [reflexivity | intros []; reflexivity | discriminate | discriminate | reflexivity |].
  split; [exact Ho | apply Hlater; reflexivity].
Defined.

Lemma unparsable_optional_field_stops_witness :
  outcome with_unparsable_dictionary initial
  = Some (Rejected (bad_request "SyntaxError: Unexpected token in JSON"))
  /\ new_events with_unparsable_dictionary initial
     = [EvDecode FReplacementDictionary; EvParse "hello";
        EvSettle (Rejected (bad_request "SyntaxError: Unexpected token in JSON"))].
Proof.
  destruct (unparsable_optional_field_stops with_unparsable_dictionary FReplacementDictionary
              garbled_error initial) as (Ho & Hev);
    [reflexivity | left; reflexivity | intros [] Hg; reflexivity || (simpl in Hg; lia)
    | discriminate | reflexivity | reflexivity |].
  split; [exact Ho | exact Hev].
Defined.

Lemma inline_conversion_outcome_witness :
  outcome templated initial = Some (Fulfilled (Some (mkReply 200 (Envelope parsed))))
  /\ rebuildCache (process templated initial) = false.
Proof.
  destruct (inline_conversion_outcome templated parsed (JObject []) JUndefined initial)
    as (Ho & Hflag);
    [reflexivity | intros []; reflexivity | reflexivity | reflexivity | reflexivity
    | discriminate |].
  split; [exact Ho | exact Hflag].
Defined.

Lemma named_conversion_outcome_witness :
  outcome greeting_request initial
  = Some (Fulfilled (Some (mkReply 200 (Envelope (JString "hello")))))
  /\ compileCache (process greeting_request initial) !! "greeting.hbs" = Some (quote "hello")
  /\ outcome greeting_request served
     = Some (Fulfilled (Some (mkReply 200 (Envelope (JString "hello")))))
  /\ handles_built (process greeting_request served) = handles_built served.
Proof.
  destruct (named_conversion_outcome greeting_request "{}" "greeting.hbs" (JObject []) initial)
    as (_ & Hmiss); [repeat split; reflexivity|].
  destruct (Hmiss "/templates" (quote "hello") (quote "hello")) as (Ho & Hc & _);
    [reflexivity | reflexivity | reflexivity | reflexivity |].
  destruct (named_conversion_outcome greeting_request "{}" "greeting.hbs" (JObject []) served)
    as (Hhit & _); [repeat split; reflexivity|].
  destruct (Hhit (quote "hello")) as (Ho' & _ & _ & Hbuilt); [reflexivity|].
  split; [exact Ho | split; [rewrite Hc; reflexivity | split; [exact Ho' | exact Hbuilt]]].
Defined.

Lemma named_rejected_message_still_looks_up_witness :
  outcome without_message initial = Some (Rejected (bad_request "No message provided."))
  /\ compileCache (process without_message initial) !! "greeting.hbs" = Some (quote "hello").
Proof.
  destruct (named_rejected_message_still_looks_up without_message
              (bad_request "No message provided.") initial) as (Ho & Hstored);
    [reflexivity | reflexivity |].
  split; [exact Ho|].
  rewrite (Hstored "greeting.hbs" "/templates" (quote "hello") (quote "hello"));
    reflexivity.
Defined.

Lemma named_path_error_is_raw_witness :
  outcome without_name initial = Some (Rejected (ReasonThrown path_error))
  /\ compileCache (process without_name initial) = compileCache initial.
Proof.
  destruct (named_path_error_is_raw without_name path_error initial) as (Ho & _ & _ & Hc);
    [reflexivity | reflexivity | reflexivity | reflexivity |].
  split; [exact Ho | exact Hc].
Defined.

Lemma named_conversion_repeated_witness :
  outcome greeting_request (process greeting_request initial)
  = outcome greeting_request initial
  /\ Forall (fun e => is_lookup_work e = false)
            (new_events greeting_request (process greeting_request initial)).
Proof.
  destruct (named_conversion_repeated (H := collaborators) greeting_request "{}" "greeting.hbs" "/templates"
              (quote "hello") (JObject []) (quote "hello") initial) as (Ho & Hq & _);
    [repeat split; reflexivity | reflexivity | reflexivity | reflexivity | reflexivity |].
  split; [exact Ho | exact Hq].
Defined.

Lemma inline_attempts_are_replies_witness :
  Forall is_reply (attempts (new_events twice_bad initial))
  /\ exists o, outcome twice_bad initial = Some o /\ is_reply o.
Proof. apply (inline_attempts_are_replies twice_bad initial). reflexivity. Defined.

Lemma named_attempts_are_replies_witness :
  Forall is_reply (attempts (new_events without_message initial))
  /\ exists o, outcome without_message initial = Some o /\ is_reply o.
Proof.
  apply (named_attempts_are_replies without_message initial); [reflexivity|].
  right. exists "/templates/greeting.hbs", (Some (quote "hello")). split; reflexivity.
Defined.

Lemma unusable_constants_break_named_witness :
  outcome constants_null served = Some (Fulfilled None)
  /\ outcome greeting_request (process constants_null served)
     = Some (Rejected (ReasonThrown null_error)).
Proof.
  apply (unusable_constants_break_named constants_null greeting_request JNull null_error served);
    reflexivity.
Defined.

Lemma interleaved_lookups_both_compile_witness :
  task_promise first_done = Some (Fulfilled (Some (mkReply 200 (Envelope (JString "hello")))))
  /\ task_promise both_done = Some (Fulfilled (Some (mkReply 200 (Envelope (JString "hello")))))
  /\ compileCache both_done !! "greeting.hbs" = Some (quote "hello")
  /\ reads_since initial both_done = 2%nat
  /\ compiles_since initial both_done = 2%nat.
Proof.
  destruct (interleaved_lookups_both_compile (H := collaborators) greeting_request
              greeting_of_list "{}" "[]" "greeting.hbs" "/templates" (quote "hello")
              (JObject []) (JArray []) (quote "hello") initial)
    as (_ & _ & _ & _ & Ha & Hb & _ & Hcache & Hreads & Hcompiles);
    [repeat split; reflexivity | repeat split; reflexivity | reflexivity | reflexivity
    | reflexivity | reflexivity |].
  split; [exact Ha | split; [exact Hb | split; [|split; [exact Hreads | exact Hcompiles]]]].
  refine (eq_trans (f_equal (fun c => c !! "greeting.hbs") Hcache) _). reflexivity.
Defined.

End ConversionExamples.
